(** * DOCX <-> Markdown conversion of notes (open_webui/utils/notes_docx_conversion.py)

    A shallow embedding of the converter and the properties of its
    specification.

    Conventions of the model.
    - A Python [str] is a [string]; a character is an 8-bit code point, so the
      model covers text in the Latin-1 range.  The character classes of
      [str.strip], [str.isdigit], [str.splitlines] and of the regular
      expressions are the Python 3 ones restricted to that range.
    - A Python [dict] with string keys is a [gmap string _].
    - An exception is a value of [exn]; a computation that may raise returns
      [res A].
    - The wall clock and the iteration order of a [set] of strings are inputs of
      the interpreter, not of the converter; they are explicit arguments
      ([now], [rank]) of the functions that read them. *)

From Stdlib Require Import Ascii String NArith ZArith Lia DecimalString.
From stdpp Require Import base option list strings gmap sorting.

Set Warnings "-register-all".

#[local] Open Scope string_scope.
#[local] Open Scope list_scope.
#[local] Open Scope nat_scope.
#[local] Open Scope stdpp_scope.

(** ** Python string primitives *)

Module Py.

Definition chr (n : nat) : ascii := ascii_of_nat n.
Definition ord (c : ascii) : nat := nat_of_ascii c.

(** The double quote and the line feed, which the literals below cannot hold. *)
Definition dq : string := String (chr 34) "".
Definition nl : string := String (chr 10) "".

(** [c.isspace()] for code points below 256. *)
Definition isspace (c : ascii) : bool :=
  let n := ord c in
  (Nat.leb 9 n && Nat.leb n 13) || (Nat.leb 28 n && Nat.leb n 32)
  || Nat.eqb n 133 || Nat.eqb n 160.

(** The line boundaries of [str.splitlines] below 256 (CR LF is handled by
    [splitlines] itself). *)
Definition is_linebreak (c : ascii) : bool :=
  let n := ord c in
  (Nat.leb 10 n && Nat.leb n 13) || (Nat.leb 28 n && Nat.leb n 30)
  || Nat.eqb n 133.

(** [c.isdigit()] below 256: the ten decimal digits and the superscripts
    two, three and one (U+00B2, U+00B3, U+00B9). *)
Definition is_decimal (c : ascii) : bool :=
  let n := ord c in Nat.leb 48 n && Nat.leb n 57.

Definition char_isdigit (c : ascii) : bool :=
  let n := ord c in
  is_decimal c || Nat.eqb n 178 || Nat.eqb n 179 || Nat.eqb n 185.

Definition str_eqb (a b : string) : bool := bool_decide (a = b).

Definition is_empty (s : string) : bool :=
  match s with "" => true | _ => false end.

(** Truthiness of a string: [bool(s)]. *)
Definition truthy (s : string) : bool := negb (is_empty s).

Fixpoint forall_chars (p : ascii -> bool) (s : string) : bool :=
  match s with
  | "" => true
  | String c s' => p c && forall_chars p s'
  end.

Fixpoint lstrip (s : string) : string :=
  match s with
  | "" => ""
  | String c s' => if isspace c then lstrip s' else s
  end.

Fixpoint rstrip (s : string) : string :=
  match s with
  | "" => ""
  | String c s' =>
      let r := rstrip s' in
      if isspace c && is_empty r then "" else String c r
  end.

Definition strip (s : string) : string := rstrip (lstrip s).

Fixpoint startswith (s p : string) {struct p} : bool :=
  match p, s with
  | "", _ => true
  | String c p', String d s' => bool_decide (c = d) && startswith s' p'
  | String _ _, "" => false
  end.

Definition endswith (s p : string) : bool :=
  startswith (String.rev s) (String.rev p).

Fixpoint drop (n : nat) (s : string) : string :=
  match n, s with
  | O, _ => s
  | S n', String _ s' => drop n' s'
  | S _, "" => ""
  end.

Fixpoint take (n : nat) (s : string) : string :=
  match n, s with
  | O, _ => ""
  | S n', String c s' => String c (take n' s')
  | S _, "" => ""
  end.

(** [s.replace(old, new)] for a non-empty [old]: occurrences are replaced
    from left to right without overlap.  [skip] counts the characters of a
    matched occurrence still to be passed over. *)
Fixpoint replace_go (old new : string) (skip : nat) (s : string) : string :=
  match s with
  | "" => ""
  | String c s' =>
      match skip with
      | S k => replace_go old new k s'
      | O =>
          if startswith s old
          then new +:+ replace_go old new (String.length old - 1) s'
          else String c (replace_go old new O s')
      end
  end.

Definition replace (s old new : string) : string := replace_go old new O s.

(** [sep.join(parts)]. *)
Fixpoint join (sep : string) (parts : list string) : string :=
  match parts with
  | [] => ""
  | [p] => p
  | p :: rest => p +:+ sep +:+ join sep rest
  end.

(** [c * n] for a one-character string. *)
Fixpoint times (c : ascii) (n : nat) : string :=
  match n with
  | O => ""
  | S k => String c (times c k)
  end.

(** [s.isdigit()]: non-empty and every character a digit. *)
Definition isdigit (s : string) : bool :=
  truthy s && forall_chars char_isdigit s.

(** [int(s)] on a string for which [isdigit] holds, [None] standing for
    [ValueError]: the superscript digits are digits for [isdigit] but not
    decimal characters, and [int] raises on them; it also raises on more
    than [sys.get_int_max_str_digits()] digits, leading zeros included,
    which is 4300 unless the interpreter is told otherwise (the
    converter does not change it). *)
Fixpoint int_go (acc : N) (s : string) : option N :=
  match s with
  | "" => Some acc
  | String c s' =>
      if is_decimal c
      then int_go (acc * 10 + N.of_nat (ord c - 48))%N s'
      else None
  end.

Definition int_max_str_digits : N := 4300.

Definition int (s : string) : option N :=
  if is_empty s then None
  else if N.ltb int_max_str_digits (N.of_nat (String.length s)) then None
  else int_go 0%N s.

(** [str(n)] for a natural number. *)
Definition str_of_nat (n : nat) : string :=
  NilZero.string_of_uint (Nat.to_uint n).

(** Comparison of strings, code point by code point. *)
Definition str_leb (a b : string) : bool := String.leb a b.

(** [s.splitlines()].  [cur] is the current line, in reverse. *)
Fixpoint splitlines_go (cur : string) (s : string) : list string :=
  match s with
  | "" => if is_empty cur then [] else [String.rev cur]
  | String c s' =>
      if is_linebreak c then
        match s' with
        | String d s'' =>
            if (Nat.eqb (ord c) 13 && Nat.eqb (ord d) 10)%bool
            then String.rev cur :: splitlines_go "" s''
            else String.rev cur :: splitlines_go "" s'
        | "" => [String.rev cur]
        end
      else splitlines_go (String c cur) s'
  end.

Definition splitlines (s : string) : list string := splitlines_go "" s.

(** [s.split(sep)[-1]] for a one-character separator: what follows the last
    occurrence of [sep], the whole string when there is none. *)
Fixpoint contains_char (sep : ascii) (s : string) : bool :=
  match s with
  | "" => false
  | String c s' => bool_decide (c = sep) || contains_char sep s'
  end.

Fixpoint after_last (sep : ascii) (s : string) : string :=
  match s with
  | "" => ""
  | String c s' =>
      if contains_char sep s' then after_last sep s'
      else if bool_decide (c = sep) then s' else s
  end.

(** [html.escape(s)] with [quote=True]. *)
Fixpoint html_escape (s : string) : string :=
  match s with
  | "" => ""
  | String c s' =>
      let n := ord c in
      (if Nat.eqb n 38 then "&amp;"
       else if Nat.eqb n 60 then "&lt;"
       else if Nat.eqb n 62 then "&gt;"
       else if Nat.eqb n 34 then "&quot;"
       else if Nat.eqb n 39 then "&#x27;"
       else String c "") +:+ html_escape s'
  end.

(** The set of the characters of a string: [set(s)]. *)
Definition char_set (s : string) : gset ascii :=
  list_to_set (list_ascii_of_string s).

End Py.

(** ** Exceptions *)

Inductive exn : Type :=
  | BadZipFile
  | ParseError
  | ValueError (msg : string)
  | TypeError
  | KeyError (key : string).

Definition res (A : Type) : Type := exn + A.

Definition ret {A : Type} (a : A) : res A := inr a.
Definition raise {A : Type} (e : exn) : res A := inl e.
Definition bind {A B : Type} (m : res A) (k : A -> res B) : res B :=
  match m with
  | inl e => inl e
  | inr a => k a
  end.

Notation "'let*' x ':=' m 'in' k" := (bind m (fun x => k))
  (at level 10, x pattern, m at level 100, k at level 200).

(** Monadic left fold: a [for] loop whose body may raise. *)
Fixpoint foldM {A S : Type} (body : S -> A -> res S) (l : list A) (s : S) : res S :=
  match l with
  | [] => ret s
  | a :: l' => let* s' := body s a in foldM body l' s'
  end.

(** ** ElementTree *)

Module ET.

(** An [xml.etree.ElementTree.Element]: tag, attributes, text and children
    (the tail text is never read by the converter). *)
Inductive Element : Type :=
  | Elem (tag : string) (attrib : list (string * string))
         (text : option string) (children : list Element).

Definition tag (e : Element) : string := let 'Elem t _ _ _ := e in t.
Definition attrib (e : Element) : list (string * string) := let 'Elem _ a _ _ := e in a.
Definition text (e : Element) : option string := let 'Elem _ _ t _ := e in t.
Definition children (e : Element) : list Element := let 'Elem _ _ _ c := e in c.

(** [e.attrib.get(name)]. *)
Fixpoint attrib_get (a : list (string * string)) (name : string) : option string :=
  match a with
  | [] => None
  | (k, v) :: a' => if Py.str_eqb k name then Some v else attrib_get a' name
  end.

Definition get (e : Element) (name : string) : option string :=
  attrib_get (attrib e) name.

(** [e.findall(tag)]: the children with that tag, in document order. *)
Definition findall (e : Element) (t : string) : list Element :=
  filter (fun c => Py.str_eqb (tag c) t = true) (children e).

(** [e.find(tag)]: the first child with that tag. *)
Definition find (e : Element) (t : string) : option Element :=
  head (findall e t).

(** [e.find(tag) is not None]. *)
Definition has (e : Element) (t : string) : bool :=
  match find e t with Some _ => true | None => false end.

(** The proper descendants of [e], in document order. *)
Fixpoint descendants (e : Element) : list Element :=
  match e with
  | Elem _ _ _ cs =>
      (fix go (l : list Element) : list Element :=
         match l with
         | [] => []
         | c :: l' => c :: descendants c ++ go l'
         end) cs
  end.

(** [e.findall(".//" + tag)] and [e.find(".//" + tag)]. *)
Definition findall_desc (e : Element) (t : string) : list Element :=
  filter (fun c => Py.str_eqb (tag c) t = true) (descendants e).

Definition find_desc (e : Element) (t : string) : option Element :=
  head (findall_desc e t).

(** [t.text or ""]. *)
Definition text_or_empty (e : Element) : string := default "" (text e).

End ET.

(** ** Regular expressions *)

Module Re.

Inductive regex : Type :=
  | Void
  | Eps
  | Cls (p : ascii -> bool)
  | Seq (r1 r2 : regex)
  | Alt (r1 r2 : regex)
  | Star (r : regex).

Fixpoint nullable (r : regex) : bool :=
  match r with
  | Void => false
  | Eps => true
  | Cls _ => false
  | Seq r1 r2 => nullable r1 && nullable r2
  | Alt r1 r2 => nullable r1 || nullable r2
  | Star _ => true
  end.

Fixpoint deriv (c : ascii) (r : regex) : regex :=
  match r with
  | Void => Void
  | Eps => Void
  | Cls p => if p c then Eps else Void
  | Seq r1 r2 =>
      if nullable r1
      then Alt (Seq (deriv c r1) r2) (deriv c r2)
      else Seq (deriv c r1) r2
  | Alt r1 r2 => Alt (deriv c r1) (deriv c r2)
  | Star r1 => Seq (deriv c r1) (Star r1)
  end.

(** Some prefix of [s] matches [r]: [re.match(r, s)] succeeds. *)
Fixpoint match_prefix (r : regex) (s : string) : bool :=
  nullable r ||
  match s with
  | "" => false
  | String c s' => match_prefix (deriv c r) s'
  end.

(** Some substring of [s] matches [r]: [re.search(r, s)] succeeds. *)
Fixpoint search (r : regex) (s : string) : bool :=
  match_prefix r s ||
  match s with
  | "" => false
  | String _ s' => search r s'
  end.

Definition chr (c : ascii) : regex := Cls (fun d => bool_decide (d = c)).
Definition not_chr (c : ascii) : regex := Cls (fun d => negb (bool_decide (d = c))).
(** [.] without DOTALL: any character but the line feed. *)
Definition dot : regex := not_chr (Py.chr 10).
(** [\s]. *)
Definition space : regex := Cls Py.isspace.
Definition plus (r : regex) : regex := Seq r (Star r).
Definition opt (r : regex) : regex := Alt r Eps.

Fixpoint lit (s : string) : regex :=
  match s with
  | "" => Eps
  | String c s' => Seq (chr c) (lit s')
  end.

End Re.

(** ** The conversion report *)

Record Mapped : Type := mkMapped {
  styles : nat;
  tables : nat;
  images : nat;
  footnotes : nat;
  comments : nat
}.

(** The [report] dictionary.  Import sets ["source"]; export has no such
    key. *)
Record Report : Type := mkReport {
  source : option string;
  mapped : Mapped;
  unsupported_elements : list string;
  lossy : bool
}.

Definition mapped0 : Mapped := mkMapped 0 0 0 0 0.

Definition set_mapped (f : Mapped -> Mapped) (r : Report) : Report :=
  mkReport (source r) (f (mapped r)) (unsupported_elements r) (lossy r).

(** [report["mapped"][k] += 1]. *)
Definition inc_styles : Report -> Report :=
  set_mapped (fun m => mkMapped (styles m + 1) (tables m) (images m) (footnotes m) (comments m)).
Definition inc_tables : Report -> Report :=
  set_mapped (fun m => mkMapped (styles m) (tables m + 1) (images m) (footnotes m) (comments m)).
Definition inc_images : Report -> Report :=
  set_mapped (fun m => mkMapped (styles m) (tables m) (images m + 1) (footnotes m) (comments m)).
Definition inc_footnotes : Report -> Report :=
  set_mapped (fun m => mkMapped (styles m) (tables m) (images m) (footnotes m + 1) (comments m)).
Definition inc_comments : Report -> Report :=
  set_mapped (fun m => mkMapped (styles m) (tables m) (images m) (footnotes m) (comments m + 1)).

(** [report["mapped"]["styles"] = n]. *)
Definition set_styles (n : nat) : Report -> Report :=
  set_mapped (fun m => mkMapped n (tables m) (images m) (footnotes m) (comments m)).

(** [report["unsupported_elements"].append(name)]: [lossy] is left as it is. *)
Definition append_unsupported (name : string) (r : Report) : Report :=
  mkReport (source r) (mapped r) (unsupported_elements r ++ [name]) (lossy r).

(** ** Sets and sorting *)

(** Stable insertion sort by a key: [sorted(xs, key=...)] once the keys are
    known to be comparable.  Elements with equal keys keep their order. *)
Section Sorting.
Context {A K : Type} (key : A -> K) (leb : K -> K -> bool).

Fixpoint insert_by (x : A) (l : list A) : list A :=
  match l with
  | [] => [x]
  | y :: l' => if leb (key x) (key y) then x :: l else y :: insert_by x l'
  end.

Definition sort_by (l : list A) : list A :=
  foldr (fun x acc => insert_by x acc) [] l.
End Sorting.

(** Iteration over [set(xs)]: every distinct element once, in an order that
    CPython derives from the string hashes, which are seeded per process.
    [rank] stands for that order; any [rank] yields a permutation of the
    distinct elements. *)
Definition set_iter (rank : string -> N) (xs : list string) : list string :=
  sort_by rank N.leb (remove_dups xs).

(** [sorted(set(xs))] on strings. *)
Definition sorted_set (rank : string -> N) (xs : list string) : list string :=
  sort_by id Py.str_leb (set_iter rank xs).

(** The key [lambda x: int(x) if x.isdigit() else x]. *)
Inductive sort_key : Type :=
  | KInt (n : N)
  | KStr (s : string).

Definition id_key (x : string) : res sort_key :=
  if Py.isdigit x then
    match Py.int x with
    | Some n => ret (KInt n)
    | None => raise (ValueError "invalid literal for int() with base 10")
    end
  else ret (KStr x).

Definition is_int_key (k : sort_key) : bool :=
  match k with KInt _ => true | KStr _ => false end.

(** Order on keys of one kind.  Keys of different kinds are never compared
    by [sorted_ids]. *)
Definition key_leb (a b : sort_key) : bool :=
  match a, b with
  | KInt m, KInt n => N.leb m n
  | KStr s, KStr t => Py.str_leb s t
  | KInt _, KStr _ => true
  | KStr _, KInt _ => false
  end.

Fixpoint mapM {A B : Type} (f : A -> res B) (l : list A) : res (list B) :=
  match l with
  | [] => ret []
  | a :: l' => let* b := f a in let* bs := mapM f l' in ret (b :: bs)
  end.

(** [sorted(set(ids), key=lambda x: int(x) if x.isdigit() else x)].
    The keys are computed first.  When integer and string keys are both
    present the sort has to compare an [int] with a [str], which raises
    [TypeError] in Python 3. *)
Definition sorted_ids (rank : string -> N) (ids : list string) : res (list string) :=
  let xs := set_iter rank ids in
  let* keyed := mapM (fun x => let* k := id_key x in ret (k, x)) xs in
  if existsb (fun kx => is_int_key (fst kx)) keyed
     && existsb (fun kx => negb (is_int_key (fst kx))) keyed
  then raise TypeError
  else ret (map snd (sort_by fst key_leb keyed)).

(** ** Constants of the format *)

Definition W_NS : string := "http://schemas.openxmlformats.org/wordprocessingml/2006/main".
Definition R_NS : string := "http://schemas.openxmlformats.org/officeDocument/2006/relationships".
Definition PKG_REL_NS : string := "http://schemas.openxmlformats.org/package/2006/relationships".
Definition CONTENT_TYPES_NS : string := "http://schemas.openxmlformats.org/package/2006/content-types".
Definition A_NS : string := "http://schemas.openxmlformats.org/drawingml/2006/main".

Definition _qn (ns name : string) : string := "{" +:+ ns +:+ "}" +:+ name.

(** Shorthand for the tags of the main namespace. *)
Definition w (name : string) : string := _qn W_NS name.

(** ** Archives *)

Definition bytes : Type := list Byte.byte.

(** An opened [zipfile.ZipFile]: its members in archive order, each with
    the bytes that [read] returns for it.  An archive with a member that
    [read] refuses (encrypted, damaged, or compressed by a method the
    interpreter lacks) is not represented. *)
Definition ZipFile : Type := list (string * bytes).

Definition namelist (z : ZipFile) : list string := map fst z.

(** [name in docx_zip.namelist()]. *)
Definition has_member (z : ZipFile) (name : string) : bool :=
  bool_decide (name ∈ namelist z).

(** [docx_zip.read(name)]: of several members of one name the last wins. *)
Definition zip_read (z : ZipFile) (name : string) : res bytes :=
  match filter (fun e => Py.str_eqb (fst e) name = true) (reverse z) with
  | e :: _ => ret (snd e)
  | [] => raise (KeyError name)
  end.

(** ** Import *)

Record DocxAttachment : Type := mkAttachment {
  att_filename : string;
  att_mime_type : string;
  att_content_base64 : string;
  att_stored_at : string
}.

Record DocxConversionResult : Type := mkResult {
  title : string;
  markdown : string;
  html : string;
  report : Report;
  original_attachment : option DocxAttachment
}.

(** The text of an auxiliary entry:
    [" ".join(t.text or "" for t in e.findall(".//w:t")).strip()]. *)
Definition entry_text (e : ET.Element) : string :=
  Py.strip (Py.join " " (map ET.text_or_empty (ET.findall_desc e (w "t")))).

(** One turn of the loop of [_extract_footnotes]: the pair stored in the
    table, or [None] when the entry is skipped. *)
Definition footnote_entry (fn : ET.Element) : option (string * string) :=
  match ET.get fn (w "id") with
  | None => None
  | Some fn_id =>
      if negb (Py.truthy fn_id) || Py.startswith fn_id "-" then None
      else
        let text := entry_text fn in
        if Py.truthy text then Some (fn_id, text) else None
  end.

(** One turn of the loop of [_extract_comments]. *)
Definition comment_entry (comment : ET.Element) : option (string * string) :=
  let cid := ET.get comment (w "id") in
  let text := entry_text comment in
  match cid with
  | Some cid => if Py.truthy cid && Py.truthy text then Some (cid, text) else None
  | None => None
  end.

(** The dictionary built by a loop of optional insertions. *)
Definition collect (entry : ET.Element -> option (string * string))
    (es : list ET.Element) : gmap string string :=
  fold_left (fun m e => match entry e with
                        | Some (k, v) => <[k := v]> m
                        | None => m
                        end) es ∅.

Definition footnotes_of (root : ET.Element) : gmap string string :=
  collect footnote_entry (ET.findall root (w "footnote")).

Definition comments_of (root : ET.Element) : gmap string string :=
  collect comment_entry (ET.findall root (w "comment")).

Definition relationship_entry (rel : ET.Element) : option (string * string) :=
  match ET.get rel "Id", ET.get rel "Target" with
  | Some rid, Some target =>
      if Py.truthy rid && Py.truthy target then Some (rid, target) else None
  | _, _ => None
  end.

Definition relationships_of (root : ET.Element) : gmap string string :=
  collect relationship_entry (ET.findall root (_qn PKG_REL_NS "Relationship")).

Definition _run_to_markdown (run : ET.Element) (report : Report)
    (rel_map : gmap string string) : string * Report :=
  let text := Py.join "" (map ET.text_or_empty (ET.findall run (w "t"))) in
  let text :=
    match ET.find run (w "rPr") with
    | Some run_props =>
        let text := if ET.has run_props (w "b") then "**" +:+ text +:+ "**" else text in
        let text := if ET.has run_props (w "i") then "*" +:+ text +:+ "*" else text in
        if ET.has run_props (w "u") then "<u>" +:+ text +:+ "</u>" else text
    | None => text
    end in
  match ET.find run (w "drawing") with
  | Some drawing =>
      let embedded :=
        match ET.find_desc drawing (_qn A_NS "blip") with
        | Some blip =>
            match ET.get blip (_qn R_NS "embed") with
            | Some rid => if Py.truthy rid then Some rid else None
            | None => None
            end
        | None => None
        end in
      match embedded with
      | Some rid =>
          let target := default "embedded-image" (rel_map !! rid) in
          ("![Image](" +:+ target +:+ ")", inc_images report)
      | None => (text, append_unsupported "drawing" report)
      end
  | None => (text, report)
  end.

(** [_run_to_markdown] over the runs of a paragraph, in order, the report
    threaded through. *)
Fixpoint runs_to_markdown (runs : list ET.Element) (report : Report)
    (rel_map : gmap string string) : list string * Report :=
  match runs with
  | [] => ([], report)
  | r :: runs' =>
      let '(t, report) := _run_to_markdown r report rel_map in
      let '(ts, report) := runs_to_markdown runs' report rel_map in
      (t :: ts, report)
  end.

(** The text of one paragraph of a table cell. *)
Definition cell_paragraph (p : ET.Element) (report : Report)
    (rel_map : gmap string string) : string * Report :=
  let '(parts, report) := runs_to_markdown (ET.findall p (w "r")) report rel_map in
  (Py.strip (Py.join "" parts), report).

(** The non-empty paragraphs of a cell, in order. *)
Fixpoint cell_paragraphs (ps : list ET.Element) (report : Report)
    (rel_map : gmap string string) : list string * Report :=
  match ps with
  | [] => ([], report)
  | p :: ps' =>
      let '(paragraph, report) := cell_paragraph p report rel_map in
      let '(cells, report) := cell_paragraphs ps' report rel_map in
      (if Py.truthy paragraph then paragraph :: cells else cells, report)
  end.

Definition table_cell (tc : ET.Element) (report : Report)
    (rel_map : gmap string string) : string * Report :=
  let '(cells, report) := cell_paragraphs (ET.findall tc (w "p")) report rel_map in
  (match cells with [] => "" | _ => Py.join "<br/>" cells end, report).

Fixpoint table_cells (tcs : list ET.Element) (report : Report)
    (rel_map : gmap string string) : list string * Report :=
  match tcs with
  | [] => ([], report)
  | tc :: tcs' =>
      let '(c, report) := table_cell tc report rel_map in
      let '(row, report) := table_cells tcs' report rel_map in
      (c :: row, report)
  end.

(** The rows of a table; a row without cells is left out. *)
Fixpoint table_rows (trs : list ET.Element) (report : Report)
    (rel_map : gmap string string) : list (list string) * Report :=
  match trs with
  | [] => ([], report)
  | tr :: trs' =>
      let '(row, report) := table_cells (ET.findall tr (w "tc")) report rel_map in
      let '(rows, report) := table_rows trs' report rel_map in
      (match row with [] => rows | _ => row :: rows end, report)
  end.

(** [f"| {' | '.join(cells)} |"]. *)
Definition row_line (cells : list string) : string :=
  "| " +:+ Py.join " | " cells +:+ " |".

(** [(row + [""] * max(0, len(header) - len(row)))[:len(header)]]. *)
Definition pad_row (header row : list string) : list string :=
  let padded :=
    row ++ replicate (Z.to_nat (Z.max 0 (Z.of_nat (length header) - Z.of_nat (length row)))) "" in
  take (length header) padded.

(** The lines of a table whose rows are [header :: rest]. *)
Definition md_rows (header : list string) (rest : list (list string)) : list string :=
  [row_line header; row_line (replicate (length header) "---")]
  ++ map (fun row => row_line (pad_row header row)) rest.

Definition _parse_table (table : ET.Element) (report : Report)
    (rel_map : gmap string string) : string * Report :=
  let '(rows, report) := table_rows (ET.findall table (w "tr")) report rel_map in
  match rows with
  | [] => ("", report)
  | header :: rest => (Py.join Py.nl (md_rows header rest), inc_tables report)
  end.

(** The state of the walk over the body in [import_docx]. *)
Record Walk : Type := mkWalk {
  wk_report : Report;
  blocks : list string;
  encountered_footnotes : list string;
  encountered_comments : list string
}.

(** Lines 167-180: the heading prefix of a paragraph style. *)
Definition style_prefix (style_val : string) (report : Report) : res (string * Report) :=
  if Py.startswith style_val "Heading" then
    let level := Py.replace style_val "Heading" "" in
    if Py.isdigit level then
      match Py.int level with
      | Some n =>
          ret (Py.times "#" (N.to_nat (N.min 6 n)) +:+ " ", inc_styles report)
      | None => raise (ValueError "invalid literal for int() with base 10")
      end
    else ret ("", report)
  else if Py.str_eqb style_val "Title" || Py.str_eqb style_val "Subtitle" then
    ret (if Py.str_eqb style_val "Subtitle" then "## " else "# ", inc_styles report)
  else ret ("", report).

Definition paragraph_prefix (child : ET.Element) (report : Report) : res (string * Report) :=
  match ET.find child (w "pPr") with
  | Some p_props =>
      match ET.find p_props (w "pStyle") with
      | Some p_style => style_prefix (default "" (ET.get p_style (w "val"))) report
      | None => ret ("", report)
      end
  | None => ret ("", report)
  end.

(** The references of a paragraph that resolve against an auxiliary table:
    [ref_id and ref_id in table]. *)
Definition resolved_refs (child : ET.Element) (ref_tag : string)
    (table : gmap string string) : list string :=
  omap (fun ref =>
          match ET.get ref (w "id") with
          | Some ref_id =>
              if Py.truthy ref_id && bool_decide (is_Some (table !! ref_id))
              then Some ref_id else None
          | None => None
          end)
       (ET.findall_desc child (w ref_tag)).

Definition n_times {A : Type} (f : A -> A) (n : nat) (a : A) : A := Nat.iter n f a.

(** Lines 166-202: a paragraph of the body. *)
Definition import_paragraph (rel_map footnotes comments : gmap string string)
    (st : Walk) (child : ET.Element) : res Walk :=
  let* pr := paragraph_prefix child (wk_report st) in
  let '(prefix, report) := pr in
  let '(run_parts, report) := runs_to_markdown (ET.findall child (w "r")) report rel_map in
  let fn_ids := resolved_refs child "footnoteReference" footnotes in
  let report := n_times inc_footnotes (length fn_ids) report in
  let c_ids := resolved_refs child "commentReference" comments in
  let report := n_times inc_comments (length c_ids) report in
  let parts :=
    run_parts ++ map (fun fn_id => "[^" +:+ fn_id +:+ "]") fn_ids
              ++ map (fun cid => "[comment:" +:+ cid +:+ "]") c_ids in
  let text := Py.strip (prefix +:+ Py.join "" parts) in
  ret (mkWalk report
              (if Py.truthy text then blocks st ++ [text] else blocks st)
              (encountered_footnotes st ++ fn_ids)
              (encountered_comments st ++ c_ids)).

(** Lines 165-208: one child of the body. *)
Definition import_child (rel_map footnotes comments : gmap string string)
    (st : Walk) (child : ET.Element) : res Walk :=
  if Py.str_eqb (ET.tag child) (w "p") then
    import_paragraph rel_map footnotes comments st child
  else if Py.str_eqb (ET.tag child) (w "tbl") then
    let '(table_md, report) := _parse_table child (wk_report st) rel_map in
    ret (mkWalk report
                (if Py.truthy table_md then blocks st ++ [table_md] else blocks st)
                (encountered_footnotes st) (encountered_comments st))
  else if negb (Py.str_eqb (ET.tag child) (w "sectPr")) then
    ret (mkWalk (append_unsupported (Py.after_last "}" (ET.tag child)) (wk_report st))
                (blocks st) (encountered_footnotes st) (encountered_comments st))
  else ret st.

(** Lines 210-218: a trailing section, appended when some reference was
    encountered: its heading, then one line per distinct id in sorted
    order.  [table[fid]] raises [KeyError] on a missing id. *)
Definition trailing_section (rank : string -> N) (heading : string)
    (line : string -> string -> string) (table : gmap string string)
    (encountered : list string) (blocks : list string) : res (list string) :=
  match encountered with
  | [] => ret blocks
  | _ =>
      let* ids := sorted_ids rank encountered in
      let* entries :=
        mapM (fun fid => match table !! fid with
                         | Some body => ret (line fid body)
                         | None => raise (KeyError fid)
                         end) ids in
      ret (blocks ++ [heading] ++ entries)
  end.

Definition footnote_line (fid body : string) : string := "[^" +:+ fid +:+ "]: " +:+ body.
Definition comment_line (cid body : string) : string := "- [" +:+ cid +:+ "] " +:+ body.

(** [bool(l)] for a list. *)
Definition nonempty {A : Type} (l : list A) : bool :=
  match l with [] => false | _ => true end.

(** Lines 223-225: the finalisation of the report. *)
Definition finalize (rank : string -> N) (r : Report) : Report :=
  let unsupported := sorted_set rank (unsupported_elements r) in
  mkReport (source r) (mapped r) unsupported (nonempty unsupported).

(** Lines 135-146. *)
Definition import_report0 (filename : string) : Report :=
  mkReport (Some filename) mapped0 [] false.

(** Lines 156-218 of [import_docx]: from the parsed main document and the
    three tables to the blocks and the accumulated report. *)
Definition import_document (rank : string -> N)
    (rel_map footnotes comments : gmap string string)
    (root : ET.Element) (report : Report) : res (list string * Report) :=
  match ET.find root (w "body") with
  | None => raise (ValueError "Invalid DOCX file: missing body")
  | Some body =>
      let* st := foldM (import_child rel_map footnotes comments)
                       (ET.children body) (mkWalk report [] [] []) in
      let* blocks := trailing_section rank (Py.nl +:+ "## Footnotes") footnote_line
                       footnotes (encountered_footnotes st) (blocks st) in
      let* blocks := trailing_section rank (Py.nl +:+ "## Comments") comment_line
                       comments (encountered_comments st) blocks in
      ret (blocks, wk_report st)
  end.

Definition to_lower (c : ascii) : ascii :=
  let n := Py.ord c in
  if Nat.leb 65 n && Nat.leb n 90 then Py.chr (n + 32) else c.

Fixpoint lower (s : string) : string :=
  match s with
  | "" => ""
  | String c s' => String (to_lower c) (lower s')
  end.

(** [re.sub(r"\.docx$", "", filename, flags=re.IGNORECASE)]: the dollar
    matches at the end and before a line feed that ends the string. *)
Definition strip_docx (filename : string) : string :=
  let n := String.length filename in
  if Py.endswith (lower filename) ".docx" then Py.take (n - 5) filename
  else if Py.endswith (lower filename) (".docx" +:+ Py.nl)
  then Py.take (n - 6) filename +:+ Py.nl
  else filename.

Definition DOCX_MIME : string :=
  "application/vnd.openxmlformats-officedocument.wordprocessingml.document".

Section ImportDocx.

(** The libraries the converter calls.  [zip_open] is
    [zipfile.ZipFile(io.BytesIO(content))], [None] standing for
    [BadZipFile]; [fromstring] is [ET.fromstring], [None] standing for
    [ParseError] (what else the two libraries may raise is not
    represented); [render] is [markdown.markdown]; [b64encode] is
    [base64.b64encode(...).decode("utf-8")]. *)
Variable zip_open : bytes -> option ZipFile.
Variable fromstring : bytes -> option ET.Element.
Variable render : string -> string.
Variable b64encode : bytes -> string.

Definition parse_part (docx_zip : ZipFile) (path : string) : res ET.Element :=
  let* data := zip_read docx_zip path in
  match fromstring data with
  | Some root => ret root
  | None => raise ParseError
  end.

(** A table read from an optional part: empty when the part is absent. *)
Definition optional_table (docx_zip : ZipFile) (path : string)
    (of_root : ET.Element -> gmap string string) : res (gmap string string) :=
  if negb (has_member docx_zip path) then ret ∅
  else let* root := parse_part docx_zip path in ret (of_root root).

Definition _build_relationship_map (docx_zip : ZipFile) : res (gmap string string) :=
  optional_table docx_zip "word/_rels/document.xml.rels" relationships_of.

Definition _extract_footnotes (docx_zip : ZipFile) : res (gmap string string) :=
  optional_table docx_zip "word/footnotes.xml" footnotes_of.

Definition _extract_comments (docx_zip : ZipFile) : res (gmap string string) :=
  optional_table docx_zip "word/comments.xml" comments_of.

(** [now] is [datetime.now(timezone.utc).isoformat()] at the time of the
    call. *)
Definition import_docx (now : string) (rank : string -> N)
    (content : bytes) (filename : string) (store_original_attachment : bool)
    : res DocxConversionResult :=
  match zip_open content with
  | None => raise BadZipFile
  | Some docx_zip =>
      if negb (has_member docx_zip "word/document.xml")
      then raise (ValueError "Invalid DOCX file: missing word/document.xml")
      else
        let* rel_map := _build_relationship_map docx_zip in
        let* footnotes := _extract_footnotes docx_zip in
        let* comments := _extract_comments docx_zip in
        let* root := parse_part docx_zip "word/document.xml" in
        let* walked := import_document rank rel_map footnotes comments root
                         (import_report0 filename) in
        let '(blocks, report) := walked in
        let markdown_content := Py.strip (Py.join (Py.nl +:+ Py.nl) blocks) in
        let html_content := render markdown_content in
        let report := finalize rank report in
        let attachment :=
          if store_original_attachment
          then Some (mkAttachment filename DOCX_MIME (b64encode content) now)
          else None in
        let title :=
          let t := strip_docx filename in
          if Py.truthy t then t else "Imported Document" in
        ret (mkResult title markdown_content html_content report attachment)
  end.

End ImportDocx.

(** ** Export *)

(** The XML literals of the source hold double quotes; they are written here
    with apostrophes, which [q] turns into double quotes (none of them holds an
    apostrophe of its own). *)
Definition q (s : string) : string := Py.replace s "'" Py.dq.

Definition pipe_delimited (line : string) : bool :=
  Py.startswith (Py.strip line) "|" && Py.endswith (Py.strip line) "|".

(** [set(line.replace("|", "").strip()) == {"-"}]. *)
Definition separator_row (line : string) : bool :=
  bool_decide (Py.char_set (Py.strip (Py.replace line "|" "")) = {[ "-"%char ]}).

Definition blank (line : string) : bool := negb (Py.truthy (Py.strip line)).

(** The number of leading hash signs: the [while] loop of line 265. *)
Fixpoint heading_level (line : string) : nat :=
  match line with
  | String "#" line' => S (heading_level line')
  | _ => 0
  end.

(** Lines 264-276: the paragraph of a line that is not blank. *)
Definition paragraph_xml (line : string) : string :=
  let hl := heading_level line in
  let text :=
    if negb (Nat.eqb hl 0) && Py.str_eqb (Py.take 1 (Py.drop hl line)) " "
    then Py.strip (Py.drop hl line) else line in
  let escaped := Py.html_escape text in
  let ppr :=
    if Nat.leb 1 hl && Nat.leb hl 6
    then q "<w:pPr><w:pStyle w:val='Heading" +:+ Py.str_of_nat hl +:+ q "'/></w:pPr>"
    else "" in
  "<w:p>" +:+ ppr +:+ q "<w:r><w:t xml:space='preserve'>" +:+ escaped +:+ "</w:t></w:r></w:p>".

(** Lines 252-276: one turn of the line scanner.  It takes the [in_table]
    flag and a line, and gives the flag after the line and the paragraph
    appended for it, if any. *)
Definition scan_line (in_table : bool) (line : string) : bool * option string :=
  if pipe_delimited line then (true, None)
  else if in_table && (separator_row line || blank line) then (in_table, None)
  else
    let in_table := if in_table && negb (pipe_delimited line) then false else in_table in
    if blank line then (in_table, Some "<w:p/>")
    else (in_table, Some (paragraph_xml line)).

Fixpoint scan_lines (in_table : bool) (lines : list string) : list string :=
  match lines with
  | [] => []
  | line :: lines' =>
      let '(in_table, p) := scan_line in_table line in
      match p with
      | Some par => par :: scan_lines in_table lines'
      | None => scan_lines in_table lines'
      end
  end.

Definition _md_to_docx_xml (title md : string) : string :=
  let paragraphs := scan_lines false (Py.splitlines md) in
  let body := Py.join "" paragraphs in
  Py.join Py.nl [
    q "<?xml version='1.0' encoding='UTF-8' standalone='yes'?>";
    q "<w:document xmlns:wpc='http://schemas.microsoft.com/office/word/2010/wordprocessingCanvas' xmlns:mc='http://schemas.openxmlformats.org/markup-compatibility/2006' xmlns:o='urn:schemas-microsoft-com:office:office' xmlns:r='"
      +:+ R_NS +:+
      q "' xmlns:m='http://schemas.openxmlformats.org/officeDocument/2006/math' xmlns:v='urn:schemas-microsoft-com:vml' xmlns:wp14='http://schemas.microsoft.com/office/word/2010/wordprocessingDrawing' xmlns:wp='http://schemas.openxmlformats.org/drawingml/2006/wordprocessingDrawing' xmlns:w10='urn:schemas-microsoft-com:office:word' xmlns:w='"
      +:+ W_NS +:+ q "' mc:Ignorable='w14 wp14'>";
    "  <w:body>" +:+ body +:+
      q "<w:sectPr><w:pgSz w:w='12240' w:h='15840'/><w:pgMar w:top='1440' w:right='1440' w:bottom='1440' w:left='1440'/></w:sectPr></w:body>";
    "</w:document>" ].

(** The patterns of the fidelity scan. *)
Definition hash : Re.regex := Re.chr "#".

(** [#{1,6}\s]. *)
Definition re_heading_marker : Re.regex :=
  Re.Seq hash (Re.Seq (Re.opt hash) (Re.Seq (Re.opt hash) (Re.Seq (Re.opt hash)
    (Re.Seq (Re.opt hash) (Re.Seq (Re.opt hash) Re.space))))).

(** [\|.*\|]. *)
Definition re_table : Re.regex :=
  Re.Seq (Re.chr "|") (Re.Seq (Re.Star Re.dot) (Re.chr "|")).

(** [!\[[^\]]*\]\([^\)]+\)]. *)
Definition re_image : Re.regex :=
  Re.Seq (Re.lit "![") (Re.Seq (Re.Star (Re.not_chr "]"))
    (Re.Seq (Re.lit "](") (Re.Seq (Re.plus (Re.not_chr ")")) (Re.chr ")")))).

(** [\[\^[^\]]+\]]. *)
Definition re_footnote : Re.regex :=
  Re.Seq (Re.lit "[^") (Re.Seq (Re.plus (Re.not_chr "]")) (Re.chr "]")).

(** [len(re.findall("^" + r, s, flags=re.MULTILINE))] for a pattern [r] whose
    matches hold no line feed but possibly as their last character: the
    number of line starts (the start of the text and what follows a line
    feed) at which [r] matches.  [bol] tells whether [s] starts a line. *)
Fixpoint count_at_line_starts (r : Re.regex) (bol : bool) (s : string) : nat :=
  (if bol && Re.match_prefix r s then 1 else 0) +
  match s with
  | "" => 0
  | String c s' => count_at_line_starts r (Nat.eqb (Py.ord c) 10) s'
  end.

(** Lines 286-303: the report of an export. *)
Definition export_report (rank : string -> N) (markdown_content : string) : Report :=
  let report := mkReport None mapped0 [] false in
  let report := set_styles (count_at_line_starts re_heading_marker true markdown_content) report in
  let report := if Re.search re_table markdown_content
                then append_unsupported "tables" report else report in
  let report := if Re.search re_image markdown_content
                then append_unsupported "images" report else report in
  let report := if Re.search re_footnote markdown_content
                then append_unsupported "footnotes" report else report in
  finalize rank report.

Definition content_types : string :=
  Py.join Py.nl [
    q "<?xml version='1.0' encoding='UTF-8' standalone='yes'?>";
    q "<Types xmlns='" +:+ CONTENT_TYPES_NS +:+ q "'>";
    q "  <Default Extension='rels' ContentType='application/vnd.openxmlformats-package.relationships+xml'/>";
    q "  <Default Extension='xml' ContentType='application/xml'/>";
    q "  <Override PartName='/word/document.xml' ContentType='application/vnd.openxmlformats-officedocument.wordprocessingml.document.main+xml'/>";
    q "  <Override PartName='/docProps/core.xml' ContentType='application/vnd.openxmlformats-package.core-properties+xml'/>";
    q "  <Override PartName='/docProps/app.xml' ContentType='application/vnd.openxmlformats-officedocument.extended-properties+xml'/>";
    "</Types>" ].

Definition rels : string :=
  Py.join Py.nl [
    q "<?xml version='1.0' encoding='UTF-8' standalone='yes'?>";
    q "<Relationships xmlns='" +:+ PKG_REL_NS +:+ q "'>";
    q "  <Relationship Id='rId1' Type='http://schemas.openxmlformats.org/officeDocument/2006/relationships/officeDocument' Target='word/document.xml'/>";
    q "  <Relationship Id='rId2' Type='http://schemas.openxmlformats.org/package/2006/relationships/metadata/core-properties' Target='docProps/core.xml'/>";
    q "  <Relationship Id='rId3' Type='http://schemas.openxmlformats.org/officeDocument/2006/relationships/extended-properties' Target='docProps/app.xml'/>";
    "</Relationships>" ].

Definition app_xml : string :=
  Py.join Py.nl [
    q "<?xml version='1.0' encoding='UTF-8' standalone='yes'?>";
    q "<Properties xmlns='http://schemas.openxmlformats.org/officeDocument/2006/extended-properties' xmlns:vt='http://schemas.openxmlformats.org/officeDocument/2006/docPropsVTypes'><Application>Open WebUI</Application></Properties>" ].

(** [now] is [datetime.now(timezone.utc).isoformat()] at the time of the
    call. *)
Definition core_xml (now title : string) : string :=
  let now := Py.replace now "+00:00" "Z" in
  Py.join Py.nl [
    q "<?xml version='1.0' encoding='UTF-8' standalone='yes'?>";
    q "<cp:coreProperties xmlns:cp='http://schemas.openxmlformats.org/package/2006/metadata/core-properties' xmlns:dc='http://purl.org/dc/elements/1.1/' xmlns:dcterms='http://purl.org/dc/terms/' xmlns:dcmitype='http://purl.org/dc/dcmitype/' xmlns:xsi='http://www.w3.org/2001/XMLSchema-instance'><dc:title>"
      +:+ Py.html_escape title +:+
      q "</dc:title><dc:creator>Open WebUI</dc:creator><cp:lastModifiedBy>Open WebUI</cp:lastModifiedBy><dcterms:created xsi:type='dcterms:W3CDTF'>"
      +:+ now +:+ q "</dcterms:created><dcterms:modified xsi:type='dcterms:W3CDTF'>"
      +:+ now +:+ "</dcterms:modified></cp:coreProperties>" ].

(** The archive written by [export_note_to_docx]: the members in the order of
    the [writestr] calls, each with its name and its data.  The bytes returned
    by the source are the deflate serialisation of this sequence by
    [zipfile], from which [zipfile] reads the same members back; the
    modification time that [zipfile] stamps on each member is left out. *)
Definition Container : Type := list (string * string).

Definition export_note_to_docx (now : string) (rank : string -> N)
    (title markdown_content : string) : Container * Report :=
  let xml := _md_to_docx_xml title markdown_content in
  let report := export_report rank markdown_content in
  ([ ("[Content_Types].xml", content_types);
     ("_rels/.rels", rels);
     ("docProps/app.xml", app_xml);
     ("docProps/core.xml", core_xml now title);
     ("word/document.xml", xml) ], report).

(** ** Auxiliary notions of the statements *)

(** [res] with the time of its attachment, if any, set to [t]. *)
Definition set_stored_at (t : string) (res : DocxConversionResult) : DocxConversionResult :=
  mkResult (title res) (markdown res) (html res) (report res)
    (option_map (fun a => mkAttachment (att_filename a) (att_mime_type a)
                            (att_content_base64 a) t)
                (original_attachment res)).

Definition res_map {A B : Type} (f : A -> B) (m : res A) : res B :=
  match m with
  | inl e => inl e
  | inr a => inr (f a)
  end.

(** The condition under which the specification has an auxiliary entry
    skipped: no id attribute, an id that starts with the minus sign, or no
    text left after trimming. *)
Definition skipped_as_specified (e : ET.Element) : Prop :=
  ET.get e (w "id") = None
  \/ (exists i, ET.get e (w "id") = Some i /\ Py.startswith i "-" = true)
  \/ entry_text e = "".

(** The last character of a string. *)
Fixpoint last_char (s : string) : option ascii :=
  match s with
  | "" => None
  | String a s' =>
      match last_char s' with
      | Some d => Some d
      | None => Some a
      end
  end.

(** A dash or a pipe. *)
Definition dash_or_pipe (c : ascii) : bool :=
  bool_decide (c = "-"%char) || bool_decide (c = "|"%char).

(** A separator row, as line 255 tests it: the line with its pipes removed
    and then trimmed is a run of dashes, one at least. *)
Definition dash_run (line : string) : Prop :=
  exists n, Py.strip (Py.replace line "|" "") = Py.times "-" (S n).

Fixpoint count_char (c : ascii) (s : string) : nat :=
  match s with
  | "" => 0
  | String d s' => (if bool_decide (d = c) then 1 else 0) + count_char c s'
  end.

(** A style name that maps to a heading of level [level]: the word Heading
    followed by decimal digits that [int] reads (4300 at most) and that
    denote a number of at least one, cut at six; Title; Subtitle. *)
Definition heading_style (style_val : string) (level : nat) : Prop :=
  (exists d n, style_val = "Heading" +:+ d /\ Py.int d = Some n /\ (1 <= n)%N
               /\ level = N.to_nat (N.min 6 n))
  \/ (style_val = "Title" /\ level = 1)
  \/ (style_val = "Subtitle" /\ level = 2).


(** The value of an id made of decimal digits. *)
Definition id_value (x : string) : N := default 0%N (Py.int x).

(** The effect of runs on a report: [i] images counted and [j] drawings
    recorded as unsupported. *)
Definition run_effect (i j : nat) (r : Report) : Report :=
  mkReport (source r)
    (mkMapped (styles (mapped r)) (tables (mapped r)) (images (mapped r) + i)
       (footnotes (mapped r)) (comments (mapped r)))
    (unsupported_elements r ++ replicate j "drawing") (lossy r).

(** A tag of the body that the walk neither converts nor ignores. *)
Definition unknown_tag (t : string) : Prop :=
  t <> w "p" /\ t <> w "tbl" /\ t <> w "sectPr".

(** No element below [e] is a drawing. *)
Definition no_drawing_below (e : ET.Element) : Prop :=
  forall d, d ∈ ET.descendants e -> ET.tag d <> w "drawing".

(** Every id of the list is a key of the table. *)
Definition all_defined (table : gmap string string) (ids : list string) : Prop :=
  Forall (fun id => is_Some (table !! id)) ids.

(** The sum of a list of numbers. *)
Definition total (l : list nat) : nat := foldr Nat.add 0 l.

(** The references of the paragraphs directly under the body that resolve
    against a table, in document order. *)
Definition body_refs (body : ET.Element) (ref_tag : string)
    (table : gmap string string) : list string :=
  flat_map (fun child =>
              if Py.str_eqb (ET.tag child) (w "p")
              then resolved_refs child ref_tag table else [])
           (ET.children body).

(** The blocks of a trailing section that lists [ids]: none when there is
    no id, else the heading and one line per id. *)
Definition section_blocks (heading : string) (line : string -> string -> string)
    (table : gmap string string) (ids : list string) : list string :=
  match ids with
  | [] => []
  | _ => heading :: map (fun fid => line fid (default "" (table !! fid))) ids
  end.

(** The paragraph style of a heading of level [k]. *)
Definition heading_ppr (k : nat) : string :=
  q "<w:pPr><w:pStyle w:val='Heading" +:+ Py.str_of_nat k +:+ q "'/></w:pPr>".

(** The paragraph of the export with paragraph properties [ppr] and text
    [text]. *)
Definition paragraph_of (ppr text : string) : string :=
  "<w:p>" +:+ ppr +:+ q "<w:r><w:t xml:space='preserve'>" +:+ Py.html_escape text
  +:+ "</w:t></w:r></w:p>".

(** A character that does not end a line. *)
Definition in_line (c : ascii) : bool := negb (Py.is_linebreak c).

(** [s.lower()] for code points below 256: the letters A to Z and the
    capital letters from U+00C0 to U+00DE, the multiplication sign apart. *)
Definition lower_char (c : ascii) : ascii :=
  let n := Py.ord c in
  if (Nat.leb 65 n && Nat.leb n 90)
     || (Nat.leb 192 n && Nat.leb n 222 && negb (Nat.eqb n 215))
  then Py.chr (n + 32) else c.

Fixpoint str_lower (s : string) : string :=
  match s with
  | "" => ""
  | String c s' => String (lower_char c) (str_lower s')
  end.

(** routers/notes.py, line 484: the test of [import_note_docx] on the name
    of the uploaded file, [None] when the upload has no name. *)
Definition docx_name_accepted (filename : option string) : bool :=
  match filename with
  | Some name => Py.truthy name && Py.endswith (str_lower name) ".docx"
  | None => false
  end.

(** routers/notes.py, lines 567 and 578: the title and the file name of
    [export_note_docx] for a note whose title is [note_title]. *)
Definition export_title (note_title : option string) : string :=
  match note_title with
  | Some t => if Py.truthy t then t else "note"
  | None => "note"
  end.

Definition export_filename (note_title : option string) : string :=
  export_title note_title +:+ ".docx".

(** Line 236: the title of an import. *)
Definition import_title (filename : string) : string :=
  if Py.truthy (strip_docx filename) then strip_docx filename else "Imported Document".

(** The strings that a pattern matches from their first to their last
    character. *)
Inductive denotes : Re.regex -> string -> Prop :=
  | denotes_eps : denotes Re.Eps ""
  | denotes_cls p c : p c = true -> denotes (Re.Cls p) (String c "")
  | denotes_seq r1 r2 s1 s2 :
      denotes r1 s1 -> denotes r2 s2 -> denotes (Re.Seq r1 r2) (s1 +:+ s2)
  | denotes_alt_l r1 r2 s : denotes r1 s -> denotes (Re.Alt r1 r2) s
  | denotes_alt_r r1 r2 s : denotes r2 s -> denotes (Re.Alt r1 r2) s
  | denotes_star_nil r : denotes (Re.Star r) ""
  | denotes_star_app r s1 s2 :
      denotes r s1 -> denotes (Re.Star r) s2 -> denotes (Re.Star r) (s1 +:+ s2).

(** Some substring of [s] is matched by [r]. *)
Definition holds (r : Re.regex) (s : string) : Prop :=
  exists u p t, s = u +:+ p +:+ t /\ denotes r p.

(** [c] does not occur in [s]. *)
Definition no_char (c : ascii) (s : string) : bool :=
  Py.forall_chars (fun d => negb (bool_decide (d = c))) s.

(** A table with a cell: some [w:tr] directly under it has a [w:tc]
    directly under it. *)
Definition has_cell (table : ET.Element) : bool :=
  existsb (fun tr => nonempty (ET.findall tr (w "tc"))) (ET.findall table (w "tr")).

(** A child of the body that is a table with a cell. *)
Definition counted_table (child : ET.Element) : bool :=
  Py.str_eqb (ET.tag child) (w "tbl") && has_cell child.

(** ** Sample documents *)

Module Sample.

Definition t (s : string) : ET.Element := ET.Elem (w "t") [] (Some s) [].
Definition r (s : string) : ET.Element := ET.Elem (w "r") [] None [t s].
Definition pStyle (style : string) : ET.Element :=
  ET.Elem (w "pPr") [] None [ET.Elem (w "pStyle") [(w "val", style)] None []].
Definition p (l : list ET.Element) : ET.Element := ET.Elem (w "p") [] None l.
Definition tc (s : string) : ET.Element := ET.Elem (w "tc") [] None [p [r s]].
Definition tr (l : list ET.Element) : ET.Element := ET.Elem (w "tr") [] None l.
Definition tbl (l : list ET.Element) : ET.Element := ET.Elem (w "tbl") [] None l.
Definition document (l : list ET.Element) : ET.Element :=
  ET.Elem (w "document") [] None [ET.Elem (w "body") [] None l].
Definition ref (kind id : string) : ET.Element :=
  ET.Elem (w "r") [] None [ET.Elem (w kind) [(w "id", id)] None []].
Definition note (kind id body : string) : ET.Element :=
  ET.Elem (w kind) [(w "id", id)] None [p [r body]].

(** A set iteration order, and stand-ins for the libraries: an archive whose
    only member is the main document, parsed to [doc]. *)
Definition rank0 (s : string) : N := 0%N.
Definition zip_main (content : bytes) : option ZipFile := Some [("word/document.xml", content)].
Definition zip_other (content : bytes) : option ZipFile := Some [("word/styles.xml", content)].
Definition parsed (doc : ET.Element) (data : bytes) : option ET.Element := Some doc.
Definition render0 (md : string) : string := md.
Definition b64encode0 (content : bytes) : string := "".

(** A heading, a paragraph and a node the converter does not know. *)
Definition doc_unknown : ET.Element :=
  document [p [pStyle "Heading1"; r "Hello"]; p [r "text"];
            ET.Elem (w "bookmarkStart") [] None []].

(** A two-column table whose second row has one cell. *)
Definition table_short_row : ET.Element :=
  tbl [tr [tc "h1"; tc "h2"]; tr [tc "a"]].

(** The same with an empty second cell in the second row. *)
Definition table_empty_cell : ET.Element :=
  tbl [tr [tc "h1"; tc "h2"]; tr [tc "a"; tc ""]].

(** A footnotes part with a numeric and a non-numeric id, and a body that
    refers to both. *)
Definition footnotes_mixed : ET.Element :=
  ET.Elem (w "footnotes") [] None [note "footnote" "1" "one"; note "footnote" "a" "alpha"].

Definition doc_mixed_refs : ET.Element :=
  document [p [r "x"; ref "footnoteReference" "1"; ref "footnoteReference" "a"]].

(** Numeric ids only, referred to out of order. *)
Definition footnotes_numeric : ET.Element :=
  ET.Elem (w "footnotes") [] None
    [note "footnote" "2" "two"; note "footnote" "10" "ten"; note "footnote" "1" "one"].

Definition doc_numeric_refs : ET.Element :=
  document [p [r "x"; ref "footnoteReference" "10"; ref "footnoteReference" "2";
               ref "footnoteReference" "1"]].

End Sample.

(** ** Further sample documents *)

Module Cases.

(** Unknown nodes out of order and repeated, between two paragraphs. *)
Definition doc_unknowns : ET.Element :=
  Sample.document
    [ET.Elem (w "sdt") [] None []; Sample.p [Sample.r "one"];
     ET.Elem (w "bookmarkStart") [] None []; ET.Elem (w "sdt") [] None [];
     ET.Elem (w "sectPr") [] None []].

Definition result_unknowns : DocxConversionResult :=
  mkResult "a" "one" "one"
    (mkReport (Some "a.docx") mapped0 ["bookmarkStart"; "sdt"] true) None.

(** A heading, a table and section properties: nothing is lost. *)
Definition doc_plain : ET.Element :=
  Sample.document
    [Sample.p [Sample.pStyle "Title"; Sample.r "Report"]; Sample.table_short_row;
     ET.Elem (w "sectPr") [] None []].

Definition body_of (doc : ET.Element) : ET.Element :=
  default doc (ET.find doc (w "body")).

(** Footnotes and a comment referred to from two paragraphs, one footnote
    twice, and a reference inside a table, which the walk does not see. *)
Definition notes_footnotes : gmap string string := footnotes_of Sample.footnotes_numeric.
Definition notes_comments : gmap string string :=
  comments_of (ET.Elem (w "comments") [] None [Sample.note "comment" "0" "check"]).

Definition doc_notes : ET.Element :=
  Sample.document
    [Sample.p [Sample.r "x"; Sample.ref "footnoteReference" "2";
               Sample.ref "commentReference" "0"];
     Sample.tbl [Sample.tr [ET.Elem (w "tc") [] None
                              [Sample.p [Sample.r "c"; Sample.ref "footnoteReference" "10"]]]];
     Sample.p [Sample.r "y"; Sample.ref "footnoteReference" "2";
               Sample.ref "footnoteReference" "1"; Sample.ref "footnoteReference" "7"]].

Definition blocks_notes : list string :=
  ["x[^2][comment:0]"; "| c |" +:+ Py.nl +:+ "| --- |"; "y[^2][^1]";
   Py.nl +:+ "## Footnotes"; "[^1]: one"; "[^2]: two";
   Py.nl +:+ "## Comments"; "- [0] check"].

Definition report_notes : Report :=
  mkReport (Some "a.docx") (mkMapped 0 1 0 3 1) [] false.

(** Three tables, one with cells, one without rows and one whose row has
    no cell, and a paragraph. *)
Definition doc_tables : ET.Element :=
  Sample.document
    [Sample.table_short_row; Sample.tbl []; Sample.tbl [Sample.tr []];
     Sample.p [Sample.r "end"]].

(** An archive with the member names of an export. *)
Definition zip_exported (content : bytes) : option ZipFile :=
  Some (map (fun e => (fst e, content))
          (fst (export_note_to_docx "" Sample.rank0 "t" "x[^1]"))).

End Cases.

(** * Properties *)

(** ** The report *)

Lemma finalize_lossy rank r :
  lossy (finalize rank r) = nonempty (unsupported_elements (finalize rank r)).
Proof. reflexivity. Qed.

(** The accumulating operations leave [lossy] alone: it is written when the
    report is created and when it is finalised, nowhere else. *)
Lemma mutators_keep_lossy r name n :
  lossy (inc_styles r) = lossy r /\ lossy (inc_tables r) = lossy r
  /\ lossy (inc_images r) = lossy r /\ lossy (inc_footnotes r) = lossy r
  /\ lossy (inc_comments r) = lossy r /\ lossy (set_styles n r) = lossy r
  /\ lossy (append_unsupported name r) = lossy r.
Proof. repeat split. Qed.

Lemma bind_inr {A B : Type} (m : res A) (k : A -> res B) (b : B) :
  bind m k = inr b -> exists a, m = inr a /\ k a = inr b.
Proof. destruct m as [e|a]; simpl; [discriminate | eauto]. Qed.

Ltac bind_inv H :=
  let a := fresh "a" in
  let Ha := fresh "Ha" in
  apply bind_inr in H; destruct H as (a & Ha & H).

Lemma import_docx_report zip_open fromstring render b64encode now rank
    content filename store res :
  import_docx zip_open fromstring render b64encode now rank content filename store
    = inr res ->
  exists r, report res = finalize rank r.
Proof.
  unfold import_docx. intros H.
  destruct (zip_open content) as [docx_zip|]; [|discriminate].
  destruct (negb _); [discriminate|].
  do 5 bind_inv H. destruct a3 as [bl rep].
  injection H as <-. simpl. eauto.
Qed.

(** C1.  The report returned by an import, and the report returned by an
    export, have [lossy] equal to the non-emptiness of
    [unsupported_elements].  Whatever the accumulated report is when the
    finalisation is reached (whatever mutations it went through), the
    finalisation recomputes [lossy] from the final list. *)
Theorem lossy_is_recomputed :
  (forall zip_open fromstring render b64encode now rank content filename store res,
      import_docx zip_open fromstring render b64encode now rank content filename store
        = inr res ->
      lossy (report res) = nonempty (unsupported_elements (report res)))
  /\ (forall now rank title markdown_content,
        let r := snd (export_note_to_docx now rank title markdown_content) in
        lossy r = nonempty (unsupported_elements r))
  /\ (forall rank r,
        lossy (finalize rank r) = nonempty (unsupported_elements (finalize rank r))).
Proof.
  split; [|split].
  - intros ? ? ? ? ? ? ? ? ? ? H.
    apply import_docx_report in H as [r ->]. apply finalize_lossy.
  - intros. apply finalize_lossy.
  - intros. apply finalize_lossy.
Qed.

(** An import that returns a lossy report, and an export that returns one. *)
Lemma lossy_is_recomputed_witness :
  let res := mkResult "a" ("# Hello" +:+ Py.nl +:+ Py.nl +:+ "text")
               ("# Hello" +:+ Py.nl +:+ Py.nl +:+ "text")
               (mkReport (Some "a.docx") (mkMapped 1 0 0 0 0) ["bookmarkStart"] true)
               None in
  let r := snd (export_note_to_docx "2026-01-01T00:00:00+00:00" Sample.rank0 "T"
                  "| a | b |") in
  import_docx Sample.zip_main (Sample.parsed Sample.doc_unknown) Sample.render0
    Sample.b64encode0 "2026-01-01T00:00:00+00:00" Sample.rank0 [] "a.docx" false
    = inr res
  /\ lossy (report res) = nonempty (unsupported_elements (report res))
  /\ unsupported_elements r = ["tables"]
  /\ lossy r = nonempty (unsupported_elements r).
Proof.
  intros res r.
  assert (H : import_docx Sample.zip_main (Sample.parsed Sample.doc_unknown)
                Sample.render0 Sample.b64encode0 "2026-01-01T00:00:00+00:00"
                Sample.rank0 [] "a.docx" false = inr res)
    by (vm_compute; reflexivity).
  split; [exact H|].
  split; [exact (proj1 lossy_is_recomputed _ _ _ _ _ _ _ _ _ _ H)|].
  split; [vm_compute; reflexivity|].
  exact (proj1 (proj2 lossy_is_recomputed) "2026-01-01T00:00:00+00:00" Sample.rank0 "T"
           "| a | b |").
Defined.

(** ** Sorting *)

Section SortingFacts.
Context {A K : Type} (key : A -> K) (leb : K -> K -> bool).

Lemma insert_by_perm x l : insert_by key leb x l ≡ₚ x :: l.
Proof.
  induction l as [|y l IH]; simpl; [done|].
  destruct (leb (key x) (key y)); [done|].
  rewrite IH. apply Permutation_swap.
Qed.

Lemma sort_by_perm l : sort_by key leb l ≡ₚ l.
Proof.
  induction l as [|x l IH]; simpl; [done|].
  rewrite insert_by_perm. by rewrite IH.
Qed.

Context (R : relation A).
Hypothesis leb_R : forall a b, leb (key a) (key b) = true -> R a b.
Hypothesis leb_total : forall a b, leb a b = true \/ leb b a = true.

Lemma leb_false_R x y : leb (key x) (key y) = false -> R y x.
Proof. intros E. apply leb_R. destruct (leb_total (key x) (key y)); congruence. Qed.

Lemma insert_by_sorted x l :
  Sorted R l -> Sorted R (insert_by key leb x l).
Proof.
  induction l as [|y l IH]; simpl; intros Hs.
  - repeat constructor.
  - destruct (leb (key x) (key y)) eqn:E.
    + constructor; [done|]. constructor. by apply leb_R.
    + apply Sorted_inv in Hs as [Hs Hhd]. constructor; [auto|].
      destruct l as [|z l]; simpl.
      * constructor. by apply leb_false_R.
      * destruct (leb (key x) (key z)).
        -- constructor. by apply leb_false_R.
        -- constructor. by apply HdRel_inv in Hhd.
Qed.

Lemma sort_by_sorted l : Sorted R (sort_by key leb l).
Proof.
  induction l as [|x l IH]; simpl; [constructor|]. by apply insert_by_sorted.
Qed.
End SortingFacts.

Lemma set_iter_perm rank xs : set_iter rank xs ≡ₚ remove_dups xs.
Proof. apply sort_by_perm. Qed.

Lemma str_leb_total a b : Py.str_leb a b = true \/ Py.str_leb b a = true.
Proof. apply String.leb_total. Qed.

Lemma sorted_set_sorted rank xs : Sorted String.le (sorted_set rank xs).
Proof.
  unfold sorted_set. apply sort_by_sorted; [|apply str_leb_total].
  intros a b H. unfold String.le, Py.str_leb in *. simpl in H. by rewrite H.
Qed.

Lemma sorted_set_perm rank xs : sorted_set rank xs ≡ₚ remove_dups xs.
Proof. unfold sorted_set. rewrite sort_by_perm. apply set_iter_perm. Qed.

(** [sorted(set(xs))] does not depend on the iteration order of the set. *)
Lemma sorted_set_rank rank1 rank2 xs : sorted_set rank1 xs = sorted_set rank2 xs.
Proof.
  apply (Sorted_unique String.le); try apply sorted_set_sorted.
  by rewrite !sorted_set_perm.
Qed.

Lemma finalize_rank rank1 rank2 r : finalize rank1 r = finalize rank2 r.
Proof. unfold finalize. by rewrite (sorted_set_rank rank1 rank2). Qed.

(** ** Failure on a container without main document *)

(** C5.  When the archive opens and has no member [word/document.xml], the
    import raises the [ValueError] of line 150 and returns no result. *)
Theorem import_missing_main_document zip_open fromstring render b64encode now rank
    content filename store docx_zip :
  zip_open content = Some docx_zip ->
  "word/document.xml" ∉ namelist docx_zip ->
  import_docx zip_open fromstring render b64encode now rank content filename store
    = inl (ValueError "Invalid DOCX file: missing word/document.xml").
Proof.
  intros Hzip Hmissing. unfold import_docx. rewrite Hzip.
  unfold has_member. by rewrite bool_decide_eq_false_2.
Qed.

Lemma import_missing_main_document_witness :
  import_docx Sample.zip_other (Sample.parsed Sample.doc_unknown) Sample.render0
    Sample.b64encode0 "2026-01-01T00:00:00+00:00" Sample.rank0 [] "a.docx" false
    = inl (ValueError "Invalid DOCX file: missing word/document.xml").
Proof.
  apply (import_missing_main_document _ _ _ _ _ _ _ _ _ [("word/styles.xml", [])]).
  - reflexivity.
  - intros H%list_elem_of_singleton. discriminate H.
Defined.

(** A buffer that is no archive makes the import raise as well. *)
Lemma import_bad_archive zip_open fromstring render b64encode now rank
    content filename store :
  zip_open content = None ->
  import_docx zip_open fromstring render b64encode now rank content filename store
    = inl BadZipFile.
Proof. intros Hzip. unfold import_docx. by rewrite Hzip. Qed.

(** ** Dependence on the clock *)

Ltac case_binds :=
  repeat match goal with
         | |- context [bind ?m _] => destruct m; simpl; [reflexivity|]
         end.

Lemma import_docx_clock zip_open fromstring render b64encode now1 now2 rank
    content filename store :
  import_docx zip_open fromstring render b64encode now1 rank content filename store
  = res_map (set_stored_at now1)
      (import_docx zip_open fromstring render b64encode now2 rank content filename store).
Proof.
  unfold import_docx.
  destruct (zip_open content) as [docx_zip|]; [|reflexivity].
  destruct (negb _); [reflexivity|].
  case_binds.
  match goal with p : (list string * Report)%type |- _ => destruct p end.
  destruct store; reflexivity.
Qed.

Lemma import_docx_clock_no_attachment zip_open fromstring render b64encode now1 now2
    rank content filename :
  import_docx zip_open fromstring render b64encode now1 rank content filename false
  = import_docx zip_open fromstring render b64encode now2 rank content filename false.
Proof.
  unfold import_docx.
  destruct (zip_open content) as [docx_zip|]; [|reflexivity].
  destruct (negb _); [reflexivity|].
  case_binds.
  match goal with p : (list string * Report)%type |- _ => destruct p end.
  reflexivity.
Qed.

Lemma export_report_rank rank1 rank2 md : export_report rank1 md = export_report rank2 md.
Proof. unfold export_report. apply finalize_rank. Qed.

(** C2, as the code has it.  Export: the report is a function of the markup
    text alone; the container is a function of the title, the markup text
    and the clock, and its members other than the core properties, which
    carry the time of the call, do not depend on the clock.  Import, for one
    iteration order of sets: without the opt-in the result is the same at
    any time of call; with it, only the [stored_at] of the attachment
    follows the clock. *)
Theorem conversion_up_to_clock :
  (forall now1 now2 rank1 rank2 title1 title2 md,
      snd (export_note_to_docx now1 rank1 title1 md)
      = snd (export_note_to_docx now2 rank2 title2 md))
  /\ (forall now rank1 rank2 title md,
        export_note_to_docx now rank1 title md = export_note_to_docx now rank2 title md)
  /\ (forall now1 now2 rank1 rank2 title md,
        let c1 := fst (export_note_to_docx now1 rank1 title md) in
        let c2 := fst (export_note_to_docx now2 rank2 title md) in
        map fst c1 = map fst c2
        /\ c1 !! 3%nat = Some ("docProps/core.xml", core_xml now1 title)
        /\ forall i, i <> 3%nat -> c1 !! i = c2 !! i)
  /\ (forall zip_open fromstring render b64encode now1 now2 rank content filename,
        import_docx zip_open fromstring render b64encode now1 rank content filename false
        = import_docx zip_open fromstring render b64encode now2 rank content filename false)
  /\ (forall zip_open fromstring render b64encode now1 now2 rank content filename,
        import_docx zip_open fromstring render b64encode now1 rank content filename true
        = res_map (set_stored_at now1)
            (import_docx zip_open fromstring render b64encode now2 rank content
               filename true)).
Proof.
  split; [|split; [|split; [|split]]].
  - intros. apply export_report_rank.
  - intros. unfold export_note_to_docx. by rewrite (export_report_rank rank1 rank2).
  - intros. subst c1 c2. unfold export_note_to_docx. simpl.
    split; [reflexivity|]. split; [reflexivity|].
    intros i Hi. do 5 (destruct i as [|i]; [try reflexivity; congruence|]). reflexivity.
  - intros. apply import_docx_clock_no_attachment.
  - intros. apply import_docx_clock.
Qed.

(** Two exports of one title and one markup text at different times give
    different containers: the core properties differ. *)
Lemma export_depends_on_clock :
  export_note_to_docx "2026-01-01T00:00:00+00:00" Sample.rank0 "T" "x"
  <> export_note_to_docx "2026-01-01T00:00:01+00:00" Sample.rank0 "T" "x".
Proof.
  intros H.
  apply (f_equal (fun e => String.length (Py.replace
           (default "" (snd <$> fst e !! 3%nat)) "00:00:00Z" ""))) in H.
  vm_compute in H. discriminate H.
Qed.

(** ** Tables *)

Lemma pad_row_length header row : length (pad_row header row) = length header.
Proof.
  unfold pad_row. rewrite length_take, length_app, length_replicate. lia.
Qed.

Lemma pad_row_short header row :
  length row <= length header ->
  pad_row header row = row ++ replicate (length header - length row) "".
Proof.
  intros Hle. unfold pad_row.
  replace (Z.to_nat _) with (length header - length row) by lia.
  apply take_ge. rewrite length_app, length_replicate. lia.
Qed.

Lemma pad_row_long header row :
  length header <= length row ->
  pad_row header row = take (length header) row.
Proof.
  intros Hle. unfold pad_row.
  replace (Z.to_nat _) with 0 by lia. simpl. by rewrite app_nil_r.
Qed.

Lemma parse_table_rows table report rel_map header rest report' :
  table_rows (ET.findall table (w "tr")) report rel_map = (header :: rest, report') ->
  _parse_table table report rel_map
  = (Py.join Py.nl (md_rows header rest), inc_tables report').
Proof. intros H. unfold _parse_table. by rewrite H. Qed.

(** C7.  A table with at least one row of cells is emitted as the line of
    its first row (the header), the line of dashes, and one line per further
    row, whose cells are the row cut or filled with empty strings to the
    number of cells of the header. *)
Theorem table_rows_rectangular table report rel_map header rest report' :
  table_rows (ET.findall table (w "tr")) report rel_map = (header :: rest, report') ->
  fst (_parse_table table report rel_map)
  = Py.join Py.nl (row_line header :: row_line (replicate (length header) "---")
                   :: map (fun row => row_line (pad_row header row)) rest)
  /\ Forall (fun row =>
               length (pad_row header row) = length header
               /\ (length row <= length header ->
                   pad_row header row = row ++ replicate (length header - length row) "")
               /\ (length header <= length row ->
                   pad_row header row = take (length header) row)) rest.
Proof.
  intros H. split.
  - by rewrite (parse_table_rows _ _ _ _ _ _ H).
  - apply Forall_forall. intros row _.
    auto using pad_row_length, pad_row_short, pad_row_long.
Qed.

Lemma table_rows_rectangular_witness :
  fst (_parse_table Sample.table_short_row (import_report0 "a.docx") ∅)
  = Py.join Py.nl (row_line ["h1"; "h2"] :: row_line (replicate 2 "---")
                   :: map (fun row => row_line (pad_row ["h1"; "h2"] row)) [["a"]])
  /\ Forall (fun row =>
               length (pad_row ["h1"; "h2"] row) = 2
               /\ (length row <= 2 ->
                   pad_row ["h1"; "h2"] row = row ++ replicate (2 - length row) "")
               /\ (2 <= length row -> pad_row ["h1"; "h2"] row = take 2 row)) [["a"]].
Proof.
  apply (table_rows_rectangular Sample.table_short_row (import_report0 "a.docx") ∅
           ["h1"; "h2"] [["a"]] (import_report0 "a.docx")).
  vm_compute. reflexivity.
Defined.

(** C8, as the code has it.  A table whose header has two cells and whose
    second row has one populated cell holding the letter a (alone, or
    followed by an empty cell) gives the data row with the letter, a
    separator and an empty cell: two spaces stand between the last two
    pipes. *)
Theorem short_row_markup table report rel_map h1 h2 row report' :
  table_rows (ET.findall table (w "tr")) report rel_map = ([[h1; h2]; row], report') ->
  row = ["a"] \/ row = ["a"; ""] ->
  fst (_parse_table table report rel_map)
  = Py.join Py.nl [row_line [h1; h2]; "| --- | --- |"; "| a |  |"].
Proof.
  intros H Hrow. rewrite (parse_table_rows _ _ _ _ _ _ H).
  destruct Hrow as [-> | ->]; reflexivity.
Qed.

Lemma short_row_markup_witness :
  fst (_parse_table Sample.table_short_row (import_report0 "a.docx") ∅)
  = Py.join Py.nl [row_line ["h1"; "h2"]; "| --- | --- |"; "| a |  |"].
Proof.
  apply (short_row_markup Sample.table_short_row (import_report0 "a.docx") ∅
           "h1" "h2" ["a"] (import_report0 "a.docx")).
  - vm_compute. reflexivity.
  - left. reflexivity.
Defined.

(** The data row of the sample table is not the row with a single space
    between the last two pipes. *)
Lemma short_row_not_single_space :
  Py.splitlines (fst (_parse_table Sample.table_short_row (import_report0 "a.docx") ∅))
    !! 2%nat <> Some "| a | |"
  /\ Py.splitlines (fst (_parse_table Sample.table_empty_cell (import_report0 "a.docx") ∅))
    !! 2%nat <> Some "| a | |".
Proof. split; vm_compute; discriminate. Qed.

(** ** Auxiliary tables *)

Lemma truthy_true s : Py.truthy s = true <-> s <> "".
Proof. destruct s; unfold Py.truthy; simpl; split; intros; try done. Qed.

Lemma truthy_false s : Py.truthy s = false <-> s = "".
Proof. destruct s; unfold Py.truthy; simpl; split; intros; try done. Qed.

Lemma footnote_entry_skipped fn :
  footnote_entry fn = None <->
  (ET.get fn (w "id") = None \/ ET.get fn (w "id") = Some ""
   \/ (exists i, ET.get fn (w "id") = Some i /\ Py.startswith i "-" = true)
   \/ entry_text fn = "").
Proof.
  unfold footnote_entry. destruct (ET.get fn (w "id")) as [i|]; [|tauto].
  destruct (Py.truthy i) eqn:Hi; cbn [negb orb].
  - apply truthy_true in Hi.
    destruct (Py.startswith i "-") eqn:Hs.
    + split; [|done]. intros _. right; right; left. eauto.
    + destruct (Py.truthy (entry_text fn)) eqn:Ht.
      * apply truthy_true in Ht. split; [done|].
        intros [?|[?|[(j & ? & ?)|?]]]; simplify_eq; congruence.
      * apply truthy_false in Ht. tauto.
  - apply truthy_false in Hi. subst i. tauto.
Qed.

Lemma footnote_entry_kept fn i :
  ET.get fn (w "id") = Some i -> i <> "" -> Py.startswith i "-" = false ->
  entry_text fn <> "" ->
  footnote_entry fn = Some (i, entry_text fn).
Proof.
  intros Hg Hi Hs Ht. unfold footnote_entry. rewrite Hg, Hs.
  apply truthy_true in Hi, Ht. by rewrite Hi, Ht.
Qed.

Lemma comment_entry_skipped c :
  comment_entry c = None <->
  (ET.get c (w "id") = None \/ ET.get c (w "id") = Some "" \/ entry_text c = "").
Proof.
  unfold comment_entry. destruct (ET.get c (w "id")) as [i|]; [|tauto].
  destruct (Py.truthy i) eqn:Hi; simpl.
  - apply truthy_true in Hi.
    destruct (Py.truthy (entry_text c)) eqn:Ht.
    + apply truthy_true in Ht. split; [done|].
      intros [?|[?|?]]; simplify_eq; congruence.
    + apply truthy_false in Ht. tauto.
  - apply truthy_false in Hi. subst i. tauto.
Qed.

Lemma comment_entry_kept c i :
  ET.get c (w "id") = Some i -> i <> "" -> entry_text c <> "" ->
  comment_entry c = Some (i, entry_text c).
Proof.
  intros Hg Hi Ht. unfold comment_entry. rewrite Hg.
  apply truthy_true in Hi, Ht. by rewrite Hi, Ht.
Qed.

Section Collect.
Context (entry : ET.Element -> option (string * string)).

Lemma collect_snoc es e :
  collect entry (es ++ [e])
  = match entry e with
    | Some (k, v) => <[k := v]> (collect entry es)
    | None => collect entry es
    end.
Proof. unfold collect. by rewrite fold_left_app. Qed.

(** A stored pair comes from an entry that was kept. *)
Lemma collect_lookup_sound es k v :
  collect entry es !! k = Some v -> exists e, e ∈ es /\ entry e = Some (k, v).
Proof.
  induction es as [|e es IH] using rev_ind; [done|].
  rewrite collect_snoc. intros H.
  destruct (entry e) as [[k' v']|] eqn:He.
  - destruct (decide (k' = k)) as [->|Hne].
    + rewrite lookup_insert_eq in H. simplify_eq.
      exists e. split; [|done]. apply elem_of_app. right. by apply list_elem_of_singleton.
    + rewrite lookup_insert_ne in H by done.
      destruct (IH H) as (e' & ? & ?). exists e'. split; [|done].
      apply elem_of_app. by left.
  - destruct (IH H) as (e' & ? & ?). exists e'. split; [|done].
    apply elem_of_app. by left.
Qed.

(** A kept entry is stored under its id, with its own text unless a later
    kept entry has the same id. *)
Lemma collect_lookup_last es1 e es2 k v :
  entry e = Some (k, v) ->
  (forall e' v', e' ∈ es2 -> entry e' <> Some (k, v')) ->
  collect entry (es1 ++ e :: es2) !! k = Some v.
Proof.
  intros He. induction es2 as [|e2 es2 IH] using rev_ind; intros Hlater.
  - rewrite collect_snoc, He. apply lookup_insert_eq.
  - rewrite app_comm_cons, app_assoc, collect_snoc.
    assert (Hrest : collect entry (es1 ++ e :: es2) !! k = Some v).
    { apply IH. intros e' v' Hin. apply Hlater. apply elem_of_app. by left. }
    destruct (entry e2) as [[k' v']|] eqn:He2; [|done].
    destruct (decide (k' = k)) as [->|Hne].
    + exfalso. apply (Hlater e2 v'); [|done].
      apply elem_of_app. right. by apply list_elem_of_singleton.
    + by rewrite lookup_insert_ne.
Qed.

Lemma collect_lookup_is_Some es e k v :
  e ∈ es -> entry e = Some (k, v) -> is_Some (collect entry es !! k).
Proof.
  induction es as [|e2 es IH] using rev_ind; [by intros ?%elem_of_nil|].
  rewrite collect_snoc. intros Hin He.
  destruct (entry e2) as [[k' v']|] eqn:He2.
  - destruct (decide (k' = k)) as [->|Hne].
    + rewrite lookup_insert_eq. eauto.
    + rewrite lookup_insert_ne by done. apply IH; [|done].
      apply elem_of_app in Hin as [?|Hin]; [done|].
      apply list_elem_of_singleton in Hin. congruence.
  - apply IH; [|done].
    apply elem_of_app in Hin as [?|Hin]; [done|].
    apply list_elem_of_singleton in Hin. congruence.
Qed.
End Collect.

(** A table read from the archive is empty, the part being absent, or the
    table collected from the parsed part. *)
Lemma optional_table_inr fromstring docx_zip path of_root table :
  optional_table fromstring docx_zip path of_root = inr table ->
  (has_member docx_zip path = false /\ table = ∅)
  \/ (exists root, parse_part fromstring docx_zip path = inr root /\ table = of_root root).
Proof.
  unfold optional_table. destruct (has_member docx_zip path); cbn [negb].
  - intros H. bind_inv H. injection H as <-. right. eauto.
  - intros [= <-]. by left.
Qed.

(** C6, as the code has it.  Footnotes: an entry is skipped exactly when its
    id attribute is absent or empty, or the id starts with the minus sign, or
    its text is empty after trimming.  Comments: an entry is skipped when its
    id attribute is absent or empty or its text is empty after trimming, and
    an entry whose id is not empty and does not start with the minus sign and
    whose text is not empty is kept.  A kept entry is stored under its id
    with its text, a later kept entry of the same id taking its place, and
    the tables hold nothing else; each table is read from its part of the
    archive and is empty when the part is absent. *)
Theorem auxiliary_entries :
  (forall fn,
      footnote_entry fn = None <->
      (ET.get fn (w "id") = None \/ ET.get fn (w "id") = Some ""
       \/ (exists i, ET.get fn (w "id") = Some i /\ Py.startswith i "-" = true)
       \/ entry_text fn = ""))
  /\ (forall c,
        ET.get c (w "id") = None \/ ET.get c (w "id") = Some "" \/ entry_text c = "" ->
        comment_entry c = None)
  /\ (forall e i,
        ET.get e (w "id") = Some i -> i <> "" -> Py.startswith i "-" = false ->
        entry_text e <> "" ->
        footnote_entry e = Some (i, entry_text e)
        /\ comment_entry e = Some (i, entry_text e))
  /\ (forall root es1 fn es2 k v,
        ET.findall root (w "footnote") = es1 ++ fn :: es2 ->
        footnote_entry fn = Some (k, v) ->
        (forall fn' v', fn' ∈ es2 -> footnote_entry fn' <> Some (k, v')) ->
        footnotes_of root !! k = Some v)
  /\ (forall root es1 c es2 k v,
        ET.findall root (w "comment") = es1 ++ c :: es2 ->
        comment_entry c = Some (k, v) ->
        (forall c' v', c' ∈ es2 -> comment_entry c' <> Some (k, v')) ->
        comments_of root !! k = Some v)
  /\ (forall root k v,
        footnotes_of root !! k = Some v ->
        exists fn, fn ∈ ET.findall root (w "footnote") /\ footnote_entry fn = Some (k, v))
  /\ (forall root k v,
        comments_of root !! k = Some v ->
        exists c, c ∈ ET.findall root (w "comment") /\ comment_entry c = Some (k, v))
  /\ (forall fromstring docx_zip table,
        _extract_footnotes fromstring docx_zip = inr table ->
        (has_member docx_zip "word/footnotes.xml" = false /\ table = ∅)
        \/ (exists root, parse_part fromstring docx_zip "word/footnotes.xml" = inr root
                         /\ table = footnotes_of root))
  /\ (forall fromstring docx_zip table,
        _extract_comments fromstring docx_zip = inr table ->
        (has_member docx_zip "word/comments.xml" = false /\ table = ∅)
        \/ (exists root, parse_part fromstring docx_zip "word/comments.xml" = inr root
                         /\ table = comments_of root)).
Proof.
  repeat apply conj.
  - apply footnote_entry_skipped.
  - intros c H. by apply comment_entry_skipped.
  - intros e i Hg Hi Hs Ht. split.
    + by apply footnote_entry_kept.
    + by apply comment_entry_kept.
  - intros root es1 fn es2 k v Hes He Hlater. unfold footnotes_of. rewrite Hes.
    by apply collect_lookup_last.
  - intros root es1 c es2 k v Hes He Hlater. unfold comments_of. rewrite Hes.
    by apply collect_lookup_last.
  - intros root k v. apply collect_lookup_sound.
  - intros root k v. apply collect_lookup_sound.
  - intros fromstring docx_zip table. apply optional_table_inr.
  - intros fromstring docx_zip table. apply optional_table_inr.
Qed.

Lemma auxiliary_entries_witness :
  footnote_entry (Sample.note "footnote" "-1" "x") = None
  /\ comment_entry (Sample.note "comment" "7" " ") = None
  /\ footnotes_of Sample.footnotes_numeric !! "10" = Some "ten".
Proof.
  destruct auxiliary_entries as (H1 & H2 & H3 & H4 & _).
  repeat apply conj.
  - apply H1. right; right; left. exists "-1". split; reflexivity.
  - apply H2. right; right. reflexivity.
  - apply (H4 Sample.footnotes_numeric [Sample.note "footnote" "2" "two"]
             (Sample.note "footnote" "10" "ten") [Sample.note "footnote" "1" "one"]);
      [reflexivity|reflexivity|].
    intros fn' v' Hin H. apply list_elem_of_singleton in Hin. subst fn'.
    vm_compute in H. discriminate H.
Defined.

(** A footnote whose id attribute is present and empty is skipped, though it
    meets none of the three conditions of the specification. *)
Lemma empty_id_is_skipped :
  footnote_entry (Sample.note "footnote" "" "x") = None
  /\ comment_entry (Sample.note "comment" "" "x") = None
  /\ ~ skipped_as_specified (Sample.note "footnote" "" "x")
  /\ ~ skipped_as_specified (Sample.note "comment" "" "x").
Proof.
  split; [reflexivity|]. split; [reflexivity|].
  split; intros [H|[(i & H & Hs)|H]]; vm_compute in H; try discriminate H;
    injection H as <-; vm_compute in Hs; discriminate Hs.
Qed.

(** The comments extractor has no test for the minus sign. *)
Lemma comment_minus_id_is_kept :
  comment_entry (Sample.note "comment" "-1" "x") = Some ("-1", "x")
  /\ footnote_entry (Sample.note "footnote" "-1" "x") = None.
Proof. split; reflexivity. Qed.

(** ** The line scanner of the export *)

Lemma forall_chars_last p s d :
  Py.forall_chars p s = true -> last_char s = Some d -> p d = true.
Proof.
  induction s as [|a s IH]; simpl; [discriminate|].
  intros [Ha Hs]%andb_true_iff. destruct (last_char s) as [d'|].
  - intros [= <-]. by apply IH.
  - by intros [= <-].
Qed.

Lemma last_char_is_Some a s : is_Some (last_char (String a s)).
Proof. simpl. destruct (last_char s); eauto. Qed.

Lemma rstrip_last s d :
  last_char s = Some d -> Py.isspace d = false -> Py.rstrip s = s.
Proof.
  induction s as [|a s IH]; simpl; [done|].
  intros Hl Hd. destruct (last_char s) as [d'|] eqn:E.
  - rewrite (IH Hl Hd). destruct s; [discriminate E|].
    by rewrite andb_false_r.
  - destruct s as [|b s]; [|by destruct (last_char_is_Some b s) as [? ?]; congruence].
    simplify_eq. simpl. by rewrite Hd.
Qed.

(** A string that neither starts nor ends with white space is its own
    [strip]. *)
Lemma strip_id a s d :
  Py.isspace a = false -> last_char (String a s) = Some d -> Py.isspace d = false ->
  Py.strip (String a s) = String a s.
Proof.
  intros Ha Hl Hd. unfold Py.strip. simpl Py.lstrip. rewrite Ha.
  by apply (rstrip_last _ d).
Qed.

Lemma startswith_rev_app s acc c :
  Py.startswith (String.rev_app s acc) (String c "")
  = match last_char s with
    | Some d => bool_decide (c = d)
    | None => Py.startswith acc (String c "")
    end.
Proof.
  revert acc. induction s as [|a s IH]; intros acc; [done|].
  cbn [String.rev_app last_char]. rewrite IH.
  destruct (last_char s); [done|]. cbn. apply andb_true_r.
Qed.

Lemma endswith_char s c :
  Py.endswith s (String c "") = true <-> last_char s = Some c.
Proof.
  unfold Py.endswith, String.rev. simpl String.rev_app at 2.
  rewrite startswith_rev_app. destruct (last_char s) as [d|]; simpl.
  - rewrite bool_decide_eq_true. split; congruence.
  - split; discriminate.
Qed.

Lemma startswith_char s c :
  Py.startswith s (String c "") = true <-> exists s', s = String c s'.
Proof.
  destruct s as [|a s]; simpl.
  - split; [discriminate|]. intros [? ?]. discriminate.
  - rewrite andb_true_r, bool_decide_eq_true. split.
    + intros ->. eauto.
    + intros [? [= -> _]]. done.
Qed.

(** A line that starts and ends with a pipe is a table line: trimming
    leaves it as it is. *)
Lemma pipe_line_delimited line :
  Py.startswith line "|" = true -> Py.endswith line "|" = true ->
  pipe_delimited line = true.
Proof.
  intros [s ->]%startswith_char He.
  assert (Hstrip : Py.strip (String "|" s) = String "|" s).
  { apply endswith_char in He. by apply (strip_id _ _ "|"). }
  unfold pipe_delimited. rewrite Hstrip, He. reflexivity.
Qed.

Lemma replace_pipes s :
  Py.forall_chars dash_or_pipe s = true ->
  Py.replace s "|" "" = Py.times "-" (count_char "-" s).
Proof.
  unfold Py.replace. induction s as [|a s IH]; simpl; [done|].
  intros [Ha Hs]%andb_true_iff. rewrite andb_true_r.
  unfold dash_or_pipe in Ha. apply orb_true_iff in Ha as [Ha|Ha];
    apply bool_decide_eq_true in Ha; subst a; simpl; by rewrite IH.
Qed.

Lemma last_char_times c n : last_char (Py.times c (S n)) = Some c.
Proof. induction n as [|n IH]; [done|]. simpl in *. by rewrite IH. Qed.

Lemma strip_dashes n : Py.strip (Py.times "-" (S n)) = Py.times "-" (S n).
Proof. apply (strip_id "-" (Py.times "-" n) "-"); [done|apply (last_char_times "-" n)|done]. Qed.

Lemma char_set_times c n : Py.char_set (Py.times c (S n)) = {[ c ]}.
Proof.
  unfold Py.char_set. induction n as [|n IH].
  - simpl. apply (right_id_L ∅ (∪)).
  - change (list_ascii_of_string (Py.times c (S (S n))))
      with (c :: list_ascii_of_string (Py.times c (S n))).
    rewrite list_to_set_cons, IH. apply (idemp_L (∪)).
Qed.

Lemma no_dash_all_pipes s :
  Py.forall_chars dash_or_pipe s = true -> count_char "-" s = 0 ->
  Py.forall_chars (fun c => bool_decide (c = "|"%char)) s = true.
Proof.
  induction s as [|a s IH]; simpl; [done|].
  intros [Ha Hs]%andb_true_iff Hc. unfold dash_or_pipe in Ha.
  destruct (bool_decide (a = "-"%char)); [simpl in Hc; lia|].
  simpl in Ha. rewrite Ha. simpl. apply IH; [done|]. simpl in Hc. lia.
Qed.

Lemma dash_or_pipe_no_space c : dash_or_pipe c = true -> Py.isspace c = false.
Proof.
  unfold dash_or_pipe. intros [H|H]%orb_true_iff;
    apply bool_decide_eq_true in H; by subst c.
Qed.

(** A non-empty line of dashes and pipes is a table line or a separator
    row. *)
Lemma dash_pipe_line_consumed a s :
  Py.forall_chars dash_or_pipe (String a s) = true ->
  pipe_delimited (String a s) = true \/ separator_row (String a s) = true.
Proof.
  intros Hall.
  destruct (last_char_is_Some a s) as [d Hd].
  assert (Ha : dash_or_pipe a = true) by (simpl in Hall; by apply andb_true_iff in Hall as [? _]).
  assert (Hdd : dash_or_pipe d = true) by (by apply (forall_chars_last _ _ _ Hall)).
  destruct (count_char "-" (String a s)) as [|n] eqn:Hn.
  - left. pose proof (no_dash_all_pipes _ Hall Hn) as Hp.
    apply pipe_line_delimited.
    + simpl in Hp. apply andb_true_iff in Hp as [Hp _].
      apply bool_decide_eq_true in Hp. by subst a.
    + apply endswith_char. pose proof (forall_chars_last _ _ _ Hp Hd) as H.
      apply bool_decide_eq_true in H. by subst d.
  - right. unfold separator_row. rewrite (replace_pipes _ Hall), Hn.
    rewrite strip_dashes, (char_set_times "-" n). by apply bool_decide_eq_true.
Qed.

Lemma char_set_cons a s : Py.char_set (String a s) = {[ a ]} ∪ Py.char_set s.
Proof. reflexivity. Qed.

Lemma char_set_within s c : Py.char_set s ⊆ {[ c ]} -> s = Py.times c (String.length s).
Proof.
  induction s as [|a s IH]; [done|]. rewrite char_set_cons. intros H.
  assert (Ha : a = c).
  { assert (Hin : a ∈ ({[ c ]} : gset ascii)).
    { apply H, elem_of_union_l. by apply elem_of_singleton_2. }
    by apply elem_of_singleton_1 in Hin. }
  subst a. cbn [String.length Py.times]. f_equal. apply IH.
  intros x Hx. by apply H, elem_of_union_r.
Qed.

(** The test of line 255 on the set of the characters holds exactly of the
    runs of dashes. *)
Lemma separator_row_spec line : separator_row line = true <-> dash_run line.
Proof.
  unfold separator_row, dash_run. rewrite bool_decide_eq_true. split.
  - intros H. destruct (Py.strip (Py.replace line "|" "")) as [|a s] eqn:Hs.
    + exfalso. assert (Hc : "-"%char ∈ Py.char_set "").
      { rewrite H. by apply elem_of_singleton_2. }
      by apply elem_of_empty in Hc.
    + exists (String.length s). apply (char_set_within (String a s)). by rewrite H.
  - intros [n ->]. apply char_set_times.
Qed.

Lemma separator_row_not line : separator_row line = false <-> ~ dash_run line.
Proof.
  rewrite <- separator_row_spec. by destruct (separator_row line).
Qed.

(** C9, as the code has it.  A line that starts and ends with a pipe (as
    it is, or once trimmed) sets [in_table] and appends nothing, whatever
    the state.  While [in_table], a separator row (the line without its
    pipes, trimmed, is a run of dashes, one at least), and likewise a blank
    line, appends nothing and leaves the state as it is; every line of dashes
    and pipes only is among these or is a table line.  While [in_table],
    any other line clears the state and is classified as the normal state
    classifies it.  In the normal state a line that is no table line gives
    the empty paragraph when it is blank, and its paragraph otherwise. *)
Theorem line_scanner :
  (forall in_table line,
      Py.startswith line "|" = true -> Py.endswith line "|" = true ->
      scan_line in_table line = (true, None))
  /\ (forall in_table line,
        pipe_delimited line = true -> scan_line in_table line = (true, None))
  /\ (forall line,
        Py.forall_chars dash_or_pipe line = true -> scan_line true line = (true, None))
  /\ (forall line, dash_run line -> scan_line true line = (true, None))
  /\ (forall line, blank line = true -> scan_line true line = (true, None))
  /\ (forall line,
        pipe_delimited line = false -> ~ dash_run line -> blank line = false ->
        scan_line true line = (false, Some (paragraph_xml line)))
  /\ (forall line,
        pipe_delimited line = false -> blank line = true ->
        scan_line false line = (false, Some "<w:p/>"))
  /\ (forall line,
        pipe_delimited line = false -> blank line = false ->
        scan_line false line = (false, Some (paragraph_xml line))).
Proof.
  repeat apply conj.
  - intros in_table line Hs He. unfold scan_line.
    by rewrite (pipe_line_delimited _ Hs He).
  - intros in_table line Hp. unfold scan_line. by rewrite Hp.
  - intros [|a s] Hall; [reflexivity|]. unfold scan_line.
    destruct (dash_pipe_line_consumed a s Hall) as [H|H]; rewrite H; [done|].
    by destruct (pipe_delimited _).
  - intros line Hd%separator_row_spec. unfold scan_line. rewrite Hd.
    by destruct (pipe_delimited _).
  - intros line Hb. unfold scan_line. rewrite Hb, orb_true_r.
    by destruct (pipe_delimited _).
  - intros line Hp Hs%separator_row_not Hb. unfold scan_line. by rewrite Hp, Hs, Hb.
  - intros line Hp Hb. unfold scan_line. by rewrite Hp, Hb.
  - intros line Hp Hb. unfold scan_line. by rewrite Hp, Hb.
Qed.

Lemma line_scanner_witness :
  scan_line false "| a | b |" = (true, None)
  /\ scan_line true "---|---" = (true, None)
  /\ scan_line true "| -" = (true, None)
  /\ scan_line true " " = (true, None)
  /\ scan_line true "# x" = (false, Some (paragraph_xml "# x"))
  /\ scan_line false " " = (false, Some "<w:p/>")
  /\ scan_line false "| -" = (false, Some (paragraph_xml "| -")).
Proof.
  destruct line_scanner as (H1 & _ & H2 & H3 & H4 & H5 & H6 & H7).
  repeat apply conj.
  - apply H1; reflexivity.
  - apply H2; reflexivity.
  - apply H3. by exists 0.
  - apply H4; reflexivity.
  - apply H5; [reflexivity| |reflexivity].
    intros [n Hn]. vm_compute in Hn. discriminate Hn.
  - apply H6; reflexivity.
  - apply H7; reflexivity.
Defined.

(** While [in_table] a blank line is consumed: the state is kept and no
    empty paragraph is appended, neither for the empty line nor for a line
    of white space. *)
Lemma blank_line_in_table_is_skipped :
  scan_line true " " <> (false, Some "<w:p/>")
  /\ scan_line true "" <> (false, Some "<w:p/>")
  /\ scan_lines false ["| a |"; " "; "x"] = [paragraph_xml "x"].
Proof. repeat apply conj; vm_compute; [discriminate..|reflexivity]. Qed.

(** ** Heading styles *)

Lemma int_go_decimal s acc n :
  Py.int_go acc s = Some n -> Py.forall_chars Py.is_decimal s = true.
Proof.
  revert acc. induction s as [|c s IH]; intros acc; simpl; [done|].
  destruct (Py.is_decimal c); [|discriminate]. apply IH.
Qed.

Lemma int_Some d n :
  Py.int d = Some n -> d <> "" /\ Py.forall_chars Py.is_decimal d = true.
Proof.
  unfold Py.int. destruct d as [|c d]; [discriminate|]. cbn [Py.is_empty].
  destruct (N.ltb _ _); [discriminate|].
  intros H. split; [done|]. by apply (int_go_decimal _ _ _ H).
Qed.

Lemma forall_chars_impl (p p' : ascii -> bool) s :
  (forall c, p c = true -> p' c = true) ->
  Py.forall_chars p s = true -> Py.forall_chars p' s = true.
Proof.
  intros Himpl. induction s as [|c s IH]; simpl; [done|].
  intros [Hc Hs]%andb_true_iff. by rewrite (Himpl c Hc), IH.
Qed.

Lemma int_isdigit d n : Py.int d = Some n -> Py.isdigit d = true.
Proof.
  intros [Hne Hdec]%int_Some. unfold Py.isdigit.
  apply truthy_true in Hne. rewrite Hne. simpl.
  apply (forall_chars_impl Py.is_decimal); [|done].
  intros c Hc. unfold Py.char_isdigit. by rewrite Hc.
Qed.

(** [int] reads no more digits than the limit. *)
Lemma int_Some_length d n :
  Py.int d = Some n -> (N.of_nat (String.length d) <= Py.int_max_str_digits)%N.
Proof.
  unfold Py.int. destruct (Py.is_empty d); [discriminate|].
  destruct (N.ltb _ _) eqn:Hl; [discriminate|]. intros _. by apply N.ltb_ge.
Qed.

Lemma int_over_limit d :
  (Py.int_max_str_digits < N.of_nat (String.length d))%N -> Py.int d = None.
Proof.
  intros H%N.ltb_lt. unfold Py.int. rewrite H. by destruct (Py.is_empty d).
Qed.

Lemma decimal_not_H c : Py.is_decimal c = true -> bool_decide ("H"%char = c) = false.
Proof.
  intros Hc. apply bool_decide_eq_false. intros <-. vm_compute in Hc. discriminate.
Qed.

(** The digits hold no further occurrence of the word. *)
Lemma replace_heading_digits d :
  Py.forall_chars Py.is_decimal d = true ->
  Py.replace_go "Heading" "" 0 d = d.
Proof.
  induction d as [|c d IH]; [done|]. simpl Py.forall_chars.
  intros [Hc Hd]%andb_true_iff.
  cbn [Py.replace_go Py.startswith]. rewrite (decimal_not_H c Hc).
  cbn [andb]. by rewrite IH.
Qed.

Lemma replace_heading d :
  Py.forall_chars Py.is_decimal d = true ->
  Py.replace ("Heading" +:+ d) "Heading" "" = d.
Proof.
  intros Hd. unfold Py.replace.
  change ("Heading" +:+ d) with (String "H" (String "e" (String "a" (String "d"
    (String "i" (String "n" (String "g" d))))))).
  cbn. by apply replace_heading_digits.
Qed.

Lemma startswith_heading d : Py.startswith ("Heading" +:+ d) "Heading" = true.
Proof. reflexivity. Qed.

Lemma heading_style_level style_val level :
  heading_style style_val level -> 1 <= level <= 6.
Proof.
  intros [(d & n & _ & _ & Hn & ->)|[[_ ->]|[_ ->]]]; lia.
Qed.

(** Lines 172-180 on a style that maps to a heading. *)
Lemma style_prefix_heading style_val level r :
  heading_style style_val level ->
  style_prefix style_val r = inr (Py.times "#" level +:+ " ", inc_styles r).
Proof.
  intros [(d & n & -> & Hint & Hn & ->)|[[-> ->]|[-> ->]]]; [|reflexivity..].
  unfold style_prefix. rewrite startswith_heading.
  destruct (int_Some _ _ Hint) as [_ Hdec].
  by rewrite (replace_heading _ Hdec), (int_isdigit _ _ Hint), Hint.
Qed.

(** Lines 175-176 on the word Heading followed by more decimal digits than
    [int] reads: the style match raises. *)
Lemma style_prefix_over_limit d c r :
  Py.forall_chars Py.is_decimal (String c d) = true ->
  (Py.int_max_str_digits < N.of_nat (String.length (String c d)))%N ->
  exists msg, style_prefix ("Heading" +:+ String c d) r = inl (ValueError msg).
Proof.
  intros Hdec Hlen. unfold style_prefix. rewrite startswith_heading.
  rewrite (replace_heading _ Hdec), (int_over_limit _ Hlen).
  assert (Hd : Py.isdigit (String c d) = true).
  { unfold Py.isdigit. cbn [Py.truthy Py.is_empty negb andb].
    apply (forall_chars_impl Py.is_decimal); [|done].
    intros a Ha. unfold Py.char_isdigit. by rewrite Ha. }
  rewrite Hd. eauto.
Qed.






Lemma append_empty_r s : s +:+ "" = s.
Proof.
  induction s as [|c s IH]; [done|].
  change (String c (s +:+ "") = String c s). by rewrite IH.
Qed.




(** C4 on the style name with the digit zero: no hash sign is written, the
    paragraph is a plain one, and the style is counted as mapped. *)
Lemma heading_zero_is_not_a_heading :
  (forall r, style_prefix "Heading0" r = inr (" ", inc_styles r))
  /\ import_document Sample.rank0 ∅ ∅ ∅
       (Sample.document [Sample.p [Sample.pStyle "Heading0"; Sample.r "x"]])
       (import_report0 "a.docx")
     = inr (["x"], mkReport (Some "a.docx") (mkMapped 1 0 0 0 0) [] false).
Proof. split; [intros r|]; reflexivity. Qed.

(** The levels from one up are cut at six, Title is level one and Subtitle
    level two; each match is counted. *)
Lemma heading_levels style_val level r :
  heading_style style_val level ->
  style_prefix style_val r = inr (Py.times "#" level +:+ " ", inc_styles r)
  /\ 1 <= level <= 6
  /\ styles (mapped (inc_styles r)) = styles (mapped r) + 1.
Proof.
  intros H. split; [by apply style_prefix_heading|].
  split; [by apply (heading_style_level style_val)|reflexivity].
Qed.

(** ** The trailing sections *)

(** C3 on a document that refers to the footnotes 1 and a: whatever the
    iteration order of the set, the sort compares an integer key with a
    string key and the import raises [TypeError]; no section is written. *)
Lemma mixed_ids_raise rank :
  sorted_ids rank ["1"; "a"] = inl TypeError
  /\ import_document rank ∅ (footnotes_of Sample.footnotes_mixed) ∅
       Sample.doc_mixed_refs (import_report0 "a.docx") = inl TypeError.
Proof.
  assert (H : sorted_ids rank ["1"; "a"] = inl TypeError).
  { unfold sorted_ids, set_iter.
    change (remove_dups ["1"; "a"]) with ["1"; "a"].
    cbn [sort_by foldr insert_by].
    by destruct (N.leb (rank "1") (rank "a")). }
  split; [exact H|].
  unfold import_document.
  change (ET.find Sample.doc_mixed_refs (w "body"))
    with (Some (ET.Elem (w "body") [] None
                  [Sample.p [Sample.r "x"; Sample.ref "footnoteReference" "1";
                             Sample.ref "footnoteReference" "a"]])).
  cbn [ET.children].
  replace (foldM _ _ _) with
    (inr (mkWalk (mkReport (Some "a.docx") (mkMapped 0 0 0 2 0) [] false)
                 ["x[^1][^a]"] ["1"; "a"] []) : res Walk)
    by (vm_compute; reflexivity).
  cbn [bind encountered_footnotes]. unfold trailing_section. by rewrite H.
Qed.

(** Two distinct ids of one value keep the order in which the set yields
    them. *)
Lemma tie_order_follows_set_order :
  sorted_ids Sample.rank0 ["1"; "01"] = inr ["1"; "01"]
  /\ sorted_ids (fun x => N.of_nat (String.length x)) ["01"; "1"] = inr ["1"; "01"]
  /\ sorted_ids (fun x => (2 - N.of_nat (String.length x))%N) ["1"; "01"] = inr ["01"; "1"].
Proof. repeat apply conj; vm_compute; reflexivity. Qed.

(** With numeric ids only the section lists them by ascending value. *)
Lemma numeric_ids_sorted :
  import_document Sample.rank0 ∅ (footnotes_of Sample.footnotes_numeric) ∅
    Sample.doc_numeric_refs (import_report0 "a.docx")
  = inr (["x[^10][^2][^1]"; Py.nl +:+ "## Footnotes"; "[^1]: one"; "[^2]: two"; "[^10]: ten"],
         mkReport (Some "a.docx") (mkMapped 0 0 0 3 0) [] false).
Proof. vm_compute. reflexivity. Qed.

Lemma mapM_inr {A B : Type} (f : A -> res B) xs ys :
  mapM f xs = inr ys -> Forall2 (fun x y => f x = inr y) xs ys.
Proof.
  revert ys. induction xs as [|x xs IH]; intros ys; simpl.
  - intros [= <-]. constructor.
  - destruct (f x) as [e|y] eqn:Hx; simpl; [discriminate|].
    destruct (mapM f xs) as [e|ys'] eqn:Hxs; simpl; [discriminate|].
    intros [= <-]. constructor; [done|]. by apply IH.
Qed.

Lemma mapM_total {A B : Type} (f : A -> res B) (g : A -> B) xs :
  Forall (fun x => f x = inr (g x)) xs -> mapM f xs = inr (map g xs).
Proof.
  induction 1 as [|x xs Hx _ IH]; simpl; [done|]. by rewrite Hx, IH.
Qed.

Lemma id_key_int x n : Py.int x = Some n -> id_key x = inr (KInt n).
Proof. intros H. unfold id_key. by rewrite (int_isdigit _ _ H), H. Qed.

Lemma id_key_str x : Py.isdigit x = false -> id_key x = inr (KStr x).
Proof. intros H. unfold id_key. by rewrite H. Qed.

Lemma set_iter_elem rank ids x : x ∈ set_iter rank ids <-> x ∈ ids.
Proof. rewrite set_iter_perm. apply elem_of_remove_dups. Qed.

(** Whenever a numeric id and a non-numeric id are both referred to, the
    sort of line 212 (and of line 217) raises. *)
Lemma sorted_ids_mixed rank ids a n b :
  a ∈ ids -> Py.int a = Some n -> b ∈ ids -> Py.isdigit b = false ->
  exists e, sorted_ids rank ids = inl e.
Proof.
  intros Ha Hint Hb Hnd. unfold sorted_ids.
  destruct (mapM _ (set_iter rank ids)) as [e|keyed] eqn:Hm; [eauto|].
  apply mapM_inr in Hm. cbn [bind].
  assert (Hka : existsb (fun kx => is_int_key (fst kx)) keyed = true).
  { apply set_iter_elem with (rank := rank) in Ha.
    apply list_elem_of_lookup in Ha as [i Hi].
    destruct (Forall2_lookup_l _ _ _ _ _ Hm Hi) as ([k x] & Hk & Hf).
    rewrite (id_key_int _ _ Hint) in Hf. cbn in Hf. injection Hf as <- <-.
    apply existsb_exists. exists (KInt n, a). split; [|done].
    apply list_elem_of_In, list_elem_of_lookup. eauto. }
  assert (Hkb : existsb (fun kx => negb (is_int_key (fst kx))) keyed = true).
  { apply set_iter_elem with (rank := rank) in Hb.
    apply list_elem_of_lookup in Hb as [i Hi].
    destruct (Forall2_lookup_l _ _ _ _ _ Hm Hi) as ([k x] & Hk & Hf).
    rewrite (id_key_str _ Hnd) in Hf. cbn in Hf. injection Hf as <- <-.
    apply existsb_exists. exists (KStr b, b). split; [|done].
    apply list_elem_of_In, list_elem_of_lookup. eauto. }
  rewrite Hka, Hkb. eauto.
Qed.

Lemma key_leb_total a b : key_leb a b = true \/ key_leb b a = true.
Proof.
  destruct a as [m|s], b as [n|t]; simpl; auto.
  - destruct (N.leb_spec m n); [auto|]. right. apply N.leb_le. lia.
  - apply str_leb_total.
Qed.

(** With numeric ids only, the sorted ids are the distinct ids in
    ascending order of their values. *)
Lemma sorted_ids_numeric rank ids :
  Forall (fun x => is_Some (Py.int x)) ids ->
  exists l, sorted_ids rank ids = inr l
            /\ l ≡ₚ remove_dups ids
            /\ Sorted (fun a b => (id_value a <= id_value b)%N) l.
Proof.
  intros Hall.
  set (g := fun x : string => (KInt (id_value x), x)).
  assert (Hxs : Forall (fun x => is_Some (Py.int x)) (set_iter rank ids)).
  { apply Forall_forall. intros x Hx%set_iter_elem.
    by apply (proj1 (Forall_forall _ _) Hall). }
  assert (Hm : mapM (fun x => let* k := id_key x in ret (k, x)) (set_iter rank ids)
               = inr (map g (set_iter rank ids))).
  { apply mapM_total. eapply Forall_impl; [exact Hxs|].
    intros x [n Hn]. cbn beta. rewrite (id_key_int _ _ Hn).
    unfold g, id_value. by rewrite Hn. }
  unfold sorted_ids. rewrite Hm. cbn [bind].
  assert (Hno : existsb (fun kx => negb (is_int_key (fst kx))) (map g (set_iter rank ids))
                = false).
  { apply not_true_is_false. intros (kx & Hin & Hk)%existsb_exists.
    apply in_map_iff in Hin as (x & <- & _). discriminate Hk. }
  rewrite Hno, andb_false_r.
  eexists. split; [reflexivity|]. split.
  - rewrite sort_by_perm. rewrite map_map. cbn [snd g]. rewrite map_id.
    apply set_iter_perm.
  - assert (Hs : Sorted (fun a b => key_leb (fst a) (fst b) = true)
                   (sort_by fst key_leb (map g (set_iter rank ids)))).
    { apply sort_by_sorted; [done|apply key_leb_total]. }
    assert (Hk : Forall (fun kx => fst kx = KInt (id_value (snd kx)))
                   (sort_by fst key_leb (map g (set_iter rank ids)))).
    { rewrite sort_by_perm. apply Forall_forall.
      intros kx (x & -> & _)%list_elem_of_fmap. done. }
    revert Hs Hk.
    generalize (sort_by fst key_leb (map g (set_iter rank ids))) as l.
    induction l as [|[k x] l IH]; intros Hs Hk; [constructor|].
    apply Sorted_inv in Hs as [Hs Hhd]. apply Forall_cons in Hk as [Hkx Hk].
    cbn [map snd]. constructor; [by apply IH|].
    destruct l as [|[k' x'] l]; [constructor|]. cbn [map snd]. constructor.
    apply HdRel_inv in Hhd. apply Forall_cons in Hk as [Hkx' _].
    cbn [fst snd] in *. subst k k'. cbn in Hhd. by apply N.leb_le.
Qed.

(** * Further properties *)

(** ** Loops *)

Section FoldM.
Context {A S : Type} (body : S -> A -> res S).

Lemma foldM_app l1 l2 s :
  foldM body (l1 ++ l2) s = let* s1 := foldM body l1 s in foldM body l2 s1.
Proof.
  revert s. induction l1 as [|a l1 IH]; intros s; simpl; [done|].
  destruct (body s a) as [e|s']; simpl; [done|]. apply IH.
Qed.

(** A property kept by every turn of the loop holds at its end. *)
Lemma foldM_invariant (P : S -> Prop) l s s' :
  (forall s1 a s2, a ∈ l -> body s1 a = inr s2 -> P s1 -> P s2) ->
  P s -> foldM body l s = inr s' -> P s'.
Proof.
  revert s. induction l as [|a l IH]; intros s Hstep Hs; simpl.
  - by intros [= <-].
  - destruct (body s a) as [e|s1] eqn:Ha; simpl; [discriminate|].
    apply IH.
    + intros s2 b s3 Hb. apply Hstep. by apply elem_of_cons; right.
    + apply (Hstep s a s1); [apply list_elem_of_here|done..].
Qed.

(** A property set by the turn of one element and kept by the later turns
    holds at the end. *)
Lemma foldM_established (Q : S -> Prop) l a s s' :
  a ∈ l ->
  (forall s1 s2, body s1 a = inr s2 -> Q s2) ->
  (forall s1 b s2, b ∈ l -> body s1 b = inr s2 -> Q s1 -> Q s2) ->
  foldM body l s = inr s' -> Q s'.
Proof.
  intros Hin Hset Hkeep.
  apply list_elem_of_split in Hin as (l1 & l2 & ->).
  rewrite foldM_app. intros H. apply bind_inr in H as (s1 & _ & H). simpl in H.
  destruct (body s1 a) as [e|s2] eqn:Hbody; simpl in H; [discriminate|].
  apply (foldM_invariant Q l2 s2 s'); [|by apply (Hset s1)|done].
  intros s3 b s4 Hb. apply Hkeep. apply elem_of_app. right. by apply elem_of_cons; right.
Qed.
End FoldM.

(** ** The effect of the conversion on the report *)

Lemma run_effect_0 r : run_effect 0 0 r = r.
Proof.
  destruct r as [src [st tb im fn cm] un lo]. unfold run_effect. simpl.
  by rewrite Nat.add_0_r, app_nil_r.
Qed.

Lemma run_effect_compose i j i' j' r :
  run_effect i' j' (run_effect i j r) = run_effect (i + i') (j + j') r.
Proof.
  unfold run_effect. simpl. by rewrite <- app_assoc, <- replicate_add, Nat.add_assoc.
Qed.

Lemma run_to_markdown_effect run r rel_map :
  exists i j, snd (_run_to_markdown run r rel_map) = run_effect i j r.
Proof.
  unfold _run_to_markdown.
  destruct (ET.find run (w "drawing")); [|exists 0, 0; by rewrite run_effect_0].
  destruct (match ET.find_desc _ _ with Some _ => _ | None => _ end).
  - exists 1, 0. destruct r as [src [st tb im fn cm] un lo]. unfold run_effect. simpl.
    by rewrite app_nil_r.
  - exists 0, 1. destruct r as [src [st tb im fn cm] un lo]. unfold run_effect. simpl.
    by rewrite Nat.add_0_r.
Qed.

Lemma runs_to_markdown_effect runs r rel_map :
  exists i j, snd (runs_to_markdown runs r rel_map) = run_effect i j r.
Proof.
  revert r. induction runs as [|run runs IH]; intros r; simpl.
  - exists 0, 0. by rewrite run_effect_0.
  - destruct (run_to_markdown_effect run r rel_map) as (i & j & H1).
    destruct (_run_to_markdown run r rel_map) as [t1 r1]. simpl in H1. subst r1.
    destruct (IH (run_effect i j r)) as (i' & j' & H2).
    destruct (runs_to_markdown runs (run_effect i j r) rel_map) as [ts r2].
    simpl in *. subst r2. exists (i + i'), (j + j'). apply run_effect_compose.
Qed.

Lemma cell_paragraphs_effect ps r rel_map :
  exists i j, snd (cell_paragraphs ps r rel_map) = run_effect i j r.
Proof.
  revert r. induction ps as [|p ps IH]; intros r; simpl.
  - exists 0, 0. by rewrite run_effect_0.
  - unfold cell_paragraph.
    destruct (runs_to_markdown_effect (ET.findall p (w "r")) r rel_map) as (i & j & H1).
    destruct (runs_to_markdown (ET.findall p (w "r")) r rel_map) as [t1 r1].
    simpl in H1. subst r1.
    destruct (IH (run_effect i j r)) as (i' & j' & H2).
    destruct (cell_paragraphs ps (run_effect i j r) rel_map) as [ts r2].
    simpl in *. subst r2. exists (i + i'), (j + j'). apply run_effect_compose.
Qed.

Lemma table_cells_effect tcs r rel_map :
  exists i j, snd (table_cells tcs r rel_map) = run_effect i j r.
Proof.
  revert r. induction tcs as [|tc tcs IH]; intros r; simpl.
  - exists 0, 0. by rewrite run_effect_0.
  - unfold table_cell.
    destruct (cell_paragraphs_effect (ET.findall tc (w "p")) r rel_map) as (i & j & H1).
    destruct (cell_paragraphs (ET.findall tc (w "p")) r rel_map) as [t1 r1].
    simpl in H1. subst r1.
    destruct (IH (run_effect i j r)) as (i' & j' & H2).
    destruct (table_cells tcs (run_effect i j r) rel_map) as [ts r2].
    simpl in *. subst r2. exists (i + i'), (j + j'). apply run_effect_compose.
Qed.

Lemma table_rows_effect trs r rel_map :
  exists i j, snd (table_rows trs r rel_map) = run_effect i j r.
Proof.
  revert r. induction trs as [|tr trs IH]; intros r; simpl.
  - exists 0, 0. by rewrite run_effect_0.
  - destruct (table_cells_effect (ET.findall tr (w "tc")) r rel_map) as (i & j & H1).
    destruct (table_cells (ET.findall tr (w "tc")) r rel_map) as [t1 r1].
    simpl in H1. subst r1.
    destruct (IH (run_effect i j r)) as (i' & j' & H2).
    destruct (table_rows trs (run_effect i j r) rel_map) as [ts r2].
    simpl in *. subst r2. exists (i + i'), (j + j'). apply run_effect_compose.
Qed.

Lemma n_times_inc_footnotes n r :
  n_times inc_footnotes n r
  = mkReport (source r)
      (mkMapped (styles (mapped r)) (tables (mapped r)) (images (mapped r))
         (footnotes (mapped r) + n) (comments (mapped r)))
      (unsupported_elements r) (lossy r).
Proof.
  unfold n_times. induction n as [|n IH]; simpl.
  - destruct r as [src [st tb im fn cm] un lo]. simpl. by rewrite Nat.add_0_r.
  - rewrite IH. unfold inc_footnotes, set_mapped. simpl. do 2 f_equal. lia.
Qed.

Lemma n_times_inc_comments n r :
  n_times inc_comments n r
  = mkReport (source r)
      (mkMapped (styles (mapped r)) (tables (mapped r)) (images (mapped r))
         (footnotes (mapped r)) (comments (mapped r) + n))
      (unsupported_elements r) (lossy r).
Proof.
  unfold n_times. induction n as [|n IH]; simpl.
  - destruct r as [src [st tb im fn cm] un lo]. simpl. by rewrite Nat.add_0_r.
  - rewrite IH. unfold inc_comments, set_mapped. simpl. do 2 f_equal. lia.
Qed.

Lemma style_prefix_report style_val r prefix r' :
  style_prefix style_val r = inr (prefix, r') -> r' = r \/ r' = inc_styles r.
Proof.
  unfold style_prefix.
  destruct (Py.startswith style_val "Heading").
  - destruct (Py.isdigit _); [|intros [= _ <-]; by left].
    destruct (Py.int _); [|discriminate]. intros [= _ <-]. by right.
  - destruct (_ || _); intros [= _ <-]; [by right|by left].
Qed.

Lemma paragraph_prefix_report child r prefix r' :
  paragraph_prefix child r = inr (prefix, r') -> r' = r \/ r' = inc_styles r.
Proof.
  unfold paragraph_prefix.
  destruct (ET.find child (w "pPr")) as [p_props|]; [|intros [= _ <-]; by left].
  destruct (ET.find p_props (w "pStyle")); [|intros [= _ <-]; by left].
  apply style_prefix_report.
Qed.

(** What a paragraph does to the list of unsupported elements: it appends
    the word drawing some number of times. *)
Lemma import_paragraph_unsupported rel_map footnotes comments st child st' :
  import_paragraph rel_map footnotes comments st child = inr st' ->
  exists j, unsupported_elements (wk_report st')
            = unsupported_elements (wk_report st) ++ replicate j "drawing".
Proof.
  unfold import_paragraph. intros H. apply bind_inr in H as ([prefix r0] & Hp & H).
  apply paragraph_prefix_report in Hp.
  destruct (runs_to_markdown_effect (ET.findall child (w "r")) r0 rel_map) as (i & j & He).
  destruct (runs_to_markdown _ r0 rel_map) as [parts r1]. simpl in He. subst r1.
  injection H as <-. cbn [wk_report].
  rewrite n_times_inc_comments, n_times_inc_footnotes. cbn.
  exists j. by destruct Hp as [-> | ->].
Qed.

Lemma parse_table_unsupported table r rel_map :
  exists j, unsupported_elements (snd (_parse_table table r rel_map))
            = unsupported_elements r ++ replicate j "drawing".
Proof.
  unfold _parse_table.
  destruct (table_rows_effect (ET.findall table (w "tr")) r rel_map) as (i & j & He).
  destruct (table_rows _ r rel_map) as [rows r1]. simpl in He. subst r1.
  exists j. by destruct rows.
Qed.

Lemma str_eqb_true a b : Py.str_eqb a b = true <-> a = b.
Proof. unfold Py.str_eqb. apply bool_decide_eq_true. Qed.

Lemma str_eqb_false a b : Py.str_eqb a b = false <-> a <> b.
Proof. unfold Py.str_eqb. apply bool_decide_eq_false. Qed.

(** What a child of the body does to the list of unsupported elements. *)
Lemma import_child_unsupported rel_map footnotes comments st child st' :
  import_child rel_map footnotes comments st child = inr st' ->
  (unknown_tag (ET.tag child)
   /\ unsupported_elements (wk_report st')
      = unsupported_elements (wk_report st) ++ [Py.after_last "}" (ET.tag child)])
  \/ (~ unknown_tag (ET.tag child)
      /\ exists j, unsupported_elements (wk_report st')
                   = unsupported_elements (wk_report st) ++ replicate j "drawing").
Proof.
  unfold import_child, unknown_tag.
  destruct (Py.str_eqb (ET.tag child) (w "p")) eqn:Hp.
  { apply str_eqb_true in Hp. intros H. right. split; [tauto|].
    by apply (import_paragraph_unsupported rel_map footnotes comments _ child). }
  destruct (Py.str_eqb (ET.tag child) (w "tbl")) eqn:Ht.
  { apply str_eqb_true in Ht. right. split; [tauto|].
    destruct (parse_table_unsupported child (wk_report st) rel_map) as [j Hj].
    destruct (_parse_table child (wk_report st) rel_map) as [md r1].
    injection H as <-. exists j. exact Hj. }
  destruct (Py.str_eqb (ET.tag child) (w "sectPr")) eqn:Hs; cbn [negb].
  { apply str_eqb_true in Hs. intros [= <-]. right. split; [tauto|].
    exists 0. simpl. by rewrite app_nil_r. }
  apply str_eqb_false in Hp, Ht, Hs. intros [= <-]. by left.
Qed.

(** ** The structure of a successful import *)

Lemma import_document_inr rank rel_map footnotes comments root report blocks' report' :
  import_document rank rel_map footnotes comments root report = inr (blocks', report') ->
  exists body st section_f section_c,
    ET.find root (w "body") = Some body
    /\ foldM (import_child rel_map footnotes comments) (ET.children body)
         (mkWalk report [] [] []) = inr st
    /\ report' = wk_report st
    /\ trailing_section rank (Py.nl +:+ "## Footnotes") footnote_line footnotes
         (encountered_footnotes st) (blocks st) = inr section_f
    /\ trailing_section rank (Py.nl +:+ "## Comments") comment_line comments
         (encountered_comments st) section_f = inr section_c
    /\ blocks' = section_c.
Proof.
  unfold import_document. destruct (ET.find root (w "body")) as [body|]; [|discriminate].
  intros H. apply bind_inr in H as (st & Hst & H).
  apply bind_inr in H as (sf & Hsf & H). apply bind_inr in H as (sc & Hsc & H).
  injection H as <- <-. exists body, st, sf, sc. done.
Qed.

Lemma import_docx_inr zip_open fromstring render b64encode now rank content filename
    store res :
  import_docx zip_open fromstring render b64encode now rank content filename store
    = inr res ->
  exists docx_zip rel_map footnotes comments root blocks r,
    zip_open content = Some docx_zip
    /\ has_member docx_zip "word/document.xml" = true
    /\ _build_relationship_map fromstring docx_zip = inr rel_map
    /\ _extract_footnotes fromstring docx_zip = inr footnotes
    /\ _extract_comments fromstring docx_zip = inr comments
    /\ parse_part fromstring docx_zip "word/document.xml" = inr root
    /\ import_document rank rel_map footnotes comments root (import_report0 filename)
       = inr (blocks, r)
    /\ report res = finalize rank r
    /\ markdown res = Py.strip (Py.join (Py.nl +:+ Py.nl) blocks)
    /\ html res = render (markdown res)
    /\ title res = (if Py.truthy (strip_docx filename) then strip_docx filename
                    else "Imported Document").
Proof.
  unfold import_docx. intros H.
  destruct (zip_open content) as [docx_zip|]; [|discriminate].
  destruct (has_member docx_zip "word/document.xml") eqn:Hm; [|discriminate].
  cbn [negb] in H.
  apply bind_inr in H as (rel_map & Hrel & H).
  apply bind_inr in H as (footnotes & Hfn & H).
  apply bind_inr in H as (comments & Hcm & H).
  apply bind_inr in H as (root & Hroot & H).
  apply bind_inr in H as ([blocks r] & Hdoc & H).
  injection H as <-. cbn.
  exists docx_zip, rel_map, footnotes, comments, root, blocks, r. done.
Qed.

Lemma finalize_elem rank r x :
  x ∈ unsupported_elements (finalize rank r) <-> x ∈ unsupported_elements r.
Proof. cbn. rewrite sorted_set_perm. apply elem_of_remove_dups. Qed.

Lemma finalize_NoDup rank r : NoDup (unsupported_elements (finalize rank r)).
Proof. cbn. rewrite sorted_set_perm. apply NoDup_remove_dups. Qed.

Lemma finalize_Sorted rank r : Sorted String.le (unsupported_elements (finalize rank r)).
Proof. apply sorted_set_sorted. Qed.

(** ** The list of unsupported elements *)

(** X1.  The list of unsupported elements of a report returned by an import
    or by an export is in ascending order and holds no name twice. *)
Theorem unsupported_sorted_unique :
  (forall zip_open fromstring render b64encode now rank content filename store res,
      import_docx zip_open fromstring render b64encode now rank content filename store
        = inr res ->
      Sorted String.le (unsupported_elements (report res))
      /\ NoDup (unsupported_elements (report res)))
  /\ (forall now rank title md,
        Sorted String.le (unsupported_elements (snd (export_note_to_docx now rank title md)))
        /\ NoDup (unsupported_elements (snd (export_note_to_docx now rank title md)))).
Proof.
  split.
  - intros ? ? ? ? ? ? ? ? ? ? H.
    apply import_docx_inr in H as (z & rel & fn & cm & root & bl & r & H).
    destruct H as (_ & _ & _ & _ & _ & _ & _ & -> & _).
    split; [apply finalize_Sorted|apply finalize_NoDup].
  - intros. split; [apply finalize_Sorted|apply finalize_NoDup].
Qed.

Lemma unsupported_sorted_unique_witness :
  import_docx Sample.zip_main (Sample.parsed Cases.doc_unknowns) Sample.render0
    Sample.b64encode0 "2026-01-01T00:00:00+00:00" Sample.rank0 [] "a.docx" false
    = inr Cases.result_unknowns
  /\ Sorted String.le (unsupported_elements (report Cases.result_unknowns))
  /\ NoDup (unsupported_elements (report Cases.result_unknowns)).
Proof.
  assert (H : import_docx Sample.zip_main (Sample.parsed Cases.doc_unknowns)
                Sample.render0 Sample.b64encode0 "2026-01-01T00:00:00+00:00"
                Sample.rank0 [] "a.docx" false = inr Cases.result_unknowns)
    by (vm_compute; reflexivity).
  split; [exact H|].
  exact (proj1 unsupported_sorted_unique _ _ _ _ _ _ _ _ _ _ H).
Defined.

(** X2.  A child of the body that is neither a paragraph, nor a table, nor
    the section properties does not stop the walk: whatever the state, its
    turn ends without exception, and changes nothing but the list of
    unsupported elements, to which it appends the part of the tag after the
    last closing brace.  When the import succeeds, that name is among the
    unsupported elements of the returned report, and the report is lossy. *)
Theorem unknown_node_reported child :
  unknown_tag (ET.tag child) ->
  (forall rel_map fns cms st,
      import_child rel_map fns cms st child
      = inr (mkWalk (append_unsupported (Py.after_last "}" (ET.tag child)) (wk_report st))
               (blocks st) (encountered_footnotes st) (encountered_comments st)))
  /\ (forall zip_open fromstring render b64encode now rank content filename store res
             docx_zip root body,
        zip_open content = Some docx_zip ->
        parse_part fromstring docx_zip "word/document.xml" = inr root ->
        ET.find root (w "body") = Some body ->
        child ∈ ET.children body ->
        import_docx zip_open fromstring render b64encode now rank content filename store
          = inr res ->
        Py.after_last "}" (ET.tag child) ∈ unsupported_elements (report res)
        /\ lossy (report res) = true).
Proof.
  intros Hunknown. split.
  { intros rel_map fns cms st. destruct Hunknown as (Hp & Ht & Hs).
    apply str_eqb_false in Hp, Ht, Hs. unfold import_child. by rewrite Hp, Ht, Hs. }
  intros zip_open fromstring render b64encode now rank content filename store res
    docx_zip root body Hzip Hroot Hbody Hchild H.
  apply import_docx_inr in H as (z & rel & fn & cm & root' & bl & r & H).
  destruct H as (Hz & _ & _ & _ & _ & Hr & Hdoc & Hrep & _).
  rewrite Hzip in Hz. injection Hz as <-. rewrite Hroot in Hr. injection Hr as <-.
  apply import_document_inr in Hdoc as (body' & st & sf & sc & Hb & Hfold & -> & _).
  rewrite Hbody in Hb. injection Hb as <-.
  assert (Hin : Py.after_last "}" (ET.tag child) ∈ unsupported_elements (wk_report st)).
  { revert Hfold.
    apply (foldM_established _ (fun st => Py.after_last "}" (ET.tag child)
                                          ∈ unsupported_elements (wk_report st))
             _ child); [done|..].
    - intros s1 s2 Hs. apply import_child_unsupported in Hs as [[_ ->]|[Hn _]]; [|done].
      apply elem_of_app. right. apply list_elem_of_here.
    - intros s1 b s2 _ Hs Hx.
      apply import_child_unsupported in Hs as [[_ ->]|[_ [j ->]]];
        apply elem_of_app; by left. }
  rewrite Hrep. split; [by apply finalize_elem|].
  apply finalize_elem with (rank := rank) in Hin. cbn in *.
  by destruct (sorted_set rank _); [apply elem_of_nil in Hin|].
Qed.

Lemma unknown_node_reported_witness :
  import_child ∅ ∅ ∅ (mkWalk (import_report0 "a.docx") ["one"] [] [])
    (ET.Elem (w "bookmarkStart") [] None [])
  = inr (mkWalk (append_unsupported "bookmarkStart" (import_report0 "a.docx"))
           ["one"] [] [])
  /\ Py.after_last "}" (ET.tag (ET.Elem (w "bookmarkStart") [] None []))
       ∈ unsupported_elements (report Cases.result_unknowns)
  /\ lossy (report Cases.result_unknowns) = true.
Proof.
  assert (Hu : unknown_tag (ET.tag (ET.Elem (w "bookmarkStart") [] None []))).
  { unfold unknown_tag. repeat split; vm_compute; discriminate. }
  destruct (unknown_node_reported (ET.Elem (w "bookmarkStart") [] None []) Hu)
    as [Hturn Hreport].
  split.
  - apply (Hturn ∅ ∅ ∅ (mkWalk (import_report0 "a.docx") ["one"] [] [])).
  - apply (Hreport Sample.zip_main (Sample.parsed Cases.doc_unknowns)
             Sample.render0 Sample.b64encode0 "2026-01-01T00:00:00+00:00" Sample.rank0
             [] "a.docx" false Cases.result_unknowns [("word/document.xml", [])]
             Cases.doc_unknowns (Cases.body_of Cases.doc_unknowns)).
    + reflexivity.
    + vm_compute. reflexivity.
    + vm_compute. reflexivity.
    + apply list_elem_of_In. vm_compute. auto.
    + vm_compute. reflexivity.
Defined.

(** X3.  Every name among the unsupported elements of an import report is
    the word drawing or comes from a child of the body with an unknown
    tag. *)
Theorem unsupported_has_cause zip_open fromstring render b64encode now rank content
    filename store res docx_zip root body x :
  zip_open content = Some docx_zip ->
  parse_part fromstring docx_zip "word/document.xml" = inr root ->
  ET.find root (w "body") = Some body ->
  import_docx zip_open fromstring render b64encode now rank content filename store
    = inr res ->
  x ∈ unsupported_elements (report res) ->
  x = "drawing"
  \/ exists child, child ∈ ET.children body /\ unknown_tag (ET.tag child)
                   /\ x = Py.after_last "}" (ET.tag child).
Proof.
  intros Hzip Hroot Hbody H Hx.
  apply import_docx_inr in H as (z & rel & fn & cm & root' & bl & r & H).
  destruct H as (Hz & _ & _ & _ & _ & Hr & Hdoc & Hrep & _).
  rewrite Hzip in Hz. injection Hz as <-. rewrite Hroot in Hr. injection Hr as <-.
  apply import_document_inr in Hdoc as (body' & st & sf & sc & Hb & Hfold & -> & _).
  rewrite Hbody in Hb. injection Hb as <-.
  rewrite Hrep in Hx. apply finalize_elem in Hx. revert x Hx.
  revert Hfold.
  apply (foldM_invariant _ (fun st => forall x, x ∈ unsupported_elements (wk_report st) ->
           x = "drawing"
           \/ exists child, child ∈ ET.children body /\ unknown_tag (ET.tag child)
                            /\ x = Py.after_last "}" (ET.tag child))).
  - intros s1 a s2 Ha Hs IH x.
    apply import_child_unsupported in Hs as [[Hu ->]|[_ [j ->]]];
      intros [Hx|Hx]%elem_of_app; auto.
    + apply list_elem_of_singleton in Hx. right. eauto.
    + apply elem_of_replicate in Hx as [-> _]. by left.
  - intros x Hx. cbn in Hx. by apply elem_of_nil in Hx.
Qed.

Lemma unsupported_has_cause_witness :
  "sdt" = "drawing"
  \/ exists child, child ∈ ET.children (Cases.body_of Cases.doc_unknowns)
                   /\ unknown_tag (ET.tag child)
                   /\ "sdt" = Py.after_last "}" (ET.tag child).
Proof.
  apply (unsupported_has_cause Sample.zip_main (Sample.parsed Cases.doc_unknowns)
           Sample.render0 Sample.b64encode0 "2026-01-01T00:00:00+00:00" Sample.rank0
           [] "a.docx" false Cases.result_unknowns [("word/document.xml", [])]
           Cases.doc_unknowns (Cases.body_of Cases.doc_unknowns)).
  - reflexivity.
  - vm_compute. reflexivity.
  - vm_compute. reflexivity.
  - vm_compute. reflexivity.
  - apply list_elem_of_In. vm_compute. auto.
Defined.

(** ** Documents without drawings *)

Lemma descendants_unfold e :
  ET.descendants e = flat_map (fun c => c :: ET.descendants c) (ET.children e).
Proof.
  destruct e as [t a x cs]. cbn [ET.children].
  induction cs as [|c cs IH]; [done|].
  change (ET.descendants (ET.Elem t a x (c :: cs)))
    with (c :: ET.descendants c ++ ET.descendants (ET.Elem t a x cs)).
  by rewrite IH.
Qed.

Lemma child_is_descendant e c : c ∈ ET.children e -> c ∈ ET.descendants e.
Proof.
  intros Hc. rewrite descendants_unfold. apply list_elem_of_In, in_flat_map.
  exists c. split; [by apply list_elem_of_In|]. by left.
Qed.

Lemma descendant_of_child e c d :
  c ∈ ET.children e -> d ∈ ET.descendants c -> d ∈ ET.descendants e.
Proof.
  intros Hc Hd. rewrite descendants_unfold. apply list_elem_of_In, in_flat_map.
  exists c. split; [by apply list_elem_of_In|]. right. by apply list_elem_of_In.
Qed.

Lemma no_drawing_child e c :
  no_drawing_below e -> c ∈ ET.children e ->
  ET.tag c <> w "drawing" /\ no_drawing_below c.
Proof.
  intros He Hc. split.
  - apply He. by apply child_is_descendant.
  - intros d Hd. apply He. by apply (descendant_of_child e c).
Qed.

Lemma findall_children e t c : c ∈ ET.findall e t -> c ∈ ET.children e /\ ET.tag c = t.
Proof.
  unfold ET.findall. intros [Ht Hc]%list_elem_of_filter.
  split; [done|]. by apply str_eqb_true.
Qed.

Lemma find_Some e t c : ET.find e t = Some c -> c ∈ ET.children e /\ ET.tag c = t.
Proof.
  unfold ET.find. intros H. apply findall_children.
  destruct (ET.findall e t) as [|c' l]; [discriminate|].
  injection H as <-. apply list_elem_of_here.
Qed.

Lemma no_drawing_all e t :
  no_drawing_below e -> Forall no_drawing_below (ET.findall e t).
Proof.
  intros He. apply Forall_forall. intros c [Hc _]%findall_children.
  by apply (no_drawing_child e c).
Qed.

(** A run without drawing leaves the report as it is. *)
Lemma run_without_drawing run r rel_map :
  no_drawing_below run -> snd (_run_to_markdown run r rel_map) = r.
Proof.
  intros Hrun. unfold _run_to_markdown.
  destruct (ET.find run (w "drawing")) as [d|] eqn:Hd; [|done].
  apply find_Some in Hd as [Hd Ht]. by destruct (no_drawing_child _ _ Hrun Hd).
Qed.

Lemma runs_without_drawing runs r rel_map :
  Forall no_drawing_below runs -> snd (runs_to_markdown runs r rel_map) = r.
Proof.
  intros Hruns. revert r. induction Hruns as [|run runs Hrun _ IH]; intros r; [done|].
  simpl. pose proof (run_without_drawing run r rel_map Hrun) as H1.
  destruct (_run_to_markdown run r rel_map) as [t r1]. simpl in H1. subst r1.
  specialize (IH r). by destruct (runs_to_markdown runs r rel_map).
Qed.

Lemma cell_paragraphs_without_drawing ps r rel_map :
  Forall no_drawing_below ps -> snd (cell_paragraphs ps r rel_map) = r.
Proof.
  intros Hps. revert r. induction Hps as [|p ps Hp _ IH]; intros r; [done|].
  simpl. unfold cell_paragraph.
  pose proof (runs_without_drawing (ET.findall p (w "r")) r rel_map
                (no_drawing_all p _ Hp)) as H1.
  destruct (runs_to_markdown _ r rel_map) as [t r1]. simpl in H1. subst r1.
  specialize (IH r). by destruct (cell_paragraphs ps r rel_map).
Qed.

Lemma table_cells_without_drawing tcs r rel_map :
  Forall no_drawing_below tcs -> snd (table_cells tcs r rel_map) = r.
Proof.
  intros Htcs. revert r. induction Htcs as [|tc tcs Htc _ IH]; intros r; [done|].
  simpl. unfold table_cell.
  pose proof (cell_paragraphs_without_drawing (ET.findall tc (w "p")) r rel_map
                (no_drawing_all tc _ Htc)) as H1.
  destruct (cell_paragraphs _ r rel_map) as [t r1]. simpl in H1. subst r1.
  specialize (IH r). by destruct (table_cells tcs r rel_map).
Qed.

Lemma table_rows_without_drawing trs r rel_map :
  Forall no_drawing_below trs -> snd (table_rows trs r rel_map) = r.
Proof.
  intros Htrs. revert r. induction Htrs as [|tr trs Htr _ IH]; intros r; [done|].
  simpl.
  pose proof (table_cells_without_drawing (ET.findall tr (w "tc")) r rel_map
                (no_drawing_all tr _ Htr)) as H1.
  destruct (table_cells _ r rel_map) as [t r1]. simpl in H1. subst r1.
  specialize (IH r). by destruct (table_rows trs r rel_map).
Qed.

(** A paragraph, a table or the section properties, without drawing, adds
    nothing to the unsupported elements and counts no image. *)
Lemma import_child_clean rel_map footnotes comments st child st' :
  ET.tag child = w "p" \/ ET.tag child = w "tbl" \/ ET.tag child = w "sectPr" ->
  no_drawing_below child ->
  import_child rel_map footnotes comments st child = inr st' ->
  unsupported_elements (wk_report st') = unsupported_elements (wk_report st)
  /\ images (mapped (wk_report st')) = images (mapped (wk_report st)).
Proof.
  intros Htag Hclean. unfold import_child.
  destruct (Py.str_eqb (ET.tag child) (w "p")) eqn:Hp.
  { unfold import_paragraph. intros H. apply bind_inr in H as ([prefix r0] & Hpre & H).
    apply paragraph_prefix_report in Hpre.
    pose proof (runs_without_drawing (ET.findall child (w "r")) r0 rel_map
                  (no_drawing_all child _ Hclean)) as H1.
    destruct (runs_to_markdown _ r0 rel_map) as [parts r1]. simpl in H1. subst r1.
    injection H as <-. cbn [wk_report].
    rewrite n_times_inc_comments, n_times_inc_footnotes. cbn.
    by destruct Hpre as [-> | ->]. }
  destruct (Py.str_eqb (ET.tag child) (w "tbl")) eqn:Ht.
  { unfold _parse_table.
    pose proof (table_rows_without_drawing (ET.findall child (w "tr")) (wk_report st)
                  rel_map (no_drawing_all child _ Hclean)) as H1.
    destruct (table_rows _ (wk_report st) rel_map) as [rows r1]. simpl in H1. subst r1.
    destruct rows; intros [= <-]; done. }
  destruct (Py.str_eqb (ET.tag child) (w "sectPr")) eqn:Hs; cbn [negb].
  { by intros [= <-]. }
  apply str_eqb_false in Hp, Ht, Hs. by destruct Htag as [?|[?|?]].
Qed.

(** X4.  When every child of the body is a paragraph, a table or the
    section properties and no element below the body is a drawing, a
    successful import reports nothing unsupported, is not lossy and counts
    no image. *)
Theorem plain_document_is_lossless zip_open fromstring render b64encode now rank content
    filename store res docx_zip root body :
  zip_open content = Some docx_zip ->
  parse_part fromstring docx_zip "word/document.xml" = inr root ->
  ET.find root (w "body") = Some body ->
  (forall child, child ∈ ET.children body ->
     ET.tag child = w "p" \/ ET.tag child = w "tbl" \/ ET.tag child = w "sectPr") ->
  no_drawing_below body ->
  import_docx zip_open fromstring render b64encode now rank content filename store
    = inr res ->
  unsupported_elements (report res) = []
  /\ lossy (report res) = false
  /\ images (mapped (report res)) = 0.
Proof.
  intros Hzip Hroot Hbody Hkinds Hclean H.
  apply import_docx_inr in H as (z & rel & fn & cm & root' & bl & r & H).
  destruct H as (Hz & _ & _ & _ & _ & Hr & Hdoc & Hrep & _).
  rewrite Hzip in Hz. injection Hz as <-. rewrite Hroot in Hr. injection Hr as <-.
  apply import_document_inr in Hdoc as (body' & st & sf & sc & Hb & Hfold & -> & _).
  rewrite Hbody in Hb. injection Hb as <-.
  assert (Hst : unsupported_elements (wk_report st) = []
                /\ images (mapped (wk_report st)) = 0).
  { revert Hfold.
    apply (foldM_invariant _ (fun st => unsupported_elements (wk_report st) = []
                                        /\ images (mapped (wk_report st)) = 0));
      [|done].
    intros s1 a s2 Ha Hs [Hu Hi].
    destruct (import_child_clean _ _ _ _ _ _ (Hkinds a Ha)
                (proj2 (no_drawing_child _ _ Hclean Ha)) Hs) as [-> ->]. done. }
  destruct Hst as [Hu Hi]. rewrite Hrep. cbn. rewrite Hu. done.
Qed.

Lemma plain_document_is_lossless_witness :
  let res := mkResult "a"
               ("# Report" +:+ Py.nl +:+ Py.nl +:+ "| h1 | h2 |" +:+ Py.nl
                +:+ "| --- | --- |" +:+ Py.nl +:+ "| a |  |")
               ("# Report" +:+ Py.nl +:+ Py.nl +:+ "| h1 | h2 |" +:+ Py.nl
                +:+ "| --- | --- |" +:+ Py.nl +:+ "| a |  |")
               (mkReport (Some "a.docx") (mkMapped 1 1 0 0 0) [] false) None in
  unsupported_elements (report res) = []
  /\ lossy (report res) = false
  /\ images (mapped (report res)) = 0.
Proof.
  intros res.
  apply (plain_document_is_lossless Sample.zip_main (Sample.parsed Cases.doc_plain)
           Sample.render0 Sample.b64encode0 "2026-01-01T00:00:00+00:00" Sample.rank0
           [] "a.docx" false res [("word/document.xml", [])]
           Cases.doc_plain (Cases.body_of Cases.doc_plain)).
  - reflexivity.
  - vm_compute. reflexivity.
  - vm_compute. reflexivity.
  - intros child Hc. apply list_elem_of_In in Hc. vm_compute in Hc.
    destruct Hc as [<-|[<-|[<-|[]]]]; vm_compute; auto.
  - intros d Hd. apply list_elem_of_In in Hd. vm_compute in Hd.
    repeat (destruct Hd as [<-|Hd]; [vm_compute; discriminate|]). destruct Hd.
  - vm_compute. reflexivity.
Defined.

(** ** The failures of an import *)

Lemma bind_inl {A B : Type} (m : res A) (k : A -> res B) (e : exn) :
  bind m k = inl e -> m = inl e \/ exists a, m = inr a /\ k a = inl e.
Proof. destruct m as [e'|a]; simpl; [intros [= ->]; by left|]. right. eauto. Qed.

Lemma foldM_inl {A S : Type} (body : S -> A -> res S) l s e :
  foldM body l s = inl e -> exists s1 a, a ∈ l /\ body s1 a = inl e.
Proof.
  revert s. induction l as [|a l IH]; intros s; simpl; [discriminate|].
  intros [H|(s1 & H1 & H)]%bind_inl.
  - exists s, a. split; [apply list_elem_of_here|done].
  - destruct (IH _ H) as (s2 & b & Hb & Hs). exists s2, b.
    split; [by apply elem_of_cons; right|done].
Qed.

Lemma mapM_inl {A B : Type} (f : A -> res B) l e :
  mapM f l = inl e -> exists a, a ∈ l /\ f a = inl e.
Proof.
  induction l as [|a l IH]; simpl; [discriminate|].
  intros [H|(b & Hb & H)]%bind_inl.
  - exists a. split; [apply list_elem_of_here|done].
  - apply bind_inl in H as [H|(bs & Hbs & H)]; [|discriminate].
    destruct (IH H) as (a' & Ha' & Hf). exists a'.
    split; [by apply elem_of_cons; right|done].
Qed.

Lemma id_key_error x e : id_key x = inl e -> exists msg, e = ValueError msg.
Proof.
  unfold id_key. destruct (Py.isdigit x); [|discriminate].
  destruct (Py.int x); [discriminate|]. intros [= <-]. eauto.
Qed.

Lemma sorted_ids_error rank ids e :
  sorted_ids rank ids = inl e -> e = TypeError \/ exists msg, e = ValueError msg.
Proof.
  unfold sorted_ids. intros [H|(keyed & _ & H)]%bind_inl.
  - apply mapM_inl in H as (x & _ & H).
    apply bind_inl in H as [H|(k & _ & H)]; [|discriminate].
    right. by apply (id_key_error x).
  - destruct (_ && _); [|discriminate]. injection H as <-. by left.
Qed.

(** The sorted ids are the distinct ids, each once. *)
Lemma sorted_ids_perm rank ids l :
  sorted_ids rank ids = inr l -> l ≡ₚ remove_dups ids.
Proof.
  unfold sorted_ids. intros H. apply bind_inr in H as (keyed & Hm & H).
  destruct (_ && _); [discriminate|]. injection H as <-.
  rewrite sort_by_perm. apply mapM_inr in Hm.
  assert (Hsnd : map snd keyed = set_iter rank ids).
  { clear -Hm. induction Hm as [|x [k y] xs ys Hx _ IH]; [done|].
    simpl. rewrite IH. f_equal.
    apply bind_inr in Hx as (k' & _ & Hx). by injection Hx as _ <-. }
  rewrite Hsnd. apply set_iter_perm.
Qed.

Lemma trailing_section_error rank heading line table encountered blocks e :
  all_defined table encountered ->
  trailing_section rank heading line table encountered blocks = inl e ->
  e = TypeError \/ exists msg, e = ValueError msg.
Proof.
  intros Hdef. unfold trailing_section. destruct encountered as [|i ids]; [discriminate|].
  intros [H|(l & Hl & H)]%bind_inl; [by apply (sorted_ids_error rank (i :: ids))|].
  apply bind_inl in H as [H|(entries & _ & H)]; [|discriminate].
  apply mapM_inl in H as (fid & Hfid & H).
  apply sorted_ids_perm in Hl. rewrite Hl in Hfid.
  apply (proj1 (elem_of_remove_dups _ _)) in Hfid.
  destruct (proj1 (Forall_forall _ _) Hdef fid Hfid) as [body Hb].
  rewrite Hb in H. discriminate.
Qed.

Lemma resolved_refs_defined child ref_tag table :
  all_defined table (resolved_refs child ref_tag table).
Proof.
  unfold all_defined, resolved_refs. apply Forall_forall. intros id Hid.
  apply list_elem_of_omap in Hid as (ref & _ & H).
  destruct (ET.get ref (w "id")) as [ref_id|]; [|discriminate].
  destruct (Py.truthy ref_id); [|discriminate]. cbn [andb] in H.
  destruct (bool_decide (is_Some (table !! ref_id))) eqn:Hd; [|discriminate].
  injection H as <-. by apply bool_decide_eq_true in Hd.
Qed.

Lemma import_child_error rel_map footnotes comments st child e :
  import_child rel_map footnotes comments st child = inl e ->
  exists msg, e = ValueError msg.
Proof.
  unfold import_child.
  destruct (Py.str_eqb (ET.tag child) (w "p")).
  - unfold import_paragraph. intros [H|([prefix r0] & _ & H)]%bind_inl.
    + unfold paragraph_prefix in H.
      destruct (ET.find child (w "pPr")) as [p_props|]; [|discriminate].
      destruct (ET.find p_props (w "pStyle")); [|discriminate].
      unfold style_prefix in H.
      destruct (Py.startswith _ "Heading").
      * destruct (Py.isdigit _); [|discriminate].
        destruct (Py.int _); [discriminate|]. injection H as <-. eauto.
      * destruct (_ || _); discriminate.
    + destruct (runs_to_markdown _ r0 rel_map). discriminate.
  - destruct (Py.str_eqb (ET.tag child) (w "tbl")).
    + destruct (_parse_table child (wk_report st) rel_map). discriminate.
    + destruct (negb _); discriminate.
Qed.

(** The ids met by the walk are keys of their tables. *)
Lemma import_child_defined rel_map footnotes comments st child st' :
  import_child rel_map footnotes comments st child = inr st' ->
  all_defined footnotes (encountered_footnotes st) ->
  all_defined comments (encountered_comments st) ->
  all_defined footnotes (encountered_footnotes st')
  /\ all_defined comments (encountered_comments st').
Proof.
  unfold import_child. intros H Hf Hc.
  destruct (Py.str_eqb (ET.tag child) (w "p")).
  - unfold import_paragraph in H. apply bind_inr in H as ([prefix r0] & _ & H).
    destruct (runs_to_markdown _ r0 rel_map). injection H as <-. cbn.
    split; apply Forall_app; split; try done; apply resolved_refs_defined.
  - destruct (Py.str_eqb (ET.tag child) (w "tbl")).
    + destruct (_parse_table child (wk_report st) rel_map). by injection H as <-.
    + destruct (negb _); by injection H as <-.
Qed.

Lemma import_document_error rank rel_map footnotes comments root report e :
  import_document rank rel_map footnotes comments root report = inl e ->
  e = TypeError \/ exists msg, e = ValueError msg.
Proof.
  unfold import_document. destruct (ET.find root (w "body")) as [body|];
    [|intros [= <-]; eauto].
  intros [H|(st & Hst & H)]%bind_inl.
  { apply foldM_inl in H as (s1 & a & _ & H). right.
    by apply (import_child_error rel_map footnotes comments s1 a). }
  assert (Hdef : all_defined footnotes (encountered_footnotes st)
                 /\ all_defined comments (encountered_comments st)).
  { revert Hst.
    apply (foldM_invariant _ (fun st => all_defined footnotes (encountered_footnotes st)
                                        /\ all_defined comments (encountered_comments st))).
    - intros s1 a s2 _ Hs [Hf Hc]. by apply (import_child_defined _ _ _ _ _ _ Hs).
    - split; constructor. }
  destruct Hdef as [Hf Hc].
  apply bind_inl in H as [H|(sf & _ & H)].
  { by apply (trailing_section_error _ _ _ _ _ _ _ Hf H). }
  apply bind_inl in H as [H|(sc & _ & H)]; [|discriminate].
  by apply (trailing_section_error _ _ _ _ _ _ _ Hc H).
Qed.

(** X5.  Once the parts are parsed, the conversion of the document ends
    with its blocks and report or with one of two exceptions: a value
    error, which is that of the missing body when the root has no body and
    else comes from [int] on digits it does not read, or the type error of
    the sort.  It never ends with a key error: every id it looks up is a key
    of its table. *)
Theorem document_failures rank rel_map fns cms root report e :
  import_document rank rel_map fns cms root report = inl e ->
  match ET.find root (w "body") with
  | None => e = ValueError "Invalid DOCX file: missing body"
  | Some _ => e = TypeError \/ exists msg, e = ValueError msg
  end
  /\ forall key, e <> KeyError key.
Proof.
  intros H. pose proof (import_document_error _ _ _ _ _ _ _ H) as He.
  split; [|intros key ->; by destruct He as [|[? ?]]].
  unfold import_document in H. destruct (ET.find root (w "body")) as [body|]; [done|].
  by injection H as <-.
Qed.

Lemma document_failures_witness :
  match ET.find (ET.Elem (w "document") [] None []) (w "body") with
  | None => ValueError "Invalid DOCX file: missing body"
            = ValueError "Invalid DOCX file: missing body"
  | Some _ =>
      ValueError "Invalid DOCX file: missing body" = TypeError
      \/ exists msg, ValueError "Invalid DOCX file: missing body" = ValueError msg
  end
  /\ forall key, ValueError "Invalid DOCX file: missing body" <> KeyError key.
Proof.
  apply (document_failures Sample.rank0 ∅ ∅ ∅ (ET.Elem (w "document") [] None [])
           (import_report0 "a.docx")).
  reflexivity.
Defined.

(** ** References and trailing sections *)

Lemma parse_table_counters table r rel_map :
  footnotes (mapped (snd (_parse_table table r rel_map))) = footnotes (mapped r)
  /\ comments (mapped (snd (_parse_table table r rel_map))) = comments (mapped r).
Proof.
  unfold _parse_table.
  destruct (table_rows_effect (ET.findall table (w "tr")) r rel_map) as (i & j & He).
  destruct (table_rows _ r rel_map) as [rows r1]. simpl in He. subst r1.
  by destruct rows.
Qed.

(** What a child of the body does to the ids met and to their counters. *)
Lemma import_child_refs rel_map fns cms st child st' :
  import_child rel_map fns cms st child = inr st' ->
  let fn_ids := if Py.str_eqb (ET.tag child) (w "p")
                then resolved_refs child "footnoteReference" fns else [] in
  let c_ids := if Py.str_eqb (ET.tag child) (w "p")
               then resolved_refs child "commentReference" cms else [] in
  encountered_footnotes st' = encountered_footnotes st ++ fn_ids
  /\ encountered_comments st' = encountered_comments st ++ c_ids
  /\ footnotes (mapped (wk_report st'))
     = footnotes (mapped (wk_report st)) + length fn_ids
  /\ comments (mapped (wk_report st'))
     = comments (mapped (wk_report st)) + length c_ids.
Proof.
  unfold import_child. intros H.
  destruct (Py.str_eqb (ET.tag child) (w "p")).
  - unfold import_paragraph in H. apply bind_inr in H as ([prefix r0] & Hp & H).
    apply paragraph_prefix_report in Hp.
    destruct (runs_to_markdown_effect (ET.findall child (w "r")) r0 rel_map) as (i & j & He).
    destruct (runs_to_markdown _ r0 rel_map) as [parts r1]. simpl in He. subst r1.
    injection H as <-. cbn [wk_report encountered_footnotes encountered_comments].
    rewrite n_times_inc_comments, n_times_inc_footnotes. cbn.
    by destruct Hp as [-> | ->].
  - cbn zeta. rewrite !app_nil_r, !Nat.add_0_r.
    destruct (Py.str_eqb (ET.tag child) (w "tbl")).
    + pose proof (parse_table_counters child (wk_report st) rel_map) as [H1 H2].
      destruct (_parse_table child (wk_report st) rel_map) as [md r1].
      by injection H as <-.
    + destruct (negb _); by injection H as <-.
Qed.

Lemma walk_refs rel_map fns cms children st st' :
  foldM (import_child rel_map fns cms) children st = inr st' ->
  let refs ref_tag table :=
    flat_map (fun child => if Py.str_eqb (ET.tag child) (w "p")
                           then resolved_refs child ref_tag table else []) children in
  encountered_footnotes st'
  = encountered_footnotes st ++ refs "footnoteReference" fns
  /\ encountered_comments st' = encountered_comments st ++ refs "commentReference" cms
  /\ footnotes (mapped (wk_report st'))
     = footnotes (mapped (wk_report st))
       + length (refs "footnoteReference" fns)
  /\ comments (mapped (wk_report st'))
     = comments (mapped (wk_report st)) + length (refs "commentReference" cms).
Proof.
  revert st. induction children as [|child children IH]; intros st; cbn zeta.
  - intros [= <-]. cbn. by rewrite !app_nil_r, !Nat.add_0_r.
  - cbn [foldM flat_map]. intros H. apply bind_inr in H as (s1 & Hs1 & H).
    apply import_child_refs in Hs1 as (E1 & E2 & E3 & E4).
    apply IH in H as (F1 & F2 & F3 & F4). cbn zeta in *.
    rewrite F1, F2, F3, F4, E1, E2, E3, E4, !length_app, <- !app_assoc.
    repeat split; lia.
Qed.

Lemma trailing_section_inr rank heading line table encountered blocks out :
  all_defined table encountered ->
  trailing_section rank heading line table encountered blocks = inr out ->
  exists ids, sorted_ids rank encountered = inr ids
              /\ ids ≡ₚ remove_dups encountered
              /\ out = blocks ++ section_blocks heading line table ids.
Proof.
  intros Hdef. unfold trailing_section. destruct encountered as [|i enc].
  - intros [= <-]. exists []. by rewrite app_nil_r.
  - intros H. apply bind_inr in H as (ids & Hids & H).
    apply bind_inr in H as (entries & He & H). injection H as <-.
    pose proof (sorted_ids_perm _ _ _ Hids) as Hperm.
    exists ids. split; [done|]. split; [done|]. f_equal.
    assert (Hne : ids <> []).
    { intros ->. apply Permutation_nil_l in Hperm.
      assert (Hi : i ∈ remove_dups (i :: enc))
        by (apply elem_of_remove_dups, list_elem_of_here).
      rewrite <- Hperm in Hi. by apply elem_of_nil in Hi. }
    assert (Hentries : entries = map (fun fid => line fid (default "" (table !! fid))) ids).
    { clear -He. apply mapM_inr in He.
      induction He as [|fid entry ids entries Hx _ IH]; [done|].
      simpl. rewrite <- IH. f_equal.
      destruct (table !! fid); [|discriminate]. by injection Hx as <-. }
    rewrite Hentries. by destruct ids.
Qed.

Lemma body_refs_defined body ref_tag table : all_defined table (body_refs body ref_tag table).
Proof.
  unfold all_defined, body_refs. apply Forall_forall. intros id Hid.
  apply list_elem_of_In, in_flat_map in Hid as (child & _ & Hid).
  destruct (Py.str_eqb (ET.tag child) (w "p")); [|done].
  apply list_elem_of_In in Hid.
  by apply (proj1 (Forall_forall _ _) (resolved_refs_defined child ref_tag table)).
Qed.



(** X7.  The counters of footnotes and of comments of a successful import
    grow by the number of references, repeated ones included, that the
    paragraphs directly under the body hold to ids of the tables;
    references inside tables and references to unknown ids count for
    nothing. *)
Theorem reference_counters rank rel_map fns cms root report blocks report' body :
  ET.find root (w "body") = Some body ->
  import_document rank rel_map fns cms root report = inr (blocks, report') ->
  footnotes (mapped report')
  = footnotes (mapped report) + length (body_refs body "footnoteReference" fns)
  /\ comments (mapped report')
     = comments (mapped report) + length (body_refs body "commentReference" cms).
Proof.
  intros Hbody H.
  apply import_document_inr in H as (body' & st & sf & sc & Hb & Hfold & -> & _).
  rewrite Hbody in Hb. injection Hb as <-.
  apply walk_refs in Hfold as (_ & _ & E3 & E4). done.
Qed.

Lemma reference_counters_witness :
  footnotes (mapped Cases.report_notes)
  = 0 + length (body_refs (Cases.body_of Cases.doc_notes) "footnoteReference"
                  Cases.notes_footnotes)
  /\ comments (mapped Cases.report_notes)
     = 0 + length (body_refs (Cases.body_of Cases.doc_notes) "commentReference"
                     Cases.notes_comments).
Proof.
  apply (reference_counters Sample.rank0 ∅ Cases.notes_footnotes Cases.notes_comments
           Cases.doc_notes (import_report0 "a.docx") Cases.blocks_notes Cases.report_notes).
  - vm_compute. reflexivity.
  - vm_compute. reflexivity.
Defined.

(** ** Trimming *)

Lemma lstrip_spec s :
  Py.lstrip s = "" \/ exists a s', Py.lstrip s = String a s' /\ Py.isspace a = false.
Proof.
  induction s as [|c s IH]; simpl; [by left|].
  destruct (Py.isspace c) eqn:Hc; [done|]. right. eauto.
Qed.

Lemma rstrip_spec s :
  Py.rstrip s = "" \/ exists d, last_char (Py.rstrip s) = Some d /\ Py.isspace d = false.
Proof.
  induction s as [|c s IH]; [by left|]. cbn [Py.rstrip].
  destruct (Py.rstrip s) as [|b r] eqn:Hr; cbn [Py.is_empty].
  - destruct (Py.isspace c) eqn:Hc; cbn [andb]; [by left|]. right. exists c. done.
  - rewrite andb_false_r. right. destruct IH as [?|(d & Hd & Hs)]; [done|].
    exists d. split; [|done]. cbn [last_char] in *. by rewrite Hd.
Qed.

Lemma rstrip_head a s : Py.isspace a = false -> Py.rstrip (String a s) = String a (Py.rstrip s).
Proof. intros Ha. simpl. by rewrite Ha. Qed.

(** A trimmed string is empty or starts and ends with characters that are
    no white space. *)
Lemma strip_spec s :
  Py.strip s = ""
  \/ exists a s' d, Py.strip s = String a s' /\ Py.isspace a = false
                    /\ last_char (Py.strip s) = Some d /\ Py.isspace d = false.
Proof.
  unfold Py.strip. destruct (lstrip_spec s) as [->|(a & s' & -> & Ha)]; [by left|].
  right. rewrite (rstrip_head _ _ Ha).
  destruct (rstrip_spec (String a s')) as [H|(d & Hd & Hs)].
  - by rewrite (rstrip_head _ _ Ha) in H.
  - rewrite (rstrip_head _ _ Ha) in Hd. exists a, (Py.rstrip s'), d. done.
Qed.

Lemma strip_idempotent s : Py.strip (Py.strip s) = Py.strip s.
Proof.
  destruct (strip_spec s) as [->|(a & s' & d & E & Ha & Hd & Hs)]; [done|].
  rewrite E in *. by apply (strip_id a s' d).
Qed.

(** ** The tables of the archive *)

Lemma entry_text_stripped e : Py.strip (entry_text e) = entry_text e.
Proof. apply strip_idempotent. Qed.

(** X8.  The tables read from the archive hold no empty id and no empty
    text.  The texts of footnotes and comments are trimmed, and no id of the
    footnotes table starts with the minus sign. *)
Theorem tables_hold_no_empty_entry :
  (forall root k v,
      footnotes_of root !! k = Some v ->
      k <> "" /\ Py.startswith k "-" = false /\ v <> "" /\ Py.strip v = v)
  /\ (forall root k v,
        comments_of root !! k = Some v -> k <> "" /\ v <> "" /\ Py.strip v = v)
  /\ (forall root k v,
        relationships_of root !! k = Some v -> k <> "" /\ v <> "").
Proof.
  repeat apply conj.
  - intros root k v (fn & _ & H)%collect_lookup_sound. unfold footnote_entry in H.
    destruct (ET.get fn (w "id")) as [i|]; [|discriminate].
    destruct (Py.truthy i) eqn:Hi; [|discriminate]. cbn [negb orb] in H.
    destruct (Py.startswith i "-") eqn:Hs; [discriminate|].
    destruct (Py.truthy (entry_text fn)) eqn:Ht; [|discriminate].
    injection H as <- <-. apply truthy_true in Hi, Ht.
    auto using entry_text_stripped.
  - intros root k v (c & _ & H)%collect_lookup_sound. unfold comment_entry in H.
    destruct (ET.get c (w "id")) as [i|]; [|discriminate].
    destruct (Py.truthy i) eqn:Hi; [|discriminate].
    destruct (Py.truthy (entry_text c)) eqn:Ht; [|discriminate].
    injection H as <- <-. apply truthy_true in Hi, Ht.
    auto using entry_text_stripped.
  - intros root k v (rel & _ & H)%collect_lookup_sound. unfold relationship_entry in H.
    destruct (ET.get rel "Id") as [i|]; [|discriminate].
    destruct (ET.get rel "Target") as [t|]; [|discriminate].
    destruct (Py.truthy i) eqn:Hi; [|discriminate].
    destruct (Py.truthy t) eqn:Ht; [|discriminate].
    injection H as <- <-. apply truthy_true in Hi, Ht. done.
Qed.

Lemma tables_hold_no_empty_entry_witness :
  "10" <> "" /\ Py.startswith "10" "-" = false /\ "ten" <> "" /\ Py.strip "ten" = "ten".
Proof.
  apply (proj1 tables_hold_no_empty_entry Sample.footnotes_numeric "10" "ten").
  vm_compute. reflexivity.
Defined.

(** X9.  The markup text of a successful import is trimmed: it is empty or
    it starts and ends with a character that is no white space; the HTML is
    the rendering of that text. *)
Theorem import_markdown_trimmed zip_open fromstring render b64encode now rank content
    filename store res :
  import_docx zip_open fromstring render b64encode now rank content filename store
    = inr res ->
  Py.strip (markdown res) = markdown res
  /\ (markdown res = ""
      \/ exists a s d, markdown res = String a s /\ Py.isspace a = false
                       /\ last_char (markdown res) = Some d /\ Py.isspace d = false)
  /\ html res = render (markdown res).
Proof.
  intros H. apply import_docx_inr in H as (z & rel & fn & cm & root & bl & r & H).
  destruct H as (_ & _ & _ & _ & _ & _ & _ & _ & -> & -> & _).
  split; [apply strip_idempotent|]. split; [apply strip_spec|done].
Qed.

Lemma import_markdown_trimmed_witness :
  Py.strip (markdown Cases.result_unknowns) = markdown Cases.result_unknowns
  /\ (markdown Cases.result_unknowns = ""
      \/ exists a s d, markdown Cases.result_unknowns = String a s /\ Py.isspace a = false
                       /\ last_char (markdown Cases.result_unknowns) = Some d
                       /\ Py.isspace d = false)
  /\ html Cases.result_unknowns = Sample.render0 (markdown Cases.result_unknowns).
Proof.
  apply (import_markdown_trimmed Sample.zip_main (Sample.parsed Cases.doc_unknowns)
           Sample.render0 Sample.b64encode0 "2026-01-01T00:00:00+00:00" Sample.rank0
           [] "a.docx" false).
  vm_compute. reflexivity.
Defined.

(** ** Strings *)

Lemma str_app_cons c a b : String c a +:+ b = String c (a +:+ b).
Proof. reflexivity. Qed.

Lemma str_app_nil_l a : "" +:+ a = a.
Proof. reflexivity. Qed.

Lemma str_app_assoc a b c : (a +:+ b) +:+ c = a +:+ (b +:+ c).
Proof.
  induction a as [|x a IH]; [done|]. rewrite !str_app_cons. by rewrite IH.
Qed.

Lemma str_app_length a b : String.length (a +:+ b) = String.length a + String.length b.
Proof.
  induction a as [|x a IH]; [done|]. rewrite str_app_cons. simpl. by rewrite IH.
Qed.

Lemma count_char_app c a b : count_char c (a +:+ b) = count_char c a + count_char c b.
Proof.
  induction a as [|x a IH]; [done|]. rewrite str_app_cons. simpl. rewrite IH. lia.
Qed.

Lemma last_char_app a b :
  last_char (a +:+ b) = match last_char b with Some d => Some d | None => last_char a end.
Proof.
  induction a as [|x a IH]; [rewrite str_app_nil_l; by destruct (last_char b)|].
  rewrite str_app_cons. simpl. rewrite IH. by destruct (last_char b), (last_char a).
Qed.

Lemma forall_chars_app p a b :
  Py.forall_chars p (a +:+ b) = Py.forall_chars p a && Py.forall_chars p b.
Proof.
  induction a as [|x a IH]; [done|]. rewrite str_app_cons. simpl. rewrite IH.
  by rewrite andb_assoc.
Qed.

Lemma take_app a b : Py.take (String.length a) (a +:+ b) = a.
Proof.
  induction a as [|x a IH]; [by destruct b|]. rewrite str_app_cons. simpl. by rewrite IH.
Qed.

Lemma drop_app a b : Py.drop (String.length a) (a +:+ b) = b.
Proof. induction a as [|x a IH]; [done|]. rewrite str_app_cons. simpl. by rewrite IH. Qed.

Lemma startswith_app p a : Py.startswith (p +:+ a) p = true.
Proof.
  induction p as [|x p IH]; [done|]. rewrite str_app_cons. simpl.
  by rewrite bool_decide_eq_true_2, IH.
Qed.

Lemma rev_app_append s acc : String.rev_app s acc = String.rev s +:+ acc.
Proof.
  revert acc. induction s as [|c s IH]; intros acc; [done|].
  unfold String.rev. cbn [String.rev_app]. rewrite (IH (String c acc)), (IH (String c "")).
  by rewrite str_app_assoc.
Qed.

Lemma rev_app_app a b acc :
  String.rev_app (a +:+ b) acc = String.rev_app b (String.rev_app a acc).
Proof.
  revert acc. induction a as [|c a IH]; intros acc; [done|].
  rewrite str_app_cons. cbn [String.rev_app]. apply IH.
Qed.

Lemma rev_append a b : String.rev (a +:+ b) = String.rev b +:+ String.rev a.
Proof. unfold String.rev at 1. rewrite rev_app_app. apply rev_app_append. Qed.

Lemma rev_involutive s : String.rev (String.rev s) = s.
Proof.
  induction s as [|c s IH]; [done|].
  change (String c s) with (String c "" +:+ s) at 1.
  rewrite rev_append, rev_append, IH. done.
Qed.

Lemma endswith_app a p : Py.endswith (a +:+ p) p = true.
Proof. unfold Py.endswith. rewrite rev_append. apply startswith_app. Qed.

(** ** Lines of the export *)

Lemma scan_line_plain line :
  pipe_delimited line = false ->
  scan_line false line
  = (false, Some (if blank line then "<w:p/>" else paragraph_xml line)).
Proof. intros Hp. unfold scan_line. rewrite Hp. cbn. by destruct (blank line). Qed.

(** X10.  When no line of the markup text starts and ends with a pipe once
    trimmed, the export writes one paragraph per line, in order: the empty
    paragraph for a blank line, else the paragraph of the line. *)
Theorem one_paragraph_per_line md :
  Forall (fun line => pipe_delimited line = false) (Py.splitlines md) ->
  scan_lines false (Py.splitlines md)
  = map (fun line => if blank line then "<w:p/>" else paragraph_xml line) (Py.splitlines md).
Proof.
  generalize (Py.splitlines md) as lines. intros lines Hall.
  induction Hall as [|line lines Hp _ IH]; [done|].
  cbn [scan_lines map]. rewrite (scan_line_plain _ Hp). by rewrite IH.
Qed.

Lemma one_paragraph_per_line_witness :
  let md := "# Title" +:+ Py.nl +:+ Py.nl +:+ "Some *italic* text" in
  scan_lines false (Py.splitlines md)
  = map (fun line => if blank line then "<w:p/>" else paragraph_xml line) (Py.splitlines md).
Proof.
  intros md. apply (one_paragraph_per_line md).
  vm_compute. repeat constructor.
Defined.

Lemma heading_level_hashes k s :
  (forall s', s <> String "#" s') -> heading_level (Py.times "#" k +:+ s) = k.
Proof.
  intros Hs. induction k as [|k IH].
  - rewrite str_app_nil_l. destruct s as [|c s]; [done|].
    simpl. destruct (Ascii.ascii_dec c "#") as [->|Hc]; [by destruct (Hs s)|].
    destruct c as [[] [] [] [] [] [] [] []]; try done.
  - cbn [Py.times]. rewrite str_app_cons. cbn [heading_level]. by rewrite IH.
Qed.

Lemma drop_hashes k s : Py.drop k (Py.times "#" k +:+ s) = s.
Proof.
  induction k as [|k IH]; [reflexivity|].
  cbn [Py.times]. rewrite str_app_cons. cbn [Py.drop]. exact IH.
Qed.

Lemma paragraph_xml_of line :
  paragraph_xml line
  = paragraph_of
      (if Nat.leb 1 (heading_level line) && Nat.leb (heading_level line) 6
       then heading_ppr (heading_level line) else "")
      (if negb (Nat.eqb (heading_level line) 0)
          && Py.str_eqb (Py.take 1 (Py.drop (heading_level line) line)) " "
       then Py.strip (Py.drop (heading_level line) line) else line).
Proof. unfold paragraph_xml, paragraph_of, heading_ppr. cbv zeta. reflexivity. Qed.

(** X11.  A line of [k] hash signs, at least one, and a space and a text
    gives a paragraph whose text is the trimmed text; it has the style of
    the heading of level [k] when [k] is at most six, and no style beyond:
    the hash signs are dropped all the same.  When the hash signs are
    followed by a character that is neither a hash sign nor a space, or by
    nothing, the text of the paragraph is the whole line with its hash
    signs, and the style is set as before. *)
Theorem heading_lines k :
  1 <= k ->
  (forall t,
      paragraph_xml (Py.times "#" k +:+ " " +:+ t)
      = paragraph_of (if Nat.leb k 6 then heading_ppr k else "") (Py.strip t))
  /\ (forall s,
        (forall s', s <> String "#" s') -> (forall s', s <> String " " s') ->
        paragraph_xml (Py.times "#" k +:+ s)
        = paragraph_of (if Nat.leb k 6 then heading_ppr k else "") (Py.times "#" k +:+ s)).
Proof.
  intros Hk. split.
  - intros t. rewrite paragraph_xml_of.
    rewrite (heading_level_hashes k (" " +:+ t)) by (intros s' [=]).
    rewrite drop_hashes. destruct k as [|k]; [lia|]. cbn [Nat.leb Nat.eqb negb andb].
    change (Py.str_eqb (Py.take 1 (" " +:+ t)) " ") with true. cbn match.
    change (Py.strip (" " +:+ t)) with (Py.strip t). done.
  - intros s Hs1 Hs2. rewrite paragraph_xml_of.
    rewrite (heading_level_hashes k s Hs1), drop_hashes.
    destruct k as [|k]; [lia|]. cbn [Nat.leb Nat.eqb negb andb].
    assert (Hsp : Py.str_eqb (Py.take 1 s) " " = false).
    { apply str_eqb_false. destruct s as [|c s]; [done|]. simpl. destruct s; intros [= ->].
      - by destruct (Hs2 "").
      - by destruct (Hs2 (String a s)). }
    by rewrite Hsp.
Qed.

Lemma heading_lines_witness :
  paragraph_xml (Py.times "#" 7 +:+ " " +:+ "deep ")
  = paragraph_of (if Nat.leb 7 6 then heading_ppr 7 else "") (Py.strip "deep ")
  /\ paragraph_xml (Py.times "#" 1 +:+ "tag")
     = paragraph_of (if Nat.leb 1 6 then heading_ppr 1 else "") (Py.times "#" 1 +:+ "tag").
Proof.
  destruct (heading_lines 7) as [H7 _]; [lia|].
  destruct (heading_lines 1) as [_ H1]; [lia|].
  split; [apply H7|]. apply H1; intros s' [=].
Defined.

(** ** Tables on the way back *)

Lemma row_line_delimited cells : pipe_delimited (row_line cells) = true.
Proof.
  apply pipe_line_delimited.
  - reflexivity.
  - apply endswith_char. unfold row_line. by rewrite !last_char_app.
Qed.

Lemma scan_lines_table in_table lines :
  Forall (fun line => pipe_delimited line = true) lines -> scan_lines in_table lines = [].
Proof.
  intros Hall. revert in_table.
  induction Hall as [|line lines Hp _ IH]; intros in_table; [done|].
  cbn [scan_lines]. unfold scan_line. rewrite Hp. apply IH.
Qed.

Lemma splitlines_go_push line cur s :
  Py.forall_chars in_line line = true ->
  Py.splitlines_go cur (line +:+ s) = Py.splitlines_go (String.rev_app line cur) s.
Proof.
  revert cur. induction line as [|c line IH]; intros cur; [done|].
  cbn [Py.forall_chars]. intros [Hc Hl]%andb_true_iff. rewrite str_app_cons.
  cbn [Py.splitlines_go String.rev_app]. unfold in_line in Hc.
  apply negb_true_iff in Hc. rewrite Hc. by apply IH.
Qed.

Lemma rev_app_nonempty c line cur : String.rev_app (String c line) cur <> "".
Proof.
  rewrite rev_app_append. intros H.
  apply (f_equal String.length) in H. rewrite str_app_length in H.
  unfold String.rev in H. cbn [String.rev_app] in H.
  rewrite rev_app_append, str_app_length in H. simpl in H. lia.
Qed.

Lemma join_cons_nonempty sep p rest : p <> "" -> Py.join sep (p :: rest) <> "".
Proof. destruct p; [done|]. destruct rest; done. Qed.

Lemma splitlines_go_feed cur d rest :
  Py.splitlines_go cur (String (Py.chr 10) (String d rest))
  = String.rev cur :: Py.splitlines_go "" (String d rest).
Proof. reflexivity. Qed.

(** Lines that hold no line end and are not empty are the lines of their
    join. *)
Lemma splitlines_join lines :
  Forall (fun line => Py.forall_chars in_line line = true /\ line <> "") lines ->
  Py.splitlines (Py.join Py.nl lines) = lines.
Proof.
  unfold Py.splitlines. induction 1 as [|p lines [Hp Hne] Hall IH]; [done|].
  destruct lines as [|p2 lines].
  - cbn [Py.join]. rewrite <- (append_empty_r p) at 1.
    rewrite (splitlines_go_push _ _ _ Hp). cbn [Py.splitlines_go].
    destruct p as [|c p]; [done|].
    destruct (String.rev_app (String c p) "") eqn:E; [by apply rev_app_nonempty in E|].
    cbn [Py.is_empty]. rewrite <- E. change (String.rev_app (String c p) "")
      with (String.rev (String c p)). by rewrite rev_involutive.
  - change (Py.join Py.nl (p :: p2 :: lines))
      with (p +:+ Py.nl +:+ Py.join Py.nl (p2 :: lines)).
    rewrite (splitlines_go_push _ _ _ Hp).
    destruct (Py.join Py.nl (p2 :: lines)) as [|d rest] eqn:Ej.
    { apply Forall_cons in Hall as [[_ Hne2] _]. by apply join_cons_nonempty in Ej. }
    change (Py.nl +:+ String d rest) with (String (Py.chr 10) (String d rest)).
    rewrite splitlines_go_feed, IH. f_equal.
    change (String.rev_app p "") with (String.rev p). apply rev_involutive.
Qed.

Lemma join_in_line sep parts :
  Py.forall_chars in_line sep = true ->
  Forall (fun part => Py.forall_chars in_line part = true) parts ->
  Py.forall_chars in_line (Py.join sep parts) = true.
Proof.
  intros Hsep. induction 1 as [|p parts Hp Hall IH]; [done|].
  destruct parts as [|p2 parts]; [done|].
  change (Py.join sep (p :: p2 :: parts)) with (p +:+ sep +:+ Py.join sep (p2 :: parts)).
  by rewrite !forall_chars_app, Hp, Hsep, IH.
Qed.

Lemma row_line_in_line cells :
  Forall (fun cell => Py.forall_chars in_line cell = true) cells ->
  Py.forall_chars in_line (row_line cells) = true /\ row_line cells <> "".
Proof.
  intros Hall. split; [|done]. unfold row_line.
  rewrite !forall_chars_app, (join_in_line " | " cells); done.
Qed.

Lemma pad_row_in_line header row :
  Forall (fun cell => Py.forall_chars in_line cell = true) row ->
  Forall (fun cell => Py.forall_chars in_line cell = true) (pad_row header row).
Proof.
  intros Hrow. unfold pad_row. apply Forall_take, Forall_app. split; [done|].
  by apply Forall_replicate.
Qed.

(** X12.  A line of a table written by the import is a table line for the
    export, whatever its cells.  When no cell holds a line end, the markup
    of a table written by the import gives no paragraph at all when it is
    exported: the table is dropped. *)
Theorem imported_table_is_dropped_by_export table r rel_map header rest r' :
  table_rows (ET.findall table (w "tr")) r rel_map = (header :: rest, r') ->
  Forall (Forall (fun cell => Py.forall_chars in_line cell = true)) (header :: rest) ->
  (forall in_table row, scan_line in_table (row_line row) = (true, None))
  /\ forall in_table,
       scan_lines in_table (Py.splitlines (fst (_parse_table table r rel_map))) = [].
Proof.
  intros Hrows Hcells. split.
  - intros in_table row. unfold scan_line. by rewrite row_line_delimited.
  - intros in_table. rewrite (parse_table_rows _ _ _ _ _ _ Hrows). cbn [fst].
    apply Forall_cons in Hcells as [Hh Hrest].
    assert (Hlines : Forall (fun line => Py.forall_chars in_line line = true /\ line <> "")
                       (md_rows header rest)).
    { unfold md_rows. apply Forall_app. split.
      - constructor; [by apply row_line_in_line|].
        constructor; [|constructor]. apply row_line_in_line. by apply Forall_replicate.
      - apply Forall_fmap, Forall_forall. intros row Hrow. cbn.
        apply row_line_in_line, pad_row_in_line.
        by apply (proj1 (Forall_forall _ _) Hrest). }
    rewrite (splitlines_join _ Hlines). apply scan_lines_table.
    unfold md_rows. apply Forall_app. split.
    + repeat constructor; apply row_line_delimited.
    + apply Forall_fmap, Forall_forall. intros row _. apply row_line_delimited.
Qed.

Lemma imported_table_is_dropped_by_export_witness :
  (forall in_table row, scan_line in_table (row_line row) = (true, None))
  /\ forall in_table,
       scan_lines in_table
         (Py.splitlines (fst (_parse_table Sample.table_short_row (import_report0 "a.docx") ∅)))
       = [].
Proof.
  apply (imported_table_is_dropped_by_export Sample.table_short_row
           (import_report0 "a.docx") ∅ ["h1"; "h2"] [["a"]] (import_report0 "a.docx")).
  - vm_compute. reflexivity.
  - repeat constructor.
Defined.

(** ** Escaping *)

Lemma html_escape_cons c s :
  Py.html_escape (String c s)
  = (if Nat.eqb (Py.ord c) 38 then "&amp;"
     else if Nat.eqb (Py.ord c) 60 then "&lt;"
     else if Nat.eqb (Py.ord c) 62 then "&gt;"
     else if Nat.eqb (Py.ord c) 34 then "&quot;"
     else if Nat.eqb (Py.ord c) 39 then "&#x27;"
     else String c "") +:+ Py.html_escape s.
Proof. reflexivity. Qed.

Lemma ord_neq c x : Nat.eqb (Py.ord c) (Py.ord x) = false -> bool_decide (c = x) = false.
Proof.
  intros H. apply bool_decide_eq_false. intros ->. by rewrite Nat.eqb_refl in H.
Qed.

(** The escaped text holds no angle bracket. *)
Lemma html_escape_brackets s :
  count_char "<" (Py.html_escape s) = 0 /\ count_char ">" (Py.html_escape s) = 0.
Proof.
  induction s as [|c s [IH1 IH2]]; [done|].
  rewrite html_escape_cons, !count_char_app, IH1, IH2.
  destruct (Nat.eqb (Py.ord c) 38); [done|].
  destruct (Nat.eqb (Py.ord c) 60) eqn:H60; [done|].
  destruct (Nat.eqb (Py.ord c) 62) eqn:H62; [done|].
  destruct (Nat.eqb (Py.ord c) 34); [done|].
  destruct (Nat.eqb (Py.ord c) 39); [done|].
  cbn [count_char]. by rewrite (ord_neq c "<" H60), (ord_neq c ">" H62).
Qed.

Lemma heading_ppr_brackets k :
  1 <= k <= 6 ->
  count_char "<" (heading_ppr k) = 3 /\ count_char ">" (heading_ppr k) = 3.
Proof.
  intros Hk. destruct k as [|[|[|[|[|[|[|]]]]]]]; try lia; vm_compute; done.
Qed.

(** The paragraph of a line holds six opening and six closing angle
    brackets, and three more of each when it has a heading style. *)
Lemma paragraph_xml_brackets line :
  let styled := Nat.leb 1 (heading_level line) && Nat.leb (heading_level line) 6 in
  count_char "<" (paragraph_xml line) = (if styled then 9 else 6)
  /\ count_char ">" (paragraph_xml line) = (if styled then 9 else 6).
Proof.
  cbn zeta. rewrite paragraph_xml_of. unfold paragraph_of. rewrite !count_char_app.
  match goal with
  | |- context [Py.html_escape ?t] => destruct (html_escape_brackets t) as [-> ->]
  end.
  change (count_char "<" "<w:p>") with 1. change (count_char ">" "<w:p>") with 1.
  replace (count_char "<" (q "<w:r><w:t xml:space='preserve'>")) with 2
    by (vm_compute; reflexivity).
  replace (count_char ">" (q "<w:r><w:t xml:space='preserve'>")) with 2
    by (vm_compute; reflexivity).
  change (count_char "<" "</w:t></w:r></w:p>") with 3.
  change (count_char ">" "</w:t></w:r></w:p>") with 3.
  destruct (Nat.leb 1 (heading_level line) && Nat.leb (heading_level line) 6) eqn:Hs.
  - apply andb_true_iff in Hs as [H1%Nat.leb_le H6%Nat.leb_le].
    destruct (heading_ppr_brackets (heading_level line)) as [-> ->]; [lia|]. done.
  - done.
Qed.

(** X13.  The text of a line adds no angle bracket to what the scanner
    writes for it.  Whatever the state, a turn of the scanner writes
    nothing (for a table line, and within a table for a separator row or a
    blank line), or the empty paragraph with one bracket of each kind (for a
    blank line elsewhere), or a paragraph with six opening and six closing
    angle brackets, and three more of each when the line starts with one to
    six hash signs. *)
Theorem paragraph_markup_is_fixed in_table line :
  let styled := Nat.leb 1 (heading_level line) && Nat.leb (heading_level line) 6 in
  match snd (scan_line in_table line) with
  | None =>
      pipe_delimited line = true
      \/ (in_table = true /\ (dash_run line \/ blank line = true))
  | Some par =>
      pipe_delimited line = false
      /\ count_char "<" par = (if blank line then 1 else if styled then 9 else 6)
      /\ count_char ">" par = (if blank line then 1 else if styled then 9 else 6)
  end.
Proof.
  cbn zeta. pose proof (paragraph_xml_brackets line) as [Hl Hr]. cbn zeta in Hl, Hr.
  unfold scan_line. destruct (pipe_delimited line) eqn:Hp; [by left|].
  destruct in_table; cbn [andb negb].
  - destruct (separator_row line) eqn:Hs; cbn [orb snd].
    + right. split; [done|]. left. by apply separator_row_spec.
    + destruct (blank line) eqn:Hb; cbn [snd].
      * right. split; [done|]. by right.
      * done.
  - destruct (blank line) eqn:Hb; cbn [snd]; [|done].
    split; [done|]. split; reflexivity.
Qed.

(** ** File names and titles *)

Lemma startswith_inv s p : Py.startswith s p = true -> exists b, s = p +:+ b.
Proof.
  revert s. induction p as [|x p IH]; intros s; [eauto|].
  destruct s as [|c s]; [discriminate|]. cbn [Py.startswith].
  intros [Hc Hs]%andb_true_iff. apply bool_decide_eq_true in Hc as ->.
  destruct (IH _ Hs) as [b ->]. by exists b.
Qed.

Lemma endswith_inv s p : Py.endswith s p = true -> exists a, s = a +:+ p.
Proof.
  unfold Py.endswith. intros [b Hb]%startswith_inv. exists (String.rev b).
  rewrite <- (rev_involutive s), Hb, rev_append. by rewrite rev_involutive.
Qed.

Lemma lower_app a b : lower (a +:+ b) = lower a +:+ lower b.
Proof. induction a as [|c a IH]; [done|]. rewrite !str_app_cons. cbn. by rewrite IH. Qed.

Lemma str_lower_app a b : str_lower (a +:+ b) = str_lower a +:+ str_lower b.
Proof. induction a as [|c a IH]; [done|]. rewrite !str_app_cons. cbn. by rewrite IH. Qed.

Lemma lower_length s : String.length (lower s) = String.length s.
Proof. induction s as [|c s IH]; [done|]. cbn. by rewrite IH. Qed.

Lemma str_lower_split s a b :
  str_lower s = a +:+ b ->
  exists s1 s2, s = s1 +:+ s2 /\ str_lower s1 = a /\ str_lower s2 = b.
Proof.
  revert s. induction a as [|x a IH]; intros s.
  - rewrite str_app_nil_l. intros H. by exists "", s.
  - destruct s as [|c s]; [discriminate|]. rewrite str_app_cons. cbn [str_lower].
    intros [= Hc Hs]. destruct (IH _ Hs) as (s1 & s2 & -> & H1 & H2).
    exists (String c s1), s2. cbn [str_lower]. by rewrite Hc, H1.
Qed.

(** Where the full lower case gives an ASCII character, the lower case of
    the letters A to Z gives the same. *)
Lemma lower_char_ascii c :
  Nat.ltb (Py.ord (lower_char c)) 128 = true -> to_lower c = lower_char c.
Proof.
  destruct c as [[] [] [] [] [] [] [] []]; vm_compute; intros H;
    first [reflexivity | discriminate H].
Qed.

Lemma str_lower_docx ext : str_lower ext = ".docx" -> lower ext = ".docx".
Proof.
  destruct ext as [|c1 [|c2 [|c3 [|c4 [|c5 [|c6 ext]]]]]]; try discriminate.
  cbn [str_lower lower]. intros [= H1 H2 H3 H4 H5].
  rewrite !lower_char_ascii, H1, H2, H3, H4, H5; first [done | by rewrite ?H1, ?H2, ?H3, ?H4, ?H5].
Qed.

Lemma strip_docx_ext base ext : lower ext = ".docx" -> strip_docx (base +:+ ext) = base.
Proof.
  intros Hext. unfold strip_docx. rewrite lower_app, Hext, endswith_app.
  assert (Hlen : String.length ext = 5) by (by rewrite <- lower_length, Hext).
  rewrite str_app_length, Hlen.
  replace (String.length base + 5 - 5) with (String.length base) by lia.
  apply take_app.
Qed.

Lemma accepted_name_split name :
  docx_name_accepted (Some name) = true ->
  exists base ext, name = base +:+ ext /\ lower ext = ".docx".
Proof.
  unfold docx_name_accepted. intros [_ He]%andb_true_iff.
  apply endswith_inv in He as [a Ha].
  apply str_lower_split in Ha as (base & ext & -> & _ & Hext).
  exists base, ext. split; [done|]. by apply str_lower_docx.
Qed.

(** X14.  When the import endpoint accepts the name of the uploaded file,
    the title of a successful import is the name without its last five
    characters, and the default title when nothing is left of it.  The
    title is never empty. *)
Theorem title_of_accepted_name zip_open fromstring render b64encode now rank content
    filename store res :
  docx_name_accepted (Some filename) = true ->
  import_docx zip_open fromstring render b64encode now rank content filename store
    = inr res ->
  let base := Py.take (String.length filename - 5) filename in
  title res = (if Py.truthy base then base else "Imported Document")
  /\ title res <> "".
Proof.
  intros Hacc H. cbn zeta.
  apply import_docx_inr in H as (z & rel & fn & cm & root & bl & r & H).
  destruct H as (_ & _ & _ & _ & _ & _ & _ & _ & _ & _ & ->).
  apply accepted_name_split in Hacc as (base & ext & -> & Hext).
  assert (Hlen : String.length ext = 5) by (by rewrite <- lower_length, Hext).
  rewrite (strip_docx_ext _ _ Hext), str_app_length, Hlen.
  replace (String.length base + 5 - 5) with (String.length base) by lia.
  rewrite take_app. split; [done|]. by destruct base.
Qed.

Lemma title_of_accepted_name_witness :
  let base := Py.take (String.length "a.docx" - 5) "a.docx" in
  title Cases.result_unknowns = (if Py.truthy base then base else "Imported Document")
  /\ title Cases.result_unknowns <> "".
Proof.
  apply (title_of_accepted_name Sample.zip_main (Sample.parsed Cases.doc_unknowns)
           Sample.render0 Sample.b64encode0 "2026-01-01T00:00:00+00:00" Sample.rank0
           [] "a.docx" false).
  - reflexivity.
  - vm_compute. reflexivity.
Defined.

Lemma export_title_nonempty note_title : Py.truthy (export_title note_title) = true.
Proof.
  unfold export_title. destruct note_title as [t|]; [|done].
  by destruct (Py.truthy t) eqn:Ht.
Qed.

(** X15.  The file name under which the export endpoint offers a note (its
    title, or the word note when it has none, followed by the extension) is
    accepted by the import endpoint, and a successful import of a file of
    that name has the title of the export. *)
Theorem title_survives_export_and_import zip_open fromstring render b64encode now rank
    content store res note_title :
  import_docx zip_open fromstring render b64encode now rank content
    (export_filename note_title) store = inr res ->
  docx_name_accepted (Some (export_filename note_title)) = true
  /\ title res = export_title note_title.
Proof.
  intros H. pose proof (export_title_nonempty note_title) as Hne.
  apply import_docx_inr in H as (z & rel & fn & cm & root & bl & r & H).
  destruct H as (_ & _ & _ & _ & _ & _ & _ & _ & _ & _ & ->).
  unfold export_filename. split.
  - unfold docx_name_accepted. rewrite str_lower_app.
    change (str_lower ".docx") with ".docx". rewrite endswith_app, andb_true_r.
    apply truthy_true. intros E. apply (f_equal String.length) in E.
    rewrite str_app_length in E. simpl in E. lia.
  - rewrite (strip_docx_ext (export_title note_title) ".docx") by done. by rewrite Hne.
Qed.

Lemma title_survives_export_and_import_witness :
  docx_name_accepted (Some (export_filename (Some "a"))) = true
  /\ title Cases.result_unknowns = export_title (Some "a").
Proof.
  apply (title_survives_export_and_import Sample.zip_main
           (Sample.parsed Cases.doc_unknowns) Sample.render0 Sample.b64encode0
           "2026-01-01T00:00:00+00:00" Sample.rank0 [] false Cases.result_unknowns
           (Some "a")).
  vm_compute. reflexivity.
Defined.

(** ** The order of the trailing sections *)

(** With ids that are no digit strings the sorted ids are the distinct ids
    in the order of their code points. *)
Lemma sorted_ids_strings rank ids :
  Forall (fun x => Py.isdigit x = false) ids ->
  exists l, sorted_ids rank ids = inr l
            /\ l ≡ₚ remove_dups ids
            /\ Sorted String.le l.
Proof.
  intros Hall.
  set (g := fun x : string => (KStr x, x)).
  assert (Hxs : Forall (fun x => Py.isdigit x = false) (set_iter rank ids)).
  { apply Forall_forall. intros x Hx%set_iter_elem.
    by apply (proj1 (Forall_forall _ _) Hall). }
  assert (Hm : mapM (fun x => let* k := id_key x in ret (k, x)) (set_iter rank ids)
               = inr (map g (set_iter rank ids))).
  { apply mapM_total. eapply Forall_impl; [exact Hxs|].
    intros x Hx. cbn beta. by rewrite (id_key_str _ Hx). }
  unfold sorted_ids. rewrite Hm. cbn [bind].
  assert (Hno : existsb (fun kx => is_int_key (fst kx)) (map g (set_iter rank ids)) = false).
  { apply not_true_is_false. intros (kx & Hin & Hk)%existsb_exists.
    apply in_map_iff in Hin as (x & <- & _). discriminate Hk. }
  rewrite Hno. cbn [andb].
  eexists. split; [reflexivity|]. split.
  - rewrite sort_by_perm. rewrite map_map. cbn [snd g]. rewrite map_id.
    apply set_iter_perm.
  - assert (Hs : Sorted (fun a b => key_leb (fst a) (fst b) = true)
                   (sort_by fst key_leb (map g (set_iter rank ids)))).
    { apply sort_by_sorted; [done|apply key_leb_total]. }
    assert (Hk : Forall (fun kx => fst kx = KStr (snd kx))
                   (sort_by fst key_leb (map g (set_iter rank ids)))).
    { rewrite sort_by_perm. apply Forall_forall.
      intros kx (x & -> & _)%list_elem_of_fmap. done. }
    revert Hs Hk.
    generalize (sort_by fst key_leb (map g (set_iter rank ids))) as l.
    induction l as [|[k x] l IH]; intros Hs Hk; [constructor|].
    apply Sorted_inv in Hs as [Hs Hhd]. apply Forall_cons in Hk as [Hkx Hk].
    cbn [map snd]. constructor; [by apply IH|].
    destruct l as [|[k' x'] l]; [constructor|]. cbn [map snd]. constructor.
    apply HdRel_inv in Hhd. apply Forall_cons in Hk as [Hkx' _].
    cbn [fst snd] in *. subst k k'. cbn in Hhd.
    unfold String.le, Py.str_leb in *. by rewrite Hhd.
Qed.

Lemma trailing_section_of_sorted rank heading line table encountered blocks ids :
  all_defined table encountered ->
  sorted_ids rank encountered = inr ids ->
  trailing_section rank heading line table encountered blocks
  = inr (blocks ++ section_blocks heading line table ids).
Proof.
  intros Hdef Hids. pose proof (sorted_ids_perm _ _ _ Hids) as Hperm.
  unfold trailing_section. destruct encountered as [|i enc].
  - apply Permutation_nil_r in Hperm. subst ids. cbn. by rewrite app_nil_r.
  - rewrite Hids. cbn [bind].
    rewrite (mapM_total _ (fun fid => line fid (default "" (table !! fid)))).
    + cbn [bind ret]. do 2 f_equal. destruct ids; [|done].
      apply Permutation_nil_l in Hperm.
      assert (Hi : i ∈ remove_dups (i :: enc))
        by (apply elem_of_remove_dups, list_elem_of_here).
      rewrite <- Hperm in Hi. by apply elem_of_nil in Hi.
    + apply Forall_forall. intros fid Hfid. rewrite Hperm in Hfid.
      apply (proj1 (elem_of_remove_dups _ _)) in Hfid.
      destruct (proj1 (Forall_forall _ _) Hdef fid Hfid) as [body ->]. done.
Qed.

Lemma mapM_fails {A B : Type} (f : A -> res B) l a e0 :
  a ∈ l -> f a = inl e0 -> exists e, mapM f l = inl e.
Proof.
  induction l as [|b l IH]; intros Hin Hf; [by apply elem_of_nil in Hin|].
  cbn [mapM]. destruct (f b) as [e|v] eqn:Hb; cbn [bind]; [eauto|].
  apply elem_of_cons in Hin as [->|Hin]; [congruence|].
  destruct (IH Hin Hf) as [e He]. rewrite He. cbn [bind]. eauto.
Qed.

(** A digit string that [int] does not read makes the sort fail before any
    comparison. *)
Lemma sorted_ids_unread rank ids x :
  x ∈ ids -> Py.isdigit x = true -> Py.int x = None ->
  exists msg, sorted_ids rank ids = inl (ValueError msg).
Proof.
  intros Hx Hd Hi. unfold sorted_ids.
  destruct (mapM_fails (fun x => let* k := id_key x in ret (k, x)) (set_iter rank ids) x
              (ValueError "invalid literal for int() with base 10")) as [e He].
  { by apply set_iter_elem. }
  { unfold id_key. by rewrite Hd, Hi. }
  rewrite He. cbn [bind]. apply mapM_inl in He as (y & _ & Hy).
  apply bind_inl in Hy as [Hy|(k & _ & Hy)]; [|discriminate].
  apply id_key_error in Hy as [msg ->]. eauto.
Qed.

(** X16.  When the ids referred to are all decimal digits that [int]
    reads (4300 digits at most), the trailing section is written without
    failure and lists each distinct id once, by ascending value; when none
    of them is a digit string, it lists each distinct id once in the order
    of the code points.  When one of them is a digit string that [int]
    does not read (superscript digits, or more than 4300 digits), no
    section is written: the sort raises a value error. *)
Theorem homogeneous_ids_are_sorted rank heading line table encountered blocks :
  all_defined table encountered ->
  (Forall (fun x => is_Some (Py.int x)) encountered ->
   exists ids,
     trailing_section rank heading line table encountered blocks
     = inr (blocks ++ section_blocks heading line table ids)
     /\ ids ≡ₚ remove_dups encountered
     /\ Sorted (fun a b => (id_value a <= id_value b)%N) ids)
  /\ (Forall (fun x => Py.isdigit x = false) encountered ->
      exists ids,
        trailing_section rank heading line table encountered blocks
        = inr (blocks ++ section_blocks heading line table ids)
        /\ ids ≡ₚ remove_dups encountered
        /\ Sorted String.le ids)
  /\ (forall x,
        x ∈ encountered -> Py.isdigit x = true -> Py.int x = None ->
        exists msg,
          trailing_section rank heading line table encountered blocks
          = inl (ValueError msg)).
Proof.
  intros Hdef. split; [|split]; [intros Hall..|intros x Hx Hd Hi].
  - destruct (sorted_ids_numeric rank encountered Hall) as (ids & Hids & Hperm & Hsorted).
    exists ids. split; [by apply trailing_section_of_sorted|done].
  - destruct (sorted_ids_strings rank encountered Hall) as (ids & Hids & Hperm & Hsorted).
    exists ids. split; [by apply trailing_section_of_sorted|done].
  - destruct (sorted_ids_unread rank encountered x Hx Hd Hi) as [msg Hs].
    exists msg. unfold trailing_section.
    destruct encountered as [|i enc]; [by apply elem_of_nil in Hx|]. by rewrite Hs.
Qed.

Lemma homogeneous_ids_are_sorted_witness :
  exists ids,
    trailing_section Sample.rank0 (Py.nl +:+ "## Footnotes") footnote_line
      Cases.notes_footnotes ["10"; "2"; "10"; "1"] ["x"]
    = inr (["x"] ++ section_blocks (Py.nl +:+ "## Footnotes") footnote_line
                      Cases.notes_footnotes ids)
    /\ ids ≡ₚ remove_dups ["10"; "2"; "10"; "1"]
    /\ Sorted (fun a b => (id_value a <= id_value b)%N) ids.
Proof.
  apply (proj1 (homogeneous_ids_are_sorted Sample.rank0 (Py.nl +:+ "## Footnotes")
                  footnote_line Cases.notes_footnotes ["10"; "2"; "10"; "1"] ["x"]
                  ltac:(repeat constructor; vm_compute; eauto))).
  repeat constructor; vm_compute; eauto.
Defined.

(** X17.  When the paragraphs directly under the body refer to an id made
    of decimal digits and to an id that is no digit string, both ids of the
    footnotes table or both of the comments table, the import fails: the
    walk or the sort of the ids raises. *)
Theorem mixed_references_fail rank rel_map fns cms root report body ref_tag table a n b :
  ET.find root (w "body") = Some body ->
  (ref_tag = "footnoteReference" /\ table = fns)
  \/ (ref_tag = "commentReference" /\ table = cms) ->
  a ∈ body_refs body ref_tag table -> Py.int a = Some n ->
  b ∈ body_refs body ref_tag table -> Py.isdigit b = false ->
  exists e, import_document rank rel_map fns cms root report = inl e
            /\ (e = TypeError \/ exists msg, e = ValueError msg).
Proof.
  intros Hbody Hkind Ha Hint Hb Hnd.
  destruct (import_document rank rel_map fns cms root report) as [e|[blocks r]] eqn:H.
  { exists e. split; [done|]. by apply import_document_error in H. }
  exfalso.
  apply import_document_inr in H as (body' & st & sf & sc & Hb' & Hfold & _ & Hf & Hc & _).
  rewrite Hbody in Hb'. injection Hb' as <-.
  apply walk_refs in Hfold as (E1 & E2 & _). cbn in E1, E2.
  fold (body_refs body "footnoteReference" fns) in E1.
  fold (body_refs body "commentReference" cms) in E2.
  rewrite E1 in Hf. rewrite E2 in Hc.
  apply trailing_section_inr in Hf as (ids_f & Hsf & _); [|apply body_refs_defined].
  apply trailing_section_inr in Hc as (ids_c & Hsc & _); [|apply body_refs_defined].
  destruct Hkind as [[-> ->]|[-> ->]].
  - destruct (sorted_ids_mixed rank _ a n b Ha Hint Hb Hnd) as [e He]. congruence.
  - destruct (sorted_ids_mixed rank _ a n b Ha Hint Hb Hnd) as [e He]. congruence.
Qed.

Lemma mixed_references_fail_witness :
  exists e, import_document Sample.rank0 ∅ (footnotes_of Sample.footnotes_mixed) ∅
              Sample.doc_mixed_refs (import_report0 "a.docx") = inl e
            /\ (e = TypeError \/ exists msg, e = ValueError msg).
Proof.
  apply (mixed_references_fail Sample.rank0 ∅ (footnotes_of Sample.footnotes_mixed) ∅
           Sample.doc_mixed_refs (import_report0 "a.docx")
           (Cases.body_of Sample.doc_mixed_refs) "footnoteReference"
           (footnotes_of Sample.footnotes_mixed) "1" 1%N "a").
  - vm_compute. reflexivity.
  - left. split; reflexivity.
  - apply list_elem_of_In. vm_compute. auto.
  - reflexivity.
  - apply list_elem_of_In. vm_compute. auto.
  - reflexivity.
Defined.

(** ** The patterns of the fidelity scan *)

Lemma str_app_eq_nil a b : a +:+ b = "" -> a = "" /\ b = "".
Proof. destruct a; [intros H; split; [done|exact H]|discriminate]. Qed.

Lemma denotes_void_inv s : ~ denotes Re.Void s.
Proof. intros H. inversion H. Qed.

Lemma denotes_eps_inv s : denotes Re.Eps s <-> s = "".
Proof. split; [intros H; by inversion H|intros ->; constructor]. Qed.

Lemma denotes_cls_inv p s : denotes (Re.Cls p) s <-> exists c, s = String c "" /\ p c = true.
Proof.
  split; [intros H; inversion H; subst; eauto|intros (c & -> & Hc); by constructor].
Qed.

Lemma denotes_seq_inv r1 r2 s :
  denotes (Re.Seq r1 r2) s <-> exists s1 s2, s = s1 +:+ s2 /\ denotes r1 s1 /\ denotes r2 s2.
Proof.
  split; [intros H; inversion H; subst; eauto|intros (s1 & s2 & -> & H1 & H2); by constructor].
Qed.

Lemma denotes_alt_inv r1 r2 s : denotes (Re.Alt r1 r2) s <-> denotes r1 s \/ denotes r2 s.
Proof.
  split; [intros H; inversion H; subst; auto|].
  intros [H|H]; [by apply denotes_alt_l|by apply denotes_alt_r].
Qed.

Lemma nullable_spec r : Re.nullable r = true <-> denotes r "".
Proof.
  split.
  - induction r as [| |p|r1 IH1 r2 IH2|r1 IH1 r2 IH2|r IH]; simpl; intros H;
      try discriminate.
    + constructor.
    + apply andb_prop in H as [H1 H2]. apply (denotes_seq r1 r2 "" ""); auto.
    + apply orb_prop in H as [H|H]; [apply denotes_alt_l|apply denotes_alt_r]; auto.
    + constructor.
  - intros H. remember "" as s eqn:Hs. induction H; simpl; try done.
    + apply str_app_eq_nil in Hs as [-> ->]. by rewrite IHdenotes1, IHdenotes2.
    + by rewrite IHdenotes.
    + rewrite IHdenotes; [apply orb_true_r|done].
Qed.

Lemma star_cons_inv r c s :
  denotes (Re.Star r) (String c s) ->
  exists s1 s2, s = s1 +:+ s2 /\ denotes r (String c s1) /\ denotes (Re.Star r) s2.
Proof.
  intros H. remember (Re.Star r) as r' eqn:Hr. remember (String c s) as t eqn:Ht.
  revert s Ht. induction H; intros s' Ht; try discriminate.
  injection Hr as Hr. subst r0. destruct s1 as [|c1 s1].
  - by apply IHdenotes2.
  - rewrite str_app_cons in Ht. injection Ht as Hc Hs. subst c1 s'. eauto.
Qed.

(** The derivative by [c] matches what is left of the matches that start
    with [c]. *)
Lemma deriv_spec c r s : denotes (Re.deriv c r) s <-> denotes r (String c s).
Proof.
  revert s. induction r as [| |p|r1 IH1 r2 IH2|r1 IH1 r2 IH2|r IH]; intros s; simpl.
  - split; intros H; by apply denotes_void_inv in H.
  - split; intros H; [by apply denotes_void_inv in H|]. by apply denotes_eps_inv in H.
  - destruct (p c) eqn:Hp.
    + rewrite denotes_eps_inv, denotes_cls_inv. split.
      * intros ->. eauto.
      * intros (c' & Heq & _). by injection Heq.
    + split; intros H; [by apply denotes_void_inv in H|].
      apply denotes_cls_inv in H as (c' & Heq & Hc). injection Heq as Hcc _. congruence.
  - assert (Hcore : denotes (Re.Seq (Re.deriv c r1) r2) s
                    <-> exists s1 s2, s = s1 +:+ s2 /\ denotes r1 (String c s1)
                                      /\ denotes r2 s2).
    { rewrite denotes_seq_inv.
      split; intros (s1 & s2 & -> & H1 & H2); exists s1, s2;
        (split; [done|]); (split; [by apply IH1|done]). }
    rewrite (denotes_seq_inv r1 r2 (String c s)).
    destruct (Re.nullable r1) eqn:Hn.
    + rewrite denotes_alt_inv, Hcore, IH2. split.
      * intros [(s1 & s2 & -> & H1 & H2)|H2].
        -- by exists (String c s1), s2.
        -- exists "", (String c s). split; [done|]. split; [by apply nullable_spec|done].
      * intros (s1 & s2 & Heq & H1 & H2). destruct s1 as [|c1 s1].
        -- right. rewrite str_app_nil_l in Heq. by subst s2.
        -- left. rewrite str_app_cons in Heq. injection Heq as Hc Hs. subst c1 s. eauto.
    + rewrite Hcore. split.
      * intros (s1 & s2 & -> & H1 & H2). by exists (String c s1), s2.
      * intros (s1 & s2 & Heq & H1 & H2). destruct s1 as [|c1 s1].
        -- apply nullable_spec in H1. congruence.
        -- rewrite str_app_cons in Heq. injection Heq as Hc Hs. subst c1 s. eauto.
  - by rewrite !denotes_alt_inv, IH1, IH2.
  - rewrite denotes_seq_inv. split.
    + intros (s1 & s2 & -> & H1 & H2). apply IH in H1.
      rewrite <- str_app_cons. by constructor.
    + intros H. apply star_cons_inv in H as (s1 & s2 & -> & H1 & H2).
      exists s1, s2. split; [done|]. split; [by apply IH|done].
Qed.

(** [re.match]: some prefix is matched. *)
Lemma match_prefix_spec r s :
  Re.match_prefix r s = true <-> exists p t, s = p +:+ t /\ denotes r p.
Proof.
  revert r. induction s as [|c s IH]; intros r; cbn [Re.match_prefix].
  - rewrite orb_false_r, nullable_spec. split.
    + intros H. by exists "", "".
    + intros (p & t & Heq & H). symmetry in Heq.
      apply str_app_eq_nil in Heq as [-> _]. done.
  - rewrite orb_true_iff, nullable_spec, IH. split.
    + intros [H|(p & t & -> & H)].
      * by exists "", (String c s).
      * exists (String c p), t. split; [done|]. by apply deriv_spec.
    + intros (p & t & Heq & H). destruct p as [|c1 p]; [by left|].
      right. rewrite str_app_cons in Heq. injection Heq as Hc Hs. subst c1 s.
      exists p, t. split; [done|]. by apply deriv_spec.
Qed.

(** [re.search]: some substring is matched. *)
Lemma search_spec r s : Re.search r s = true <-> holds r s.
Proof.
  unfold holds. induction s as [|c s IH]; cbn [Re.search].
  - rewrite orb_false_r, match_prefix_spec. split.
    + intros (p & t & Heq & H). by exists "", p, t.
    + intros (u & p & t & Heq & H). symmetry in Heq.
      apply str_app_eq_nil in Heq as [-> Heq]. by exists p, t.
  - rewrite orb_true_iff, match_prefix_spec, IH. split.
    + intros [(p & t & Heq & H)|(u & p & t & -> & H)].
      * by exists "", p, t.
      * by exists (String c u), p, t.
    + intros (u & p & t & Heq & H). destruct u as [|c1 u].
      * left. by exists p, t.
      * right. rewrite str_app_cons in Heq. injection Heq as Hc Hs. subst c1 s.
        by exists u, p, t.
Qed.

Lemma denotes_star_cls p s :
  denotes (Re.Star (Re.Cls p)) s <-> Py.forall_chars p s = true.
Proof.
  split.
  - intros H. remember (Re.Star (Re.Cls p)) as r eqn:Hr.
    induction H; try done.
    injection Hr as Hr. subst r. apply denotes_cls_inv in H as (c & -> & Hc).
    rewrite str_app_cons, str_app_nil_l. simpl. rewrite Hc. by apply IHdenotes2.
  - induction s as [|c s IH]; simpl; intros H; [constructor|].
    apply andb_prop in H as [Hc H].
    apply (denotes_star_app (Re.Cls p) (String c "") s); [by constructor|by apply IH].
Qed.

Lemma denotes_chr c s : denotes (Re.chr c) s <-> s = String c "".
Proof.
  unfold Re.chr. rewrite denotes_cls_inv. split.
  - intros (d & -> & Hd). by apply bool_decide_eq_true in Hd as ->.
  - intros ->. exists c. split; [done|]. by apply bool_decide_eq_true.
Qed.

Lemma denotes_star_not c s : denotes (Re.Star (Re.not_chr c)) s <-> no_char c s = true.
Proof. apply denotes_star_cls. Qed.

Lemma denotes_plus_not c s :
  denotes (Re.plus (Re.not_chr c)) s <-> s <> "" /\ no_char c s = true.
Proof.
  unfold Re.plus. rewrite denotes_seq_inv. split.
  - intros (s1 & s2 & -> & H1 & H2). apply denotes_star_not in H2.
    apply denotes_cls_inv in H1 as (d & -> & Hd). rewrite str_app_cons, str_app_nil_l.
    split; [done|]. unfold no_char in *. simpl. by rewrite Hd.
  - intros [Hne H]. destruct s as [|d s]; [done|]. unfold no_char in H. simpl in H.
    apply andb_prop in H as [Hd H]. exists (String d ""), s. split; [done|].
    split; [by apply denotes_cls_inv; eauto|by apply denotes_star_not].
Qed.

Lemma denotes_lit l s : denotes (Re.lit l) s <-> s = l.
Proof.
  revert s. induction l as [|c l IH]; intros s; cbn [Re.lit].
  - apply denotes_eps_inv.
  - rewrite denotes_seq_inv. split.
    + intros (s1 & s2 & -> & H1 & H2). apply denotes_chr in H1 as ->.
      by apply IH in H2 as ->.
    + intros ->. exists (String c ""), l. split; [done|].
      split; [by apply denotes_chr|by apply IH].
Qed.

(** [\|.*\|] matches two vertical bars with no line feed between them. *)
Lemma holds_table md :
  holds re_table md
  <-> exists u v t, md = u +:+ "|" +:+ v +:+ "|" +:+ t /\ no_char (Py.chr 10) v = true.
Proof.
  assert (Hlang : forall p, denotes re_table p
                            <-> exists v, p = "|" +:+ v +:+ "|"
                                          /\ no_char (Py.chr 10) v = true).
  { intros p. unfold re_table, Re.dot. rewrite denotes_seq_inv. split.
    - intros (s1 & s2 & -> & H1 & H2). apply denotes_chr in H1 as ->.
      apply denotes_seq_inv in H2 as (v & s3 & -> & H2 & H3).
      apply denotes_chr in H3 as ->. apply denotes_star_not in H2. by exists v.
    - intros (v & -> & Hv). exists "|", (v +:+ "|"). split; [done|].
      split; [by apply denotes_chr|]. apply denotes_seq_inv. exists v, "|".
      split; [done|]. split; [by apply denotes_star_not|by apply denotes_chr]. }
  unfold holds. split.
  - intros (u & p & t & -> & Hp). apply Hlang in Hp as (v & -> & Hv).
    exists u, v, t. split; [|done]. by rewrite !str_app_assoc.
  - intros (u & v & t & -> & Hv). exists u, ("|" +:+ v +:+ "|"), t.
    split; [by rewrite !str_app_assoc|]. apply Hlang. eauto.
Qed.

(** [!\[[^\]]*\]\([^\)]+\)]. *)
Lemma holds_image md :
  holds re_image md
  <-> exists u a b t, md = u +:+ "![" +:+ a +:+ "](" +:+ b +:+ ")" +:+ t
                      /\ no_char "]" a = true /\ b <> "" /\ no_char ")" b = true.
Proof.
  assert (Hlang : forall p, denotes re_image p
                            <-> exists a b, p = "![" +:+ a +:+ "](" +:+ b +:+ ")"
                                            /\ no_char "]" a = true /\ b <> ""
                                            /\ no_char ")" b = true).
  { intros p. unfold re_image. rewrite denotes_seq_inv. split.
    - intros (s1 & s2 & -> & H1 & H2). apply denotes_lit in H1 as ->.
      apply denotes_seq_inv in H2 as (a & s3 & -> & H2 & H3).
      apply denotes_star_not in H2.
      apply denotes_seq_inv in H3 as (s4 & s5 & -> & H3 & H4).
      apply denotes_lit in H3 as ->.
      apply denotes_seq_inv in H4 as (b & s6 & -> & H4 & H5).
      apply denotes_plus_not in H4 as [Hne Hb]. apply denotes_chr in H5 as ->.
      by exists a, b.
    - intros (a & b & -> & Ha & Hne & Hb). exists "![", (a +:+ "](" +:+ b +:+ ")").
      split; [done|]. split; [by apply denotes_lit|]. apply denotes_seq_inv.
      exists a, ("](" +:+ b +:+ ")"). split; [done|].
      split; [by apply denotes_star_not|]. apply denotes_seq_inv.
      exists "](", (b +:+ ")"). split; [done|]. split; [by apply denotes_lit|].
      apply denotes_seq_inv. exists b, ")". split; [done|].
      split; [by apply denotes_plus_not|by apply denotes_chr]. }
  unfold holds. split.
  - intros (u & p & t & -> & Hp). apply Hlang in Hp as (a & b & -> & H).
    exists u, a, b, t. split; [|done]. by rewrite !str_app_assoc.
  - intros (u & a & b & t & -> & H). exists u, ("![" +:+ a +:+ "](" +:+ b +:+ ")"), t.
    split; [by rewrite !str_app_assoc|]. apply Hlang. eauto.
Qed.

(** [\[\^[^\]]+\]]. *)
Lemma holds_footnote md :
  holds re_footnote md
  <-> exists u a t, md = u +:+ "[^" +:+ a +:+ "]" +:+ t
                    /\ a <> "" /\ no_char "]" a = true.
Proof.
  assert (Hlang : forall p, denotes re_footnote p
                            <-> exists a, p = "[^" +:+ a +:+ "]"
                                          /\ a <> "" /\ no_char "]" a = true).
  { intros p. unfold re_footnote. rewrite denotes_seq_inv. split.
    - intros (s1 & s2 & -> & H1 & H2). apply denotes_lit in H1 as ->.
      apply denotes_seq_inv in H2 as (a & s3 & -> & H2 & H3).
      apply denotes_plus_not in H2 as [Hne Ha]. apply denotes_chr in H3 as ->.
      by exists a.
    - intros (a & -> & Hne & Ha). exists "[^", (a +:+ "]"). split; [done|].
      split; [by apply denotes_lit|]. apply denotes_seq_inv. exists a, "]".
      split; [done|]. split; [by apply denotes_plus_not|by apply denotes_chr]. }
  unfold holds. split.
  - intros (u & p & t & -> & Hp). apply Hlang in Hp as (a & -> & H).
    exists u, a, t. split; [|done]. by rewrite !str_app_assoc.
  - intros (u & a & t & -> & H). exists u, ("[^" +:+ a +:+ "]"), t.
    split; [by rewrite !str_app_assoc|]. apply Hlang. eauto.
Qed.

(** X18.  What an export reports as unsupported, read off the text: tables
    exactly when the text holds two vertical bars with no line feed between
    them; images exactly when it holds an exclamation mark, a bracketed
    part without closing bracket and a parenthesised part that is not empty
    and holds no closing parenthesis; footnotes exactly when it holds a
    bracketed part that starts with a caret followed by at least one
    character other than the closing bracket.  Nothing else is reported. *)
Theorem export_unsupported_elements rank md x :
  x ∈ unsupported_elements (export_report rank md) <->
  (x = "tables"
   /\ exists u v t, md = u +:+ "|" +:+ v +:+ "|" +:+ t /\ no_char (Py.chr 10) v = true)
  \/ (x = "images"
      /\ exists u a b t, md = u +:+ "![" +:+ a +:+ "](" +:+ b +:+ ")" +:+ t
                         /\ no_char "]" a = true /\ b <> "" /\ no_char ")" b = true)
  \/ (x = "footnotes"
      /\ exists u a t, md = u +:+ "[^" +:+ a +:+ "]" +:+ t
                       /\ a <> "" /\ no_char "]" a = true).
Proof.
  rewrite <- holds_table, <- holds_image, <- holds_footnote, <- !search_spec.
  unfold export_report. rewrite finalize_elem.
  destruct (Re.search re_table md), (Re.search re_image md), (Re.search re_footnote md);
    cbn; rewrite ?elem_of_app, ?elem_of_cons, ?elem_of_nil; intuition congruence.
Qed.

(** ** The counter of tables *)

Lemma table_cells_nonempty tcs r rel_map :
  nonempty (fst (table_cells tcs r rel_map)) = nonempty tcs.
Proof.
  destruct tcs as [|tc tcs]; [done|]. simpl.
  destruct (table_cell tc r rel_map) as [c r1].
  by destruct (table_cells tcs r1 rel_map).
Qed.

Lemma table_rows_nonempty trs r rel_map :
  nonempty (fst (table_rows trs r rel_map))
  = existsb (fun tr => nonempty (ET.findall tr (w "tc"))) trs.
Proof.
  revert r. induction trs as [|tr trs IH]; intros r; [done|]. simpl.
  pose proof (table_cells_nonempty (ET.findall tr (w "tc")) r rel_map) as Hrow.
  destruct (table_cells (ET.findall tr (w "tc")) r rel_map) as [row r1].
  specialize (IH r1). destruct (table_rows trs r1 rel_map) as [rows r2].
  simpl in *. rewrite <- Hrow, <- IH. by destruct row.
Qed.

Lemma parse_table_tables table r rel_map :
  tables (mapped (snd (_parse_table table r rel_map)))
  = tables (mapped r) + (if has_cell table then 1 else 0).
Proof.
  unfold _parse_table, has_cell.
  pose proof (table_rows_nonempty (ET.findall table (w "tr")) r rel_map) as Hne.
  destruct (table_rows_effect (ET.findall table (w "tr")) r rel_map) as (i & j & He).
  destruct (table_rows _ r rel_map) as [rows r1]. simpl in He, Hne. subst r1.
  rewrite <- Hne. destruct rows; simpl; lia.
Qed.

Lemma import_child_tables rel_map fns cms st child st' :
  import_child rel_map fns cms st child = inr st' ->
  tables (mapped (wk_report st'))
  = tables (mapped (wk_report st)) + (if counted_table child then 1 else 0).
Proof.
  unfold import_child, counted_table. intros H.
  destruct (Py.str_eqb (ET.tag child) (w "p")) eqn:Hp.
  - apply str_eqb_true in Hp. rewrite Hp.
    change (Py.str_eqb (w "p") (w "tbl")) with false. cbn [andb].
    unfold import_paragraph in H. apply bind_inr in H as ([prefix r0] & Hpre & H).
    apply paragraph_prefix_report in Hpre.
    destruct (runs_to_markdown_effect (ET.findall child (w "r")) r0 rel_map) as (i & j & He).
    destruct (runs_to_markdown _ r0 rel_map) as [parts r1]. simpl in He. subst r1.
    injection H as <-. cbn [wk_report].
    rewrite n_times_inc_comments, n_times_inc_footnotes. cbn.
    destruct Hpre as [-> | ->]; cbn; lia.
  - destruct (Py.str_eqb (ET.tag child) (w "tbl")); cbn [andb].
    + pose proof (parse_table_tables child (wk_report st) rel_map) as Ht.
      destruct (_parse_table child (wk_report st) rel_map) as [md r1].
      by injection H as <-.
    + destruct (negb _); injection H as <-; cbn; lia.
Qed.

Lemma walk_tables rel_map fns cms children st st' :
  foldM (import_child rel_map fns cms) children st = inr st' ->
  tables (mapped (wk_report st'))
  = tables (mapped (wk_report st)) + length (List.filter counted_table children).
Proof.
  revert st. induction children as [|child children IH]; intros st.
  - intros [= <-]. cbn. lia.
  - cbn [foldM List.filter]. intros H. apply bind_inr in H as (s1 & Hs1 & H).
    apply import_child_tables in Hs1. apply IH in H. rewrite H, Hs1.
    destruct (counted_table child); cbn [length]; lia.
Qed.

(** X19.  The counter of tables of a successful import grows by the number
    of tables directly under the body that hold at least one cell.  A table
    without rows, a table whose rows hold no cell, and a table nested in a
    cell count for nothing. *)
Theorem tables_counter rank rel_map fns cms root report blocks report' body :
  ET.find root (w "body") = Some body ->
  import_document rank rel_map fns cms root report = inr (blocks, report') ->
  tables (mapped report')
  = tables (mapped report) + length (List.filter counted_table (ET.children body)).
Proof.
  intros Hbody H.
  apply import_document_inr in H as (body' & st & sf & sc & Hb & Hfold & -> & _).
  rewrite Hbody in Hb. injection Hb as <-.
  by apply walk_tables in Hfold.
Qed.

Lemma tables_counter_witness :
  tables (mapped (mkReport (Some "a.docx") (mkMapped 0 1 0 0 0) [] false))
  = 0 + length (List.filter counted_table (ET.children (Cases.body_of Cases.doc_tables))).
Proof.
  apply (tables_counter Sample.rank0 ∅ ∅ ∅ Cases.doc_tables (import_report0 "a.docx")
           ["| h1 | h2 |" +:+ Py.nl +:+ "| --- | --- |" +:+ Py.nl +:+ "| a |  |"; "end"]).
  - vm_compute. reflexivity.
  - vm_compute. reflexivity.
Defined.

(** ** An exported archive read back *)

Lemma all_defined_empty l : all_defined (∅ : gmap string string) l -> l = [].
Proof.
  unfold all_defined. destruct l as [|x l]; [done|].
  intros H. apply Forall_cons in H as [[v Hv] _]. by rewrite lookup_empty in Hv.
Qed.

Lemma export_has_no_auxiliary_part now rank title md docx_zip path :
  namelist docx_zip = map fst (fst (export_note_to_docx now rank title md)) ->
  path = "word/_rels/document.xml.rels" \/ path = "word/footnotes.xml"
  \/ path = "word/comments.xml" ->
  has_member docx_zip path = false.
Proof.
  intros Hn Hpath. unfold has_member. rewrite Hn. apply bool_decide_eq_false.
  cbn [export_note_to_docx fst map]. intros H.
  repeat (apply elem_of_cons in H as [H|H];
          [destruct Hpath as [->|[->| ->]]; discriminate H|]).
  by apply elem_of_nil in H.
Qed.

Lemma optional_table_absent fromstring docx_zip path of_root table :
  has_member docx_zip path = false ->
  optional_table fromstring docx_zip path of_root = inr table -> table = ∅.
Proof. unfold optional_table. intros ->. cbn [negb]. by intros [= <-]. Qed.

(** X20.  An archive with the member names that an export writes has no
    relationships part, no footnotes part and no comments part.  A
    successful import of it therefore resolves no reference: it counts no
    footnote and no comment, and its markdown is made of the blocks of the
    walk alone, without the two trailing sections. *)
Theorem reimport_resolves_no_reference zip_open fromstring render b64encode now now'
    rank title md content filename store docx_zip res :
  zip_open content = Some docx_zip ->
  namelist docx_zip = map fst (fst (export_note_to_docx now' rank title md)) ->
  import_docx zip_open fromstring render b64encode now rank content filename store
    = inr res ->
  footnotes (mapped (report res)) = 0 /\ comments (mapped (report res)) = 0
  /\ exists root body st,
       parse_part fromstring docx_zip "word/document.xml" = inr root
       /\ ET.find root (w "body") = Some body
       /\ foldM (import_child ∅ ∅ ∅) (ET.children body)
            (mkWalk (import_report0 filename) [] [] []) = inr st
       /\ markdown res = Py.strip (Py.join (Py.nl +:+ Py.nl) (blocks st)).
Proof.
  intros Hzip Hn H.
  apply import_docx_inr in H
    as (z & rel_map & fns & cms & root & blocks & r & Hz & _ & Hrel & Hf & Hc & Hroot
        & Hdoc & Hrep & Hmd & _).
  rewrite Hzip in Hz. injection Hz as <-.
  apply optional_table_absent in Hrel, Hf, Hc;
    try (apply (export_has_no_auxiliary_part now' rank title md); [done|tauto]).
  subst rel_map fns cms.
  apply import_document_inr in Hdoc as (body & st & sf & sc & Hb & Hfold & -> & Hsf & Hsc & ->).
  pose proof (walk_refs _ _ _ _ _ _ Hfold) as (E1 & E2 & E3 & E4). cbn in E1, E2, E3, E4.
  fold (body_refs body "footnoteReference" ∅) in E1, E3.
  fold (body_refs body "commentReference" ∅) in E2, E4.
  rewrite (all_defined_empty _ (body_refs_defined body "footnoteReference" ∅)) in E1, E3.
  rewrite (all_defined_empty _ (body_refs_defined body "commentReference" ∅)) in E2, E4.
  rewrite E1 in Hsf. rewrite E2 in Hsc. cbn in Hsf, Hsc.
  injection Hsf as <-. injection Hsc as <-.
  rewrite Hrep. cbn [finalize mapped]. rewrite E3, E4.
  repeat split; [done..|]. exists root, body, st. done.
Qed.

Lemma reimport_resolves_no_reference_witness :
  footnotes (mapped (mkReport (Some "a.docx") mapped0 [] false)) = 0
  /\ comments (mapped (mkReport (Some "a.docx") mapped0 [] false)) = 0
  /\ exists root body st,
       parse_part (Sample.parsed Sample.doc_numeric_refs)
         (map (fun e => (fst e, []))
            (fst (export_note_to_docx "" Sample.rank0 "t" "x[^1]")))
         "word/document.xml" = inr root
       /\ ET.find root (w "body") = Some body
       /\ foldM (import_child ∅ ∅ ∅) (ET.children body)
            (mkWalk (import_report0 "a.docx") [] [] []) = inr st
       /\ "x" = Py.strip (Py.join (Py.nl +:+ Py.nl) (blocks st)).
Proof.
  apply (reimport_resolves_no_reference Cases.zip_exported
           (Sample.parsed Sample.doc_numeric_refs) Sample.render0 Sample.b64encode0
           "" "" Sample.rank0 "t" "x[^1]" [] "a.docx" false
           (map (fun e => (fst e, []))
              (fst (export_note_to_docx "" Sample.rank0 "t" "x[^1]")))
           (mkResult "a" "x" "x" (mkReport (Some "a.docx") mapped0 [] false) None)).
  - reflexivity.
  - vm_compute. reflexivity.
  - vm_compute. reflexivity.
Defined.
